(** * Print Sheets: a shallow embedding of the pushbutton script

    The development follows [Print Sheets.pushbutton/script.py].  Python
    text is a list of UTF-16 code units, host objects live in a document
    store addressed by element ids, and every routine that talks to the
    host runs in a small state-and-exception monad whose state records the
    open transaction scopes and the calls issued to the host. *)

From Stdlib Require Import NArith Ascii String List Lia.
From Stdlib Require DecimalString.
From stdpp Require Import base option list gmap sorting.

Local Open Scope N_scope.
Local Open Scope nat_scope.

(** ** Text *)

(** A code unit of a unicode string. *)
Abbreviation uchar := N (only parsing).

(** A unicode string ([unicode] in IronPython 2.7). *)
Abbreviation ustring := (list N) (only parsing).

(** An ASCII literal of the source as a unicode string. *)
Definition u (s : string) : ustring :=
  map N_of_ascii (list_ascii_of_string s).

(** [NPC], the non printable character U+200E (Left-To-Right Mark). *)
Definition NPC : ustring := [8206%N].

Definition TAB : uchar := 9%N.
Definition LF : uchar := 10%N.
Definition SPACE : uchar := 32%N.

Definition ueqb (a b : ustring) : bool := bool_decide (a = b).

(** [s * n] *)
Definition str_mul (s : ustring) (n : nat) : ustring :=
  concat (replicate n s).

(** [s.startswith(p)] *)
Fixpoint startswith (p s : ustring) : bool :=
  match p, s with
  | [], _ => true
  | _ :: _, [] => false
  | a :: p', b :: s' => N.eqb a b && startswith p' s'
  end.

(** [s.replace(old, new)] for a non-empty [old]: scan from the left,
    [skip] counts the code units of a matched occurrence still to pass. *)
Fixpoint replace_from (skip : nat) (old new s : ustring) : ustring :=
  match s with
  | [] => []
  | c :: s' =>
      match skip with
      | S k => replace_from k old new s'
      | O =>
          if startswith old s
          then new ++ replace_from (length old - 1) old new s'
          else c :: replace_from 0 old new s'
      end
  end.

(** [s.replace(old, new)]; with an empty [old] Python puts [new] before
    every code unit and at the end. *)
Definition replace (old new s : ustring) : ustring :=
  match old with
  | [] => new ++ flat_map (fun c => c :: new) s
  | _ :: _ => replace_from 0 old new s
  end.

(** ** Exceptions and results *)

Inductive exn : Type :=
| ValueError
| KeyError
| IndexError
| AttributeError
| ReError            (* re.error: the pattern does not compile *)
| NotModelled        (* a construct outside the fragment embedded here *)
| HostException (what : string)
| SystemExit.

Inductive result (A : Type) : Type :=
| Ok (a : A)
| Raise (e : exn).
Arguments Ok {A} a.
Arguments Raise {A} e.

Definition rbind {A B} (r : result A) (k : A -> result B) : result B :=
  match r with
  | Ok a => k a
  | Raise e => Raise e
  end.

(** ** [str.format] *)

(** The scanner of [str.format]: plain text, just after an opening brace,
    inside a field name, just after a closing brace in plain text. *)
Inductive fmt_state : Type :=
| FText
| FOpen
| FField (name_rev : ustring)
| FClose.

Definition LBRACE : uchar := 123%N.
Definition RBRACE : uchar := 125%N.

Definition is_ident_start (c : uchar) : bool :=
  ((97 <=? c) && (c <=? 122) || (65 <=? c) && (c <=? 90) || (c =? 95))%N.

Definition is_ident_char (c : uchar) : bool :=
  (is_ident_start c || (48 <=? c) && (c <=? 57))%N.

Fixpoint kw_lookup (kwargs : list (ustring * ustring)) (name : ustring)
  : option ustring :=
  match kwargs with
  | [] => None
  | (k, v) :: rest => if ueqb k name then Some v else kw_lookup rest name
  end.

(** [template.format] with positional and keyword arguments, for
    templates whose replacement fields are [{}] or [{name}]; doubled
    braces are literal braces.  The substituted values are copied and
    never scanned again. *)
Fixpoint format_go (st : fmt_state) (auto : nat)
    (args : list ustring) (kwargs : list (ustring * ustring))
    (tpl : ustring) : result ustring :=
  match tpl with
  | [] =>
      match st with
      | FText => Ok []
      | _ => Raise ValueError
      end
  | c :: rest =>
      match st with
      | FText =>
          if N.eqb c LBRACE then format_go FOpen auto args kwargs rest
          else if N.eqb c RBRACE then format_go FClose auto args kwargs rest
          else rbind (format_go FText auto args kwargs rest)
                 (fun out => Ok (c :: out))
      | FClose =>
          if N.eqb c RBRACE
          then rbind (format_go FText auto args kwargs rest)
                 (fun out => Ok (c :: out))
          else Raise ValueError
      | FOpen =>
          if N.eqb c LBRACE
          then rbind (format_go FText auto args kwargs rest)
                 (fun out => Ok (c :: out))
          else if N.eqb c RBRACE
          then match args !! auto with
               | Some v =>
                   rbind (format_go FText (S auto) args kwargs rest)
                     (fun out => Ok (v ++ out))
               | None => Raise IndexError
               end
          else if is_ident_start c
          then format_go (FField [c]) auto args kwargs rest
          else Raise NotModelled
      | FField name_rev =>
          if N.eqb c RBRACE
          then match kw_lookup kwargs (rev name_rev) with
               | Some v =>
                   rbind (format_go FText auto args kwargs rest)
                     (fun out => Ok (v ++ out))
               | None => Raise KeyError
               end
          else if is_ident_char c
          then format_go (FField (c :: name_rev)) auto args kwargs rest
          else Raise NotModelled
      end
  end.

Definition format (tpl : ustring) (args : list ustring)
    (kwargs : list (ustring * ustring)) : result ustring :=
  format_go FText 0 args kwargs tpl.

(** ** Regular expressions

    The fragment of [re] the script's pattern lives in: literal code
    units, [.], [^], [$], [*], [|], groups and backslash escapes. *)

Inductive regex : Type :=
| REmpty
| RChar (c : N)
| RAny
| RBol
| REol
| RSeq (a b : regex)
| RAlt (a b : regex)
| RStar (a : regex).

(** What the parser last put in the current branch: decides whether a
    following [*] is legal. *)
Inductive last_item : Type :=
| LNone
| LAtom
| LAnchor
| LRepeat.

(** A group under construction: finished branches and the items of the
    current branch, both most recent first. *)
Record frame : Type := Frame {
  fr_alts : list regex;
  fr_items : list regex;
  fr_last : last_item
}.

Definition seq_of (items_rev : list regex) : regex :=
  fold_left (fun acc r => RSeq r acc) items_rev REmpty.

Definition alt_of (last : regex) (alts_rev : list regex) : regex :=
  fold_left (fun acc r => RAlt r acc) alts_rev last.

Definition frame_regex (f : frame) : regex :=
  alt_of (seq_of (fr_items f)) (fr_alts f).

Definition push_item (r : regex) (l : last_item) (f : frame) : frame :=
  Frame (fr_alts f) (r :: fr_items f) l.

Definition BACKSLASH : uchar := 92%N.

Definition is_digit (c : uchar) : bool := ((48 <=? c) && (c <=? 57))%N.
Definition is_alpha (c : uchar) : bool :=
  ((97 <=? c) && (c <=? 122) || (65 <=? c) && (c <=? 90))%N.

(** The code unit an escape [\c] stands for. *)
Definition escape_char (c : uchar) : result N :=
  if N.eqb c 116 then Ok TAB                 (* backslash t *)
  else if N.eqb c 110 then Ok LF             (* backslash n *)
  else if N.eqb c 114 then Ok 13%N           (* backslash r *)
  else if is_alpha c || is_digit c then Raise NotModelled
  else Ok c.

(** One step of the parser: [esc] tells that the previous code unit was
    an unescaped backslash; the stack holds the open groups, innermost
    first. *)
Definition parse_step (esc : bool) (stack : list frame) (c : uchar)
  : result (bool * list frame) :=
  match stack with
  | [] => Raise ReError
  | f :: outer =>
      if esc then
        rbind (escape_char c) (fun x =>
          Ok (false, push_item (RChar x) LAtom f :: outer))
      else if N.eqb c BACKSLASH then Ok (true, stack)
      else if N.eqb c 40 (* ( *) then
        Ok (false, Frame [] [] LNone :: stack)
      else if N.eqb c 41 (* ) *) then
        match outer with
        | [] => Raise ReError
        | g :: outer' =>
            Ok (false, push_item (frame_regex f) LAtom g :: outer')
        end
      else if N.eqb c 124 (* | *) then
        Ok (false, Frame (seq_of (fr_items f) :: fr_alts f) [] LNone :: outer)
      else if N.eqb c 42 (* * *) then
        match fr_last f, fr_items f with
        | LAtom, r :: items =>
            Ok (false, Frame (fr_alts f) (RStar r :: items) LRepeat :: outer)
        | LAnchor, _ => Raise NotModelled
        | _, _ => Raise ReError
        end
      else if N.eqb c 46 (* . *) then
        Ok (false, push_item RAny LAtom f :: outer)
      else if N.eqb c 94 (* ^ *) then
        Ok (false, push_item RBol LAnchor f :: outer)
      else if N.eqb c 36 (* $ *) then
        Ok (false, push_item REol LAnchor f :: outer)
      else if N.eqb c 43 || N.eqb c 63 || N.eqb c 91 || N.eqb c 93
              || N.eqb c 123 || N.eqb c 125 (* + ? [ ] { } *) then
        Raise NotModelled
      else Ok (false, push_item (RChar c) LAtom f :: outer)
  end.

Fixpoint parse_go (esc : bool) (stack : list frame) (pat : ustring)
  : result regex :=
  match pat with
  | [] =>
      if esc then Raise ReError
      else match stack with
           | [f] => Ok (frame_regex f)
           | _ => Raise ReError
           end
  | c :: rest =>
      rbind (parse_step esc stack c) (fun st =>
        parse_go (fst st) (snd st) rest)
  end.

(** [re.compile(pattern)] *)
Definition re_compile (pat : ustring) : result regex :=
  parse_go false [Frame [] [] LNone] pat.

Definition is_nil {A} (l : list A) : bool :=
  match l with [] => true | _ => false end.

(** Backtracking matcher in continuation-passing style.  [bos] tells
    whether the position is the beginning of the string, [k] is what
    remains to be matched after [r].  [$] holds at the end of the string
    and just before a final line feed; [.] is any code unit but a line
    feed; a starred body is iterated only when it consumes input. *)
Fixpoint rmatch (r : regex) (bos : bool) (s : ustring)
    (k : bool -> ustring -> bool) : bool :=
  match r with
  | REmpty => k bos s
  | RChar c =>
      match s with
      | x :: s' => N.eqb x c && k false s'
      | [] => false
      end
  | RAny =>
      match s with
      | x :: s' => negb (N.eqb x LF) && k false s'
      | [] => false
      end
  | RBol => bos && k bos s
  | REol => (is_nil s || ueqb s [LF]) && k bos s
  | RSeq a b => rmatch a bos s (fun bos' s' => rmatch b bos' s' k)
  | RAlt a b => rmatch a bos s k || rmatch b bos s k
  | RStar a =>
      (fix star (fuel : nat) (bos : bool) (s : ustring) : bool :=
         match fuel with
         | O => k bos s
         | S fuel' =>
             rmatch a bos s (fun bos' s' =>
               (length s' <? length s) && star fuel' bos' s')
             || k bos s
         end) (length s) bos s
  end.

(** The truth value of [re.match(pattern, text)]: some prefix of [text]
    matches [pattern]. *)
Definition re_match (pat text : ustring) : result bool :=
  rbind (re_compile pat) (fun r => Ok (rmatch r true text (fun _ _ => true))).

(** ** The state-and-exception monad

    A computation takes the state of the world, returns the new state and
    either a value or the exception it raised; the state survives an
    exception, as the side effects of Python code do. *)

Definition M (St A : Type) : Type := St -> St * result A.

Definition ret {St A} (a : A) : M St A := fun s => (s, Ok a).

Definition raise {St A} (e : exn) : M St A := fun s => (s, Raise e).

Definition bind {St A B} (c : M St A) (k : A -> M St B) : M St B :=
  fun s =>
    match c s with
    | (s', Ok a) => k a s'
    | (s', Raise e) => (s', Raise e)
    end.

Definition lift {St A} (r : result A) : M St A := fun s => (s, r).

Definition modify {St} (f : St -> St) : M St unit := fun s => (f s, Ok tt).

Definition gets {St A} (f : St -> A) : M St A := fun s => (s, Ok (f s)).

(** [SystemExit] derives from [BaseException], the others from
    [Exception]. *)
Definition is_Exception (e : exn) : bool :=
  match e with
  | SystemExit => false
  | _ => true
  end.

(** [try: c except Exception as e: handler(e)] *)
Definition try_except {St A} (c : M St A) (handler : exn -> M St A)
  : M St A :=
  fun s =>
    match c s with
    | (s', Raise e) => if is_Exception e then handler e s' else (s', Raise e)
    | r => r
    end.

Declare Scope monad_scope.
Delimit Scope monad_scope with monad.
Notation "x <- c ;; k" := (bind c (fun x => k))
  (at level 100, c at next level, right associativity) : monad_scope.
Notation "c ;; k" := (bind c (fun _ => k))
  (at level 100, right associativity) : monad_scope.
Local Open Scope monad_scope.

(** [for x in xs: body(x)] *)
Fixpoint for_each {St A} (xs : list A) (body : A -> M St unit) : M St unit :=
  match xs with
  | [] => ret tt
  | x :: rest => body x ;; for_each rest body
  end.

(** ** Logging *)

Inductive log_level : Type := DEBUG | ERROR | CRITICAL.

Record log_record : Type := LogRecord {
  lr_level : log_level;
  lr_message : string
}.

(** ** Reading the exported schedule *)

(** Unicode white space, what [unicode.strip()] removes. *)
Definition is_space (c : uchar) : bool :=
  ((9 <=? c) && (c <=? 13) || (28 <=? c) && (c <=? 32)
   || (c =? 133) || (c =? 160) || (c =? 5760) || (c =? 6158)
   || (8192 <=? c) && (c <=? 8202) || (c =? 8232) || (c =? 8233)
   || (c =? 8239) || (c =? 8287) || (c =? 12288))%N.

Fixpoint lstrip (s : ustring) : ustring :=
  match s with
  | [] => []
  | c :: s' => if is_space c then lstrip s' else s
  end.

(** [s.strip()] *)
Definition strip (s : ustring) : ustring := rev (lstrip (rev (lstrip s))).

(** What the host and the file system do when a schedule is exported and
    the data file is read back: the export itself may fail, [codecs.open]
    or [readlines] may fail, or the lines of the file come back. *)
Inductive exported : Type :=
| ExportRaises (e : exn)
| OpenRaises (e : exn)
| FileLines (lines : list ustring).

(** [schedule_view.Export(dirname, basename, options)] *)
Definition Export (x : exported) : M (list log_record) unit :=
  match x with
  | ExportRaises e => raise e
  | _ => ret tt
  end.

(** [codecs.open(schedule_data_file, 'r', 'utf_16_le')] followed by
    [readlines()] *)
Definition open_readlines (x : exported)
  : M (list log_record) (list ustring) :=
  match x with
  | FileLines lines => ret lines
  | OpenRaises e => raise e
  | ExportRaises e => raise e
  end.

Definition logger_error (msg : string) : M (list log_record) unit :=
  modify (fun logs => logs ++ [LogRecord ERROR msg]).

(** [PrintSheetsWindow._get_schedule_text_data]; [x] stands for the
    schedule view together with the file its export leaves behind. *)
Definition _get_schedule_text_data (x : exported)
  : M (list log_record) (list ustring) :=
  Export x ;;
  let sched_data := [] in
  try_except
    (lines <- open_readlines x ;;
     ret (map strip lines))
    (fun open_err =>
       logger_error "Error opening sheet index export" ;;
       ret sched_data).

(** ** Ordering the sheets by the schedule *)

Section Ordering.
Context {Sheet : Type}.

(** [sheet.SheetNumber] of a sheet element; the ordering only reads
    it. *)
Variable SheetNumber : Sheet -> ustring.

(** [r'(^|.*\t){}(\t.*|$)'.format(sheet.SheetNumber)] *)
Definition match_pattern (sheet : Sheet) : result ustring :=
  format (u "(^|.*\t){}(\t.*|$)") [SheetNumber sheet] [].

(** The inner loop over [enumerate(sched_data)]: the number of the
    first line the pattern matches, where the loop breaks.  The debug
    messages of the loop are left out. *)
Fixpoint find_line (sheet : Sheet) (line_no : nat)
    (sched_data : list ustring) : result (option nat) :=
  match sched_data with
  | [] => Ok None
  | data_line :: rest =>
      rbind (match_pattern sheet) (fun pattern =>
      rbind (re_match pattern data_line) (fun matches_sheet =>
        if (matches_sheet : bool) then Ok (Some line_no)
        else find_line sheet (S line_no) rest))
  end.

(** The outer loop: [ordered_sheets_dict[line_no] = sheet]. *)
Fixpoint fill_dict (sched_data : list ustring) (sheet_list : list Sheet)
    (ordered_sheets_dict : gmap nat Sheet) : result (gmap nat Sheet) :=
  match sheet_list with
  | [] => Ok ordered_sheets_dict
  | sheet :: rest =>
      rbind (find_line sheet 0 sched_data) (fun found =>
        fill_dict sched_data rest
          match found with
          | Some line_no => <[line_no := sheet]> ordered_sheets_dict
          | None => ordered_sheets_dict
          end)
  end.

(** [sorted(ordered_sheets_dict.keys())] *)
Definition sorted_keys (d : gmap nat Sheet) : list nat :=
  merge_sort le (map_to_list d).*1.

(** [[ordered_sheets_dict[x] for x in sorted_keys]] *)
Fixpoint values_at (d : gmap nat Sheet) (keys : list nat)
  : result (list Sheet) :=
  match keys with
  | [] => Ok []
  | x :: rest =>
      match d !! x with
      | Some sheet =>
          rbind (values_at d rest) (fun out => Ok (sheet :: out))
      | None => Raise KeyError
      end
  end.

(** The body of [_order_sheets_by_schedule_data] once the schedule
    text is known. *)
Definition order_sheets (sched_data : list ustring)
    (sheet_list : list Sheet) : result (list Sheet) :=
  if is_nil sched_data then Ok sheet_list
  else
    rbind (fill_dict sched_data sheet_list ∅) (fun ordered_sheets_dict =>
      values_at ordered_sheets_dict (sorted_keys ordered_sheets_dict)).

(** [PrintSheetsWindow._order_sheets_by_schedule_data] *)
Definition _order_sheets_by_schedule_data (schedule_view : exported)
    (sheet_list : list Sheet) : M (list log_record) (list Sheet) :=
  sched_data <- _get_schedule_text_data schedule_view ;;
  lift (order_sheets sched_data sheet_list).

End Ordering.

(** ** The host application *)

(** A sheet element of a document. *)
Record ViewSheet : Type := mkViewSheet {
  SheetNumber : ustring;
  Name : ustring;
  CanBePrinted : bool
}.

Inductive print_range : Type := RangeCurrent | RangeSelect | RangeVisible.

(** What a transaction covers: the sheets, the print setting in force
    and the saved view sheet sets, keyed by name. *)
Record Document : Type := mkDocument {
  sheets : gmap N ViewSheet;
  CurrentPrintSetting : option N;
  ViewSheetSets : gmap (list N) (gset N)
}.

(** The print manager of the session. *)
Record PrintManager : Type := mkPrintManager {
  PrintRange : print_range;
  PrinterName : ustring;
  PrintToFile : bool;
  PrintToFileName : ustring;
  CombinedFile : bool;
  PrintOrderReverse : bool;
  CurrentViewSheetSet : option (list N);
  Views : gset N
}.

Inductive scope : Type :=
| TransactionGroup (name : string)
| Transaction (name : string)
| DryTransaction (name : string).

(** Calls that change the host, as the script issues them. *)
Inductive call : Type :=
| SetCurrentPrintSetting (ps : option N)
| SelectNewPrintDriver (printer : ustring)
| SetPrintRange (r : print_range)
| SetSheetNumber (sheet : N) (number : ustring)
| DeleteViewSheetSet (name : ustring)
| SetViews (views : gset N)
| SaveAs (name : ustring)
| SetPrintOrderReverse (b : bool)
| SetCombinedFile (b : bool)
| SetPrintToFile (b : bool)
| SetPrintToFileName (fname : ustring)
| Apply
| SubmitPrint (sheet : option N) (d : Document) (pm : PrintManager)
| Alert (msg : string)
| CloseWindow.

(** A call together with the scopes open when it was issued, innermost
    first. *)
Record event : Type := mkEvent {
  ev_scopes : list scope;
  ev_call : call
}.

Record Host : Type := mkHost {
  doc : Document;
  print_mgr : PrintManager;
  scopes : list scope;
  trace : list event;
  logs : list log_record
}.

Definition with_doc (f : Document -> Document) (h : Host) : Host :=
  mkHost (f (doc h)) (print_mgr h) (scopes h) (trace h) (logs h).

Definition with_print_mgr (f : PrintManager -> PrintManager) (h : Host)
  : Host :=
  mkHost (doc h) (f (print_mgr h)) (scopes h) (trace h) (logs h).

Definition with_scopes (f : list scope -> list scope) (h : Host) : Host :=
  mkHost (doc h) (print_mgr h) (f (scopes h)) (trace h) (logs h).

Definition record_call (c : call) (h : Host) : Host :=
  mkHost (doc h) (print_mgr h) (scopes h)
    (trace h ++ [mkEvent (scopes h) c]) (logs h).

Definition record_log (l : log_level) (msg : string) (h : Host) : Host :=
  mkHost (doc h) (print_mgr h) (scopes h) (trace h)
    (logs h ++ [LogRecord l msg]).

Definition set_sheets (s : gmap N ViewSheet) (d : Document) : Document :=
  mkDocument s (CurrentPrintSetting d) (ViewSheetSets d).

Definition set_print_setting (ps : option N) (d : Document) : Document :=
  mkDocument (sheets d) ps (ViewSheetSets d).

Definition set_view_sheet_sets (v : gmap (list N) (gset N)) (d : Document)
  : Document :=
  mkDocument (sheets d) (CurrentPrintSetting d) v.

(** What the script cannot decide: whether the document has a print
    manager, which sheet numbers, view sets and combined printing the
    host accepts, and the helpers [coreutils.cleanup_filename] (with
    [windows_safe=True]), [os.path.join] and [USER_DESKTOP]. *)
Record Environment : Type := mkEnvironment {
  has_PrintManager : bool;
  accepts_SheetNumber : gmap N ViewSheet -> N -> ustring -> bool;
  accepts_ViewSet : gset N -> bool;
  accepts_CombinedFile : bool;
  cleanup_filename : ustring -> ustring;
  op_join : ustring -> ustring -> ustring;
  USER_DESKTOP : ustring
}.

(** An entry of the sheet list of the dialog; [name], [number] and
    [printable] are copied from the sheet when the entry is made. *)
Record ViewSheetListItem : Type := mkItem {
  revit_sheet : N;
  item_name : ustring;
  item_number : ustring;
  printable : bool;
  print_index : ustring;
  item_print_settings : option N
}.

Record PrintSettingListItem : Type := mkPrintSettingListItem {
  print_settings : option N;
  allows_variable_paper : bool
}.

Record NamingParts : Type := mkNamingParts {
  np_index : ustring;
  np_index_spacer : ustring;
  np_number : ustring;
  np_number_spacer : ustring;
  np_name : ustring;
  np_ext : ustring
}.

Record NamingFormat : Type := mkNamingFormat {
  parts : NamingParts;
  template : ustring;
  space : ustring
}.

(** The state of the dialog the print routines read. *)
Record PrintSheetsWindow : Type := mkWindow {
  selected_doc_IsLinked : bool;
  selected_print_setting : PrintSettingListItem;
  selected_printer : ustring;
  selected_naming_format : NamingFormat;
  reverse_print : bool;
  combine_print : bool;
  sheet_list : list ViewSheetListItem;
  selected_sheets : list ViewSheetListItem;
  _init_psettings : option N
}.

(** [PrintSheetsWindow._setup_naming_formats]: the items of the naming
    format box. *)
Definition _setup_naming_formats : list NamingFormat := [
  mkNamingFormat
    (mkNamingParts (u "0001") (u " ") (u "A1.00") (u " ")
       (u "1ST FLOOR PLAN") (u ".pdf"))
    (u "{index} {number} {name}.pdf") (u " ");
  mkNamingFormat
    (mkNamingParts (u "0001") (u "_") (u "A1.00") (u " ")
       (u "1ST FLOOR PLAN") (u ".pdf"))
    (u "{index}_{number} {name}.pdf") (u " ");
  mkNamingFormat
    (mkNamingParts (u "0001") (u " ") (u "A1.00") (u "_")
       (u "1ST FLOOR PLAN") (u ".pdf"))
    (u "{index} {number}_{name}.pdf") (u " ");
  mkNamingFormat
    (mkNamingParts (u "0001") (u "_") (u "A1.00") (u "_")
       (u "1ST FLOOR PLAN") (u ".pdf"))
    (u "{index}_{number}_{name}.pdf") (u " ");
  mkNamingFormat
    (mkNamingParts (u "0001") (u "_") (u "A1.00") (u "_")
       (u "1ST_FLOOR_PLAN") (u ".pdf"))
    (u "{index}_{number}_{name}.pdf") (u "_");
  mkNamingFormat
    (mkNamingParts (u "0001") (u " ") (u "A1.00") (u "")
       (u "") (u ".pdf"))
    (u "{index} {number}.pdf") (u " ");
  mkNamingFormat
    (mkNamingParts (u "0001") (u "_") (u "A1.00") (u "")
       (u "") (u ".pdf"))
    (u "{index}_{number}.pdf") (u " ");
  mkNamingFormat
    (mkNamingParts (u "0001") (u " ") (u "") (u "")
       (u "1ST FLOOR PLAN") (u ".pdf"))
    (u "{index} {name}.pdf") (u " ");
  mkNamingFormat
    (mkNamingParts (u "0001") (u "_") (u "") (u "")
       (u "1ST FLOOR PLAN") (u ".pdf"))
    (u "{index}_{name}.pdf") (u " ");
  mkNamingFormat
    (mkNamingParts (u "0001") (u "_") (u "") (u "")
       (u "1ST_FLOOR_PLAN") (u ".pdf"))
    (u "{index}_{name}.pdf") (u "_")
].

(** ** Host calls *)

Definition emit (c : call) : M Host unit := modify (record_call c).

Definition log (l : log_level) (msg : string) : M Host unit :=
  modify (record_log l msg).

Definition is_dry (s : scope) : bool :=
  match s with
  | DryTransaction _ => true
  | _ => false
  end.

(** Modelled from the spec: [revit.Transaction], [revit.TransactionGroup]
    and [revit.DryTransaction], the host-provided transaction scopes the
    [with] statements of the script open; their code is not among the
    sources.  The scope is open while the body runs, and on normal exit
    the changes of the document are kept (thrown away by a dry
    transaction).  Of a body that raises the specification says
    nothing.  The exception goes on to the caller, as it does through a
    [with] statement whose context manager does not swallow it; that the
    host then undoes the changes of the document and logs the error is
    an assumption of this model about the host library, and the
    theorems on the error paths of the print routines state neither the
    undoing nor the record. *)
Definition with_scope {A} (s : scope) (body : M Host A) : M Host A :=
  fun h =>
    match body (with_scopes (cons s) h) with
    | (h1, Ok a) =>
        (with_scopes (@tail scope)
           (if is_dry s then with_doc (fun _ => doc h) h1 else h1), Ok a)
    | (h1, Raise e) =>
        (record_log ERROR "Error in Transaction Context. Rolling back changes."
           (with_scopes (@tail scope) (with_doc (fun _ => doc h) h1)),
         Raise e)
    end.

(** [rvtsheet.SheetNumber] *)
Definition get_SheetNumber (rvtsheet : N) : M Host ustring :=
  fun h =>
    match sheets (doc h) !! rvtsheet with
    | Some s => (h, Ok (SheetNumber s))
    | None => (h, Raise (HostException "invalid element"))
    end.

Section Script.
Variable env : Environment.
Variable self : PrintSheetsWindow.

(** [rvtsheet.SheetNumber = number] *)
Definition set_SheetNumber (rvtsheet : N) (number : ustring)
  : M Host unit :=
  fun h =>
    match sheets (doc h) !! rvtsheet with
    | Some s =>
        if accepts_SheetNumber env (sheets (doc h)) rvtsheet number
        then
          (record_call (SetSheetNumber rvtsheet number)
             (with_doc
                (set_sheets
                   (<[rvtsheet :=
                        mkViewSheet number (Name s) (CanBePrinted s)]>
                      (sheets (doc h)))) h),
           Ok tt)
        else (h, Raise (HostException "sheet number refused"))
    | None => (h, Raise (HostException "invalid element"))
    end.

(** [print_mgr.PrintSetup.CurrentPrintSetting = ps] *)
Definition set_CurrentPrintSetting (ps : option N) : M Host unit :=
  modify (with_doc (set_print_setting ps)) ;;
  emit (SetCurrentPrintSetting ps).

Definition update_pm (f : PrintManager -> PrintManager) (c : call)
  : M Host unit :=
  modify (with_print_mgr f) ;; emit c.

(** [print_mgr.SelectNewPrintDriver(printer)] *)
Definition SelectNewPrintDriver_ (printer : ustring) : M Host unit :=
  update_pm (fun pm =>
    mkPrintManager (PrintRange pm) printer (PrintToFile pm)
      (PrintToFileName pm) (CombinedFile pm) (PrintOrderReverse pm)
      (CurrentViewSheetSet pm) (Views pm))
    (SelectNewPrintDriver printer).

(** [print_mgr.PrintRange = r] *)
Definition set_PrintRange (r : print_range) : M Host unit :=
  update_pm (fun pm =>
    mkPrintManager r (PrinterName pm) (PrintToFile pm)
      (PrintToFileName pm) (CombinedFile pm) (PrintOrderReverse pm)
      (CurrentViewSheetSet pm) (Views pm))
    (SetPrintRange r).

(** [print_mgr.PrintToFile = b] *)
Definition set_PrintToFile (b : bool) : M Host unit :=
  update_pm (fun pm =>
    mkPrintManager (PrintRange pm) (PrinterName pm) b
      (PrintToFileName pm) (CombinedFile pm) (PrintOrderReverse pm)
      (CurrentViewSheetSet pm) (Views pm))
    (SetPrintToFile b).

(** [print_mgr.PrintToFileName = fname] *)
Definition set_PrintToFileName (fname : ustring) : M Host unit :=
  update_pm (fun pm =>
    mkPrintManager (PrintRange pm) (PrinterName pm) (PrintToFile pm)
      fname (CombinedFile pm) (PrintOrderReverse pm)
      (CurrentViewSheetSet pm) (Views pm))
    (SetPrintToFileName fname).

(** [print_mgr.PrintOrderReverse = b] *)
Definition set_PrintOrderReverse (b : bool) : M Host unit :=
  update_pm (fun pm =>
    mkPrintManager (PrintRange pm) (PrinterName pm) (PrintToFile pm)
      (PrintToFileName pm) (CombinedFile pm) b
      (CurrentViewSheetSet pm) (Views pm))
    (SetPrintOrderReverse b).

(** [print_mgr.CombinedFile = b]; the host may refuse. *)
Definition set_CombinedFile (b : bool) : M Host unit :=
  if accepts_CombinedFile env
  then update_pm (fun pm =>
         mkPrintManager (PrintRange pm) (PrinterName pm) (PrintToFile pm)
           (PrintToFileName pm) b (PrintOrderReverse pm)
           (CurrentViewSheetSet pm) (Views pm))
         (SetCombinedFile b)
  else raise (HostException "combined file refused").

(** [print_mgr.ViewSheetSetting.CurrentViewSheetSet = the set called
    name], then [print_mgr.ViewSheetSetting.Delete()] *)
Definition delete_ViewSheetSet (name : ustring) : M Host unit :=
  modify (with_print_mgr (fun pm =>
    mkPrintManager (PrintRange pm) (PrinterName pm) (PrintToFile pm)
      (PrintToFileName pm) (CombinedFile pm) (PrintOrderReverse pm)
      None (Views pm))) ;;
  modify (with_doc (fun d =>
    set_view_sheet_sets (delete name (ViewSheetSets d)) d)) ;;
  emit (DeleteViewSheetSet name).

(** [viewsheet_settings.CurrentViewSheetSet.Views = sheet_set]; the
    host may refuse the set. *)
Definition set_Views (sheet_set : gset N) : M Host unit :=
  if accepts_ViewSet env sheet_set
  then update_pm (fun pm =>
         mkPrintManager (PrintRange pm) (PrinterName pm) (PrintToFile pm)
           (PrintToFileName pm) (CombinedFile pm) (PrintOrderReverse pm)
           (CurrentViewSheetSet pm) sheet_set)
         (SetViews sheet_set)
  else raise (HostException "view set refused").

(** [viewsheet_settings.SaveAs(name)] *)
Definition SaveAs_ (name : ustring) : M Host unit :=
  views <- gets (fun h => Views (print_mgr h)) ;;
  modify (with_doc (fun d =>
    set_view_sheet_sets (<[name := views]> (ViewSheetSets d)) d)) ;;
  modify (with_print_mgr (fun pm =>
    mkPrintManager (PrintRange pm) (PrinterName pm) (PrintToFile pm)
      (PrintToFileName pm) (CombinedFile pm) (PrintOrderReverse pm)
      (Some name) (Views pm))) ;;
  emit (SaveAs name).

(** [print_mgr.SubmitPrint()] and [print_mgr.SubmitPrint(sheet)]: the
    job is recorded with the document and the print manager as they
    are when it is submitted. *)
Definition SubmitPrint_ (sheet : option N) : M Host unit :=
  fun h => (record_call (SubmitPrint sheet (doc h) (print_mgr h)) h, Ok tt).

(** [PrintSheetsWindow._get_printmanager]: [true] stands for the print
    manager, [false] for [None]. *)
Definition _get_printmanager : M Host bool :=
  if has_PrintManager env then ret true
  else
    log CRITICAL "Error getting printer manager from document." ;;
    ret false.

(** The loop of the transaction [Fix Sheet Numbers]. *)
Fixpoint fix_sheet_numbers (idx : nat)
    (target_sheets : list ViewSheetListItem) (sheet_set : gset N)
    (original_sheetnums : list ustring)
  : M Host (gset N * list ustring) :=
  match target_sheets with
  | [] => ret (sheet_set, original_sheetnums)
  | sheet :: rest =>
      let rvtsheet := revit_sheet sheet in
      number <- get_SheetNumber rvtsheet ;;
      let original_sheetnums := original_sheetnums ++ [number] in
      number <- get_SheetNumber rvtsheet ;;
      set_SheetNumber rvtsheet (str_mul NPC (idx + 1) ++ number) ;;
      let sheet_set :=
        if printable sheet then {[rvtsheet]} ∪ sheet_set else sheet_set in
      fix_sheet_numbers (S idx) rest sheet_set original_sheetnums
  end.

(** The loop of the transaction [Restore Sheet Numbers]. *)
Definition restore_sheet_numbers
    (target_sheets : list ViewSheetListItem)
    (original_sheetnums : list ustring) : M Host unit :=
  for_each (zip target_sheets original_sheetnums) (fun p =>
    set_SheetNumber (revit_sheet (fst p)) (snd p)).

Definition sheetsetname : ustring := u "OrderedPrintSet".

(** [PrintSheetsWindow._print_combined_sheets_in_order] *)
Definition _print_combined_sheets_in_order
    (target_sheets : list ViewSheetListItem) : M Host unit :=
  print_mgr <- _get_printmanager ;;
  with_scope (TransactionGroup "Print Sheets in Order")
    (if negb print_mgr then ret tt
     else
       with_scope (Transaction "Set Printer Settings")
         (set_CurrentPrintSetting
            (print_settings (selected_print_setting self)) ;;
          SelectNewPrintDriver_ (selected_printer self) ;;
          set_PrintRange RangeSelect) ;;
       fixed <- with_scope (Transaction "Fix Sheet Numbers")
                  (fix_sheet_numbers 0 target_sheets ∅ []) ;;
       let sheet_set := fst fixed in
       let original_sheetnums := snd fixed in
       all_viewsheetsets <- gets (fun h => ViewSheetSets (doc h)) ;;
       with_scope (Transaction "Remove Previous Print Set")
         (if bool_decide (is_Some (all_viewsheetsets !! sheetsetname))
          then delete_ViewSheetSet sheetsetname
          else ret tt) ;;
       with_scope (Transaction "Update Ordered Print Set")
         (try_except
            (set_Views sheet_set ;;
             SaveAs_ sheetsetname)
            (fun viewset_err =>
               log CRITICAL "Error setting sheet set on print mechanism." ;;
               raise viewset_err)) ;;
       set_PrintOrderReverse (reverse_print self) ;;
       try_except (set_CombinedFile true)
         (fun e =>
            emit (Alert "Set printer correctly in Print settings.") ;;
            raise SystemExit) ;;
       set_PrintToFile true ;;
       set_PrintToFileName
         (op_join env (u "C:\\") (u "Ordered Sheet Set.pdf")) ;;
       emit Apply ;;
       SubmitPrint_ None ;;
       with_scope (Transaction "Restore Sheet Numbers")
         (restore_sheet_numbers target_sheets original_sheetnums)).

(** The file name of a sheet printed on its own. *)
Definition output_fname (naming_fmt : NamingFormat)
    (sheet : ViewSheetListItem) : result ustring :=
  rbind
    (format (template naming_fmt) []
       [(u "index", print_index sheet);
        (u "number", item_number sheet);
        (u "name", replace (u " ") (space naming_fmt) (item_name sheet))])
    (fun formatted => Ok (cleanup_filename env formatted)).

(** [PrintSheetsWindow._print_sheets_in_order] *)
Definition _print_sheets_in_order
    (target_sheets : list ViewSheetListItem) : M Host unit :=
  print_mgr <- _get_printmanager ;;
  if negb print_mgr then ret tt
  else
    set_PrintToFile true ;;
    let per_sheet_psettings :=
      allows_variable_paper (selected_print_setting self) in
    with_scope (DryTransaction "Set Printer Settings")
      ((if negb per_sheet_psettings
        then set_CurrentPrintSetting
               (print_settings (selected_print_setting self))
        else ret tt) ;;
       SelectNewPrintDriver_ (selected_printer self) ;;
       set_PrintRange RangeCurrent ;;
       let naming_fmt := selected_naming_format self in
       for_each target_sheets (fun sheet =>
         if printable sheet then
           fname <- lift (output_fname naming_fmt sheet) ;;
           set_PrintToFileName (op_join env (USER_DESKTOP env) fname) ;;
           (if per_sheet_psettings
            then set_CurrentPrintSetting (item_print_settings sheet)
            else ret tt) ;;
           SubmitPrint_ (Some (revit_sheet sheet))
         else
           log DEBUG "Sheet is not printable. Skipping print.")).

(** [PrintSheetsWindow._print_linked_sheets_in_order] *)
Definition _print_linked_sheets_in_order
    (target_sheets : list ViewSheetListItem) : M Host unit :=
  print_mgr <- _get_printmanager ;;
  if negb print_mgr then ret tt
  else
    set_PrintToFile true ;;
    SelectNewPrintDriver_ (selected_printer self) ;;
    set_PrintRange RangeCurrent ;;
    let naming_fmt := selected_naming_format self in
    for_each target_sheets (fun sheet =>
      if printable sheet then
        fname <- lift (output_fname naming_fmt sheet) ;;
        set_PrintToFileName (op_join env (USER_DESKTOP env) fname) ;;
        SubmitPrint_ (Some (revit_sheet sheet))
      else
        log DEBUG "Linked sheet is not printable. Skipping print.").

(** [PrintSheetsWindow._reset_psettings] *)
Definition _reset_psettings : M Host unit :=
  match _init_psettings self with
  | Some ps =>
      print_mgr <- _get_printmanager ;;
      if (print_mgr : bool) then set_CurrentPrintSetting (Some ps)
      else raise AttributeError
  | None => ret tt
  end.

(** The question [print_sheets] asks when sheets are selected in the
    list. *)
Definition ASK_SELECTED : string :=
  "You have a series of sheets selected. Do you want to print the selected sheets or all sheets?".

(** The question [print_sheets] asks before it prints more than five
    sheets one by one; [str.format] puts the number of sheets in. *)
Definition ask_individually (sheet_count : nat) : string :=
  String.append "Are you sure you want to print "
    (String.append
       (DecimalString.NilEmpty.string_of_uint (Nat.to_uint sheet_count))
       " sheets individually? The process can not be cancelled.").

(** [PrintSheetsWindow.print_sheets]; each [forms.alert] is recorded as
    a call when it is shown, and [only_selected] and [confirmed] are
    the answers of the user to the two of them. *)
Definition print_sheets (only_selected confirmed : bool) : M Host unit :=
  if is_nil (sheet_list self) then ret tt
  else
    selected_only <-
      (if is_nil (selected_sheets self) then ret false
       else emit (Alert ASK_SELECTED) ;; ret only_selected) ;;
    let target_sheets :=
      if (selected_only : bool) then selected_sheets self
      else sheet_list self in
    proceed <-
      (if negb (combine_print self)
       then
         let sheet_count := length target_sheets in
         if 5 <? sheet_count
         then emit (Alert (ask_individually sheet_count)) ;; ret confirmed
         else ret true
       else ret true) ;;
    if negb proceed then ret tt
    else
      emit CloseWindow ;;
      (if combine_print self
       then _print_combined_sheets_in_order target_sheets
       else if selected_doc_IsLinked self
       then _print_linked_sheets_in_order target_sheets
       else _print_sheets_in_order target_sheets) ;;
      _reset_psettings.

(** [cleanup_sheetnumbers(doc)] *)
Definition cleanup_sheetnumbers : M Host unit :=
  sheets <- gets (fun h => (map_to_list (sheets (doc h))).*1) ;;
  with_scope (Transaction "Cleanup Sheet Numbers")
    (for_each sheets (fun sheet =>
       number <- get_SheetNumber sheet ;;
       set_SheetNumber sheet (replace NPC (u "") number))).

End Script.

(** ** Integers as text *)

Definition DIGIT0 : uchar := 48%N.
Definition MINUS : uchar := 45%N.
Definition PLUS : uchar := 43%N.
Definition COLON : uchar := 58%N.

(** The decimal digits of [n], the most significant first, in front of
    [acc]; [fuel] is an upper bound of their number. *)
Fixpoint digits_go (fuel : nat) (n : N) (acc : ustring) : ustring :=
  match fuel with
  | O => acc
  | S fuel' =>
      let acc' := (DIGIT0 + n mod 10)%N :: acc in
      if (n <? 10)%N then acc' else digits_go fuel' (n / 10)%N acc'
  end.

(** [str(n)] for an int that is not negative. *)
Definition str_of_N (n : N) : ustring :=
  digits_go (S (N.to_nat (N.log2 n))) n [].

(** [str(z)] for an int. *)
Definition str_of_int (z : Z) : ustring :=
  match z with
  | Zneg p => MINUS :: str_of_N (Npos p)
  | _ => str_of_N (Z.to_N z)
  end.

(** The value of a run of ASCII digits, [None] when another code unit
    is met. *)
Fixpoint digits_value (acc : N) (s : ustring) : option N :=
  match s with
  | [] => Some acc
  | c :: rest =>
      if is_digit c then digits_value (10 * acc + (c - DIGIT0))%N rest
      else None
  end.

(** [int(text)] for a text: white space around, a sign, ASCII digits.
    Digits of other scripts, which [int] also reads, are outside the
    fragment. *)
Definition int_of_text (text : ustring) : result Z :=
  let t := strip text in
  let signed :=
    match t with
    | c :: rest =>
        if (c =? MINUS)%N then (true, rest)
        else if (c =? PLUS)%N then (false, rest)
        else (false, t)
    | [] => (false, [])
    end in
  let body := snd signed in
  if existsb (fun c => (127 <? c)%N) body then Raise NotModelled
  else
    match body with
    | [] => Raise ValueError
    | _ :: _ =>
        match digits_value 0 body with
        | Some n =>
            Ok (if fst signed then (- Z.of_N n)%Z else Z.of_N n)
        | None => Raise ValueError
        end
    end.

(** Padding on the left up to [width] code units. *)
Definition pad_left (fill : uchar) (width : nat) (s : ustring) : ustring :=
  replicate (width - length s) fill ++ s.

(** [format(v, '0<width>')]: zeros between the sign and the digits. *)
Definition zero_pad (width : nat) (v : Z) : ustring :=
  match v with
  | Zneg p => MINUS :: pad_left DIGIT0 (width - 1) (str_of_N (Npos p))
  | _ => pad_left DIGIT0 width (str_of_N (Z.to_N v))
  end.

(** [format(v, spec)] of an int for the specs made of decimal digits: a
    leading [0] asks for zeros, the rest is the width; numbers go to the
    right.  The other specs are outside the fragment. *)
Definition format_spec_int (spec : ustring) (v : Z) : result ustring :=
  match spec with
  | [] => Ok (str_of_int v)
  | c :: w =>
      if (c =? DIGIT0)%N then
        match digits_value 0 w with
        | Some width => Ok (zero_pad (N.to_nat width) v)
        | None => Raise NotModelled
        end
      else
        match digits_value 0 spec with
        | Some width => Ok (pad_left SPACE (N.to_nat width) (str_of_int v))
        | None => Raise NotModelled
        end
  end.

(** The scanner of [str.format] for int arguments: plain text, just
    after an opening brace, inside the format spec of a field, just
    after a closing brace in plain text. *)
Inductive ifmt_state : Type :=
| IText
| IOpen
| ISpec (spec_rev : ustring)
| IClose.

(** [template.format] with positional int arguments, for templates
    whose replacement fields are [{}] or [{:spec}]. *)
Fixpoint format_int_go (st : ifmt_state) (auto : nat) (args : list Z)
    (tpl : ustring) : result ustring :=
  match tpl with
  | [] =>
      match st with
      | IText => Ok []
      | _ => Raise ValueError
      end
  | c :: rest =>
      match st with
      | IText =>
          if N.eqb c LBRACE then format_int_go IOpen auto args rest
          else if N.eqb c RBRACE then format_int_go IClose auto args rest
          else rbind (format_int_go IText auto args rest)
                 (fun out => Ok (c :: out))
      | IClose =>
          if N.eqb c RBRACE
          then rbind (format_int_go IText auto args rest)
                 (fun out => Ok (c :: out))
          else Raise ValueError
      | IOpen =>
          if N.eqb c LBRACE
          then rbind (format_int_go IText auto args rest)
                 (fun out => Ok (c :: out))
          else if N.eqb c RBRACE
          then match args !! auto with
               | Some v =>
                   rbind (format_int_go IText (S auto) args rest)
                     (fun out => Ok (str_of_int v ++ out))
               | None => Raise IndexError
               end
          else if N.eqb c COLON
          then format_int_go (ISpec []) auto args rest
          else Raise NotModelled
      | ISpec spec_rev =>
          if N.eqb c RBRACE
          then match args !! auto with
               | Some v =>
                   rbind (format_spec_int (rev spec_rev) v) (fun field =>
                   rbind (format_int_go IText (S auto) args rest)
                     (fun out => Ok (field ++ out)))
               | None => Raise IndexError
               end
          else if N.eqb c LBRACE then Raise NotModelled
          else format_int_go (ISpec (c :: spec_rev)) auto args rest
      end
  end.

Definition format_int (tpl : ustring) (args : list Z) : result ustring :=
  format_int_go IText 0 args tpl.

(** ** Print indices *)

Definition INDEX_FORMAT : ustring := u "{{:0{digits}}}".

(** [INDEX_FORMAT.format(digits=index_digits).format(idx + start_idx)] *)
Definition index_text (index_digits start_idx : Z) (idx : nat)
  : result ustring :=
  rbind (format INDEX_FORMAT [] [(u "digits", str_of_int index_digits)])
    (fun tpl => format_int tpl [(Z.of_nat idx + start_idx)%Z]).

(** ** The options of the dialog *)

(** [index_slider], a slider of the host's window toolkit. *)
Record Slider : Type := mkSlider {
  Minimum : Z;
  Maximum : Z;
  Value : Z
}.

(** What the toolkit does when the script assigns [Minimum] and
    [Maximum] of a slider; it may move the other properties of the
    slider. *)
Record Toolkit : Type := mkToolkit {
  assign_Minimum : Z -> Slider -> Slider;
  assign_Maximum : Z -> Slider -> Slider
}.

(** The part of the window [options_changed] and its helpers work on.
    [_scheduled_sheets] holds the entry objects; the list box holds
    references to them, written as positions in [_scheduled_sheets], so
    that an index written through one list is seen through the other. *)
Record Dialog : Type := mkDialog {
  _scheduled_sheets : list ViewSheetListItem;
  reverse_cb_IsChecked : bool;
  combine_cb_IsChecked : bool;
  placeholder_cb_IsChecked : bool;
  indexspace_cb_IsChecked : bool;
  indexspace_cb_IsEnabled : bool;
  indexstart_tb_Text : ustring;
  index_slider : Slider;
  order_sp_shown : bool;
  namingformat_dp_shown : bool;
  sheets_lb_ItemsSource : list nat
}.

Definition with_entries
    (f : list ViewSheetListItem -> list ViewSheetListItem) (d : Dialog)
  : Dialog :=
  mkDialog (f (_scheduled_sheets d)) (reverse_cb_IsChecked d)
    (combine_cb_IsChecked d) (placeholder_cb_IsChecked d)
    (indexspace_cb_IsChecked d) (indexspace_cb_IsEnabled d)
    (indexstart_tb_Text d) (index_slider d) (order_sp_shown d)
    (namingformat_dp_shown d) (sheets_lb_ItemsSource d).

Definition with_indexspace (checked enabled : bool) (d : Dialog) : Dialog :=
  mkDialog (_scheduled_sheets d) (reverse_cb_IsChecked d)
    (combine_cb_IsChecked d) (placeholder_cb_IsChecked d)
    checked enabled
    (indexstart_tb_Text d) (index_slider d) (order_sp_shown d)
    (namingformat_dp_shown d) (sheets_lb_ItemsSource d).

Definition with_indexstart (text : ustring) (d : Dialog) : Dialog :=
  mkDialog (_scheduled_sheets d) (reverse_cb_IsChecked d)
    (combine_cb_IsChecked d) (placeholder_cb_IsChecked d)
    (indexspace_cb_IsChecked d) (indexspace_cb_IsEnabled d)
    text (index_slider d) (order_sp_shown d)
    (namingformat_dp_shown d) (sheets_lb_ItemsSource d).

Definition with_slider (f : Slider -> Slider) (d : Dialog) : Dialog :=
  mkDialog (_scheduled_sheets d) (reverse_cb_IsChecked d)
    (combine_cb_IsChecked d) (placeholder_cb_IsChecked d)
    (indexspace_cb_IsChecked d) (indexspace_cb_IsEnabled d)
    (indexstart_tb_Text d) (f (index_slider d)) (order_sp_shown d)
    (namingformat_dp_shown d) (sheets_lb_ItemsSource d).

Definition with_naming_shown (shown : bool) (d : Dialog) : Dialog :=
  mkDialog (_scheduled_sheets d) (reverse_cb_IsChecked d)
    (combine_cb_IsChecked d) (placeholder_cb_IsChecked d)
    (indexspace_cb_IsChecked d) (indexspace_cb_IsEnabled d)
    (indexstart_tb_Text d) (index_slider d) shown shown
    (sheets_lb_ItemsSource d).

Definition with_ItemsSource (refs : list nat) (d : Dialog) : Dialog :=
  mkDialog (_scheduled_sheets d) (reverse_cb_IsChecked d)
    (combine_cb_IsChecked d) (placeholder_cb_IsChecked d)
    (indexspace_cb_IsChecked d) (indexspace_cb_IsEnabled d)
    (indexstart_tb_Text d) (index_slider d) (order_sp_shown d)
    (namingformat_dp_shown d) refs.

(** [sheet.print_index = text] *)
Definition set_print_index (text : ustring) (sheet : ViewSheetListItem)
  : ViewSheetListItem :=
  mkItem (revit_sheet sheet) (item_name sheet) (item_number sheet)
    (printable sheet) text (item_print_settings sheet).

(** The entry a reference stands for. *)
Definition entry (d : Dialog) (ref : nat) : option ViewSheetListItem :=
  _scheduled_sheets d !! ref.

(** The [printable] flag of the entry behind a reference. *)
Definition ref_printable (d : Dialog) (ref : nat) : bool :=
  match entry d ref with
  | Some sheet => printable sheet
  | None => false
  end.

Section Options.
Variable toolkit : Toolkit.

(** [PrintSheetsWindow.index_digits] *)
Definition index_digits : M Dialog Z :=
  gets (fun d => Value (index_slider d)).

(** [PrintSheetsWindow.index_start]: [int(self.indexstart_tb.Text or 0)] *)
Definition index_start : M Dialog Z :=
  text <- gets indexstart_tb_Text ;;
  if is_nil text then ret 0%Z else lift (int_of_text text).

(** The loop of [_update_print_indices], [idx] counting the entries. *)
Fixpoint update_indices_from (idx : nat) (start_idx : Z)
    (sheet_list : list nat) : M Dialog unit :=
  match sheet_list with
  | [] => ret tt
  | sheet :: rest =>
      digits <- index_digits ;;
      text <- lift (index_text digits start_idx idx) ;;
      modify (with_entries (alter (set_print_index text) sheet)) ;;
      update_indices_from (S idx) start_idx rest
  end.

(** [PrintSheetsWindow._update_print_indices] *)
Definition _update_print_indices (sheet_list : list nat) : M Dialog unit :=
  start_idx <- index_start ;;
  update_indices_from 0 start_idx sheet_list.

(** [PrintSheetsWindow._update_index_slider] *)
Definition _update_index_slider : M Dialog unit :=
  count <- gets (fun d => length (_scheduled_sheets d)) ;;
  start_idx <- index_start ;;
  let index_digits :=
    Z.of_nat (length (str_of_int (Z.of_nat count + start_idx)%Z)) in
  modify (with_slider (assign_Minimum toolkit (Z.max index_digits 2))) ;;
  minimum <- gets (fun d => Minimum (index_slider d)) ;;
  modify (with_slider (assign_Maximum toolkit (minimum + 3)%Z)).

(** [PrintSheetsWindow.options_changed] *)
Definition options_changed : M Dialog unit :=
  _update_index_slider ;;
  scheduled <- gets (fun d => seq 0 (length (_scheduled_sheets d))) ;;
  reverse_print <- gets reverse_cb_IsChecked ;;
  let sheet_list := if reverse_print then rev scheduled else scheduled in
  combine <- gets combine_cb_IsChecked ;;
  modify (with_naming_shown (negb combine)) ;;
  show_placeholders <- gets placeholder_cb_IsChecked ;;
  if negb show_placeholders then
    checked <- gets indexspace_cb_IsChecked ;;
    modify (with_indexspace checked true) ;;
    _update_print_indices sheet_list ;;
    printable_sheets <-
      gets (fun d => filter (fun ref => ref_printable d ref = true)
                       sheet_list) ;;
    include_placeholders <- gets indexspace_cb_IsChecked ;;
    (if negb include_placeholders
     then _update_print_indices printable_sheets
     else ret tt) ;;
    modify (with_ItemsSource printable_sheets)
  else
    modify (with_indexspace true false) ;;
    _update_print_indices sheet_list ;;
    modify (with_ItemsSource sheet_list).

(** [PrintSheetsWindow.rest_index] *)
Definition rest_index : M Dialog unit :=
  modify (with_indexstart (u "0")).

End Options.

(** [PrintSheetsWindow.sheet_list], the entries behind the references of
    the list box. *)
Definition shown_entries (d : Dialog) : list ViewSheetListItem :=
  omap (entry d) (sheets_lb_ItemsSource d).

(** ** Selecting all elements of the same family

    The script [Select_selectAllElementsOfSameFamily.py].  Elements,
    types, families and symbols are named by their ids. *)

(** What the script asks the document. *)
Record FamilyHost : Type := mkFamilyHost {
  (* [doc.GetElement(elId).GetTypeId()]; [None] when the document has no
     element [elId], so that the call is made on [None] *)
  GetTypeId : N -> option N;
  (* [fsym.Family] of the element behind a type id; [None] when reading
     the attribute raises: no such element, or not a family symbol *)
  Family : N -> option N;
  (* [family.Symbols] *)
  Symbols : N -> list N;
  (* the ids of the elements that pass
     [FamilyInstanceFilter(doc, sym.Id)] *)
  family_instances : N -> list N;
  (* the elements of the Python set built from a list of type elements,
     in the order the set is gone through *)
  set_elements : list N -> list N
}.

Section SameFamily.
Variable host : FamilyHost.

(** The first loop: the types of the selected elements. *)
Fixpoint selected_types (selection : list N) : result (list N) :=
  match selection with
  | [] => Ok []
  | elId :: rest =>
      match GetTypeId host elId with
      | None => Raise AttributeError
      | Some type_id =>
          rbind (selected_types rest) (fun types => Ok (type_id :: types))
      end
  end.

(** The body of the second loop: the instances of every symbol of the
    family of [fsym]; nothing when [fsym.Family] raises. *)
Definition instances_of_family (fsym : N) : list N :=
  match Family host fsym with
  | None => []
  | Some family =>
      flat_map (fun sym => family_instances host sym) (Symbols host family)
  end.

(** The script: the ids it hands to [uidoc.Selection.SetElementIds]. *)
Definition select_same_family (selection : list N) : result (list N) :=
  rbind (selected_types selection) (fun types =>
    let famSymbolList := set_elements host types in
    let matchlist := flat_map instances_of_family famSymbolList in
    Ok matchlist).

End SameFamily.

(** ** The combine option *)

(** [combine_cb], the check box of the combined print. *)
Record CheckBox : Type := mkCheckBox {
  cb_IsEnabled : bool;
  cb_IsChecked : bool
}.

(** [PrintSheetsWindow._update_combine_option]; [selected_schedule]
    tells whether a schedule is selected, [selected_print_setting] is the
    selected print setting, if any. *)
Definition _update_combine_option (IsLinked : bool)
    (selected_schedule : bool)
    (selected_print_setting : option PrintSettingListItem)
    (combine_cb : CheckBox) : CheckBox :=
  let combine_cb := mkCheckBox true (cb_IsChecked combine_cb) in
  if IsLinked
     || (selected_schedule
         && match selected_print_setting with
            | Some setting => allows_variable_paper setting
            | None => false
            end)
  then mkCheckBox false false
  else combine_cb.

(** ** Specification vocabulary *)

(** A string without its marker characters. *)
Definition without_NPC (s : ustring) : ustring :=
  filter (fun c => c ≠ 8206%N) s.

(** A sheet whose number lost its marker characters. *)
Definition clean_sheet (s : ViewSheet) : ViewSheet :=
  mkViewSheet (without_NPC (SheetNumber s)) (Name s) (CanBePrinted s).

(** A host that refuses no sheet number. *)
Definition accepts_every_number (env : Environment) : Prop :=
  forall m id number, accepts_SheetNumber env m id number = true.

(** The state a scope leaves behind when its body returns. *)
Definition leave_scope (s : scope) (h h1 : Host) : Host :=
  with_scopes (@tail scope)
    (if is_dry s then with_doc (fun _ => doc h) h1 else h1).

(** The state a scope leaves behind when its body raises. *)
Definition abort_scope (h h1 : Host) : Host :=
  record_log ERROR "Error in Transaction Context. Rolling back changes."
    (with_scopes (@tail scope) (with_doc (fun _ => doc h) h1)).

(** [h'] continues [h]: the same scopes are open and the trace of [h]
    is followed by calls that all satisfy [Q]. *)
Definition extends (Q : event -> Prop) (h h' : Host) : Prop :=
  scopes h' = scopes h
  /\ exists evs, trace h' = trace h ++ evs /\ Forall Q evs.

(** Started with open scopes that satisfy [S], the computation [c] only
    issues calls that satisfy [Q], whether it returns or raises. *)
Definition emits {A} (S : list scope -> Prop) (Q : event -> Prop)
    (c : M Host A) : Prop :=
  forall h h' r, S (scopes h) -> c h = (h', r) -> extends Q h h'.

(** [c] leaves the part [g] of the document as it is. *)
Definition keeps_doc {A B} (g : Document -> B) (c : M Host A) : Prop :=
  forall h h' r, c h = (h', r) -> g (doc h') = g (doc h).

(** [c] leaves the part [g] of the print manager as it is. *)
Definition keeps_pm {A B} (g : PrintManager -> B) (c : M Host A) : Prop :=
  forall h h' r, c h = (h', r) -> g (print_mgr h') = g (print_mgr h).

Definition is_submit (c : call) : bool :=
  match c with
  | SubmitPrint _ _ _ => true
  | _ => false
  end.

Definition no_submit (e : event) : Prop := is_submit (ev_call e) = false.

(** The scope [s] has just been opened on top of scopes satisfying
    [S]. *)
Definition inside (s : scope) (S : list scope -> Prop)
  : list scope -> Prop :=
  fun sc => exists sc0, sc = s :: sc0 /\ S sc0.

(** The calls the transactions of the script are there for: print
    setup, sheet numbers and view sheet sets. *)
Definition guarded (c : call) : bool :=
  match c with
  | SetCurrentPrintSetting _ | SelectNewPrintDriver _ | SetPrintRange _
  | SetSheetNumber _ _
  | DeleteViewSheetSet _ | SetViews _ | SaveAs _ => true
  | _ => false
  end.

Definition is_number_write (c : call) : bool :=
  match c with
  | SetSheetNumber _ _ => true
  | _ => false
  end.

Definition is_transaction (s : scope) : bool :=
  match s with
  | Transaction _ | DryTransaction _ => true
  | TransactionGroup _ => false
  end.

(** The call was issued while a transaction was open. *)
Definition in_transaction (e : event) : bool :=
  existsb is_transaction (ev_scopes e).

(** A guarded call is issued inside a transaction. *)
Definition transacted (e : event) : Prop :=
  guarded (ev_call e) = true -> in_transaction e = true.

(** A sheet number is written inside a transaction. *)
Definition number_transacted (e : event) : Prop :=
  is_number_write (ev_call e) = true -> in_transaction e = true.

Definition any_scopes : list scope -> Prop := fun _ => True.

(** A sheet whose number carries [n] markers in front. *)
Definition mark (n : nat) (s : ViewSheet) : ViewSheet :=
  mkViewSheet (str_mul NPC n ++ SheetNumber s) (Name s) (CanBePrinted s).

(** In [m] the sheet at every position [idx] of [targets] is the sheet
    it was in [m0] with [idx + 1] markers in front of its number. *)
Definition marked_at (targets : list ViewSheetListItem)
    (m0 m : gmap N ViewSheet) : Prop :=
  forall idx sheet, targets !! idx = Some sheet ->
    exists s, m0 !! revit_sheet sheet = Some s
      /\ m !! revit_sheet sheet = Some (mark (idx + 1) s).

(** The sheets of the printable entries. *)
Definition printable_set (targets : list ViewSheetListItem) : gset N :=
  list_to_set (revit_sheet <$> filter (fun it => printable it = true) targets).

(** What holds of a print job the combined routine submits: it prints
    the current view sheet set, the sheets carry their markers, and the
    set holds the printable sheets only. *)
Definition combined_job (targets : list ViewSheetListItem)
    (m0 : gmap N ViewSheet) (e : event) : Prop :=
  forall sheet d pm, ev_call e = SubmitPrint sheet d pm ->
    sheet = None
    /\ marked_at targets m0 (sheets d)
    /\ Views pm = printable_set targets.

(** A host that lets the combined routine run to its end. *)
Definition obliging (env : Environment) : Prop :=
  has_PrintManager env = true
  /\ accepts_every_number env
  /\ (forall v, accepts_ViewSet env v = true)
  /\ accepts_CombinedFile env = true.

(** From a document that satisfies [P] the computation [c] returns, and
    leaves a document that satisfies [P]. *)
Definition total {A} (P : Document -> Prop) (c : M Host A) : Prop :=
  forall h, P (doc h) -> exists h' a, c h = (h', Ok a) /\ P (doc h').

(** The sheets of the entries are elements of the document [d]. *)
Definition has_sheets (targets : list ViewSheetListItem) (d : Document)
  : Prop :=
  forall sheet, sheet ∈ targets -> is_Some (sheets d !! revit_sheet sheet).

(** What holds of a job submitted for a single sheet: the sheet is
    that of a printable entry, and the file it prints to is on the
    desktop under the sanitized name made from the template of the
    naming format. *)
Definition single_job (env : Environment) (naming_fmt : NamingFormat)
    (targets : list ViewSheetListItem) (e : event) : Prop :=
  forall sheet d pm, ev_call e = SubmitPrint sheet d pm ->
    exists item formatted,
      item ∈ targets /\ printable item = true
      /\ sheet = Some (revit_sheet item)
      /\ format (template naming_fmt) []
           [(u "index", print_index item);
            (u "number", item_number item);
            (u "name",
             replace (u " ") (space naming_fmt) (item_name item))]
         = Ok formatted
      /\ PrintToFileName pm
         = op_join env (USER_DESKTOP env) (cleanup_filename env formatted).

(** The specification's reading of a filled template: the tokens
    [{index}], [{number}] and [{name}] of [tpl] are replaced, in one
    pass from the left, by the three values; every other code unit is
    kept.  [skip] counts the code units of a token still to pass.  This
    is the reference the script's call of [str.format] is compared
    with. *)
Fixpoint substitute_from (skip : nat) (tpl index number name : ustring)
  : ustring :=
  match tpl with
  | [] => []
  | c :: rest =>
      match skip with
      | S k => substitute_from k rest index number name
      | O =>
          if startswith (u "{index}") tpl
          then index ++ substitute_from 6 rest index number name
          else if startswith (u "{number}") tpl
          then number ++ substitute_from 7 rest index number name
          else if startswith (u "{name}") tpl
          then name ++ substitute_from 5 rest index number name
          else c :: substitute_from 0 rest index number name
      end
  end.

Definition substitute (tpl index number name : ustring) : ustring :=
  substitute_from 0 tpl index number name.

(** The job for the sheet of [item] is among the events [evs]. *)
Definition has_submit (item : ViewSheetListItem) (evs : list event) : Prop :=
  exists sc d pm,
    mkEvent sc (SubmitPrint (Some (revit_sheet item)) d pm) ∈ evs.

(** Every printable entry of [targets] has its job among [evs]. *)
Definition all_submitted (targets : list ViewSheetListItem)
    (evs : list event) : Prop :=
  forall item, item ∈ targets -> printable item = true -> has_submit item evs.

(** From every state the computation [c] returns, and the events it
    adds to the trace satisfy [P]. *)
Definition delivers {A} (P : list event -> Prop) (c : M Host A) : Prop :=
  forall h, exists h' a evs,
    c h = (h', Ok a) /\ trace h' = trace h ++ evs /\ P evs.

(** [sheet] matches the line [k] of the schedule. *)
Definition matches_line {Sheet} (SheetNumber : Sheet -> ustring)
    (sched_data : list ustring) (sheet : Sheet) (k : nat) : Prop :=
  exists line pattern,
    sched_data !! k = Some line
    /\ match_pattern SheetNumber sheet = Ok pattern
    /\ re_match pattern line = Ok true.

(** [sheet] matches no line before [k]. *)
Definition no_match_before {Sheet} (SheetNumber : Sheet -> ustring)
    (sched_data : list ustring) (sheet : Sheet) (k : nat) : Prop :=
  forall j line, j < k -> sched_data !! j = Some line ->
    exists pattern,
      match_pattern SheetNumber sheet = Ok pattern
      /\ re_match pattern line = Ok false.

(** [sheet] matches no line of the schedule at all. *)
Definition matches_no_line {Sheet} (SheetNumber : Sheet -> ustring)
    (sched_data : list ustring) (sheet : Sheet) : Prop :=
  forall line, line ∈ sched_data ->
    exists pattern,
      match_pattern SheetNumber sheet = Ok pattern
      /\ re_match pattern line = Ok false.

(** Every pattern the ordering builds compiles and can be run. *)
Definition patterns_compile {Sheet} (SheetNumber : Sheet -> ustring)
    (sched_data : list ustring) (sheet_list : list Sheet) : Prop :=
  forall sheet line, sheet ∈ sheet_list -> line ∈ sched_data ->
    exists pattern b,
      match_pattern SheetNumber sheet = Ok pattern
      /\ re_match pattern line = Ok b.

(** What holds of the dictionary all along the outer loop of the
    ordering: an entry is a sheet of the input list, kept under the
    number of the first line it matches. *)
Definition dict_ok {Sheet} (SheetNumber : Sheet -> ustring)
    (sched_data : list ustring) (sheet_list : list Sheet)
    (d : gmap nat Sheet) : Prop :=
  forall k sheet, d !! k = Some sheet ->
    sheet ∈ sheet_list
    /\ find_line SheetNumber sheet 0 sched_data = Ok (Some k).

(** The inner loop of the ordering files [sheet] under the line
    [k]. *)
Definition files_under {Sheet} (SheetNumber : Sheet -> ustring)
    (sched_data : list ustring) (k : nat) (sheet : Sheet) : bool :=
  match find_line SheetNumber sheet 0 sched_data with
  | Ok (Some line_no) => Nat.eqb line_no k
  | _ => false
  end.

(** The specification's reading of a schedule line: its fields are the
    pieces between tab characters.  [field] collects the code units of
    the field under way. *)
Fixpoint fields_from (field line : ustring) : list ustring :=
  match line with
  | [] => [field]
  | c :: rest =>
      if N.eqb c TAB then field :: fields_from [] rest
      else fields_from (field ++ [c]) rest
  end.

Definition fields (line : ustring) : list ustring := fields_from [] line.

(** The number of the first line, counted from [line_no], one of whose
    fields is [number]: what the specification orders the sheets by. *)
Fixpoint first_field_line (number : ustring) (line_no : nat)
    (sched_data : list ustring) : option nat :=
  match sched_data with
  | [] => None
  | line :: rest =>
      if bool_decide (number ∈ fields line) then Some line_no
      else first_field_line number (S line_no) rest
  end.

(** Order of two texts by their code units, the first difference
    deciding; a proper prefix comes first. *)
Fixpoint lex_lt (s t : ustring) : Prop :=
  match s, t with
  | _, [] => False
  | [], _ :: _ => True
  | a :: s', b :: t' => (a < b)%N \/ (a = b /\ lex_lt s' t')
  end.

(** A toolkit whose sliders take the bounds they are given and keep
    their value between them, as the sliders of the host's toolkit
    do. *)
Definition sane_toolkit (tk : Toolkit) : Prop :=
  (forall m s, Minimum (assign_Minimum tk m s) = m)
  /\ (forall M s, (Minimum s <= M)%Z ->
        Minimum (assign_Maximum tk M s) = Minimum s
        /\ Maximum (assign_Maximum tk M s) = M
        /\ (Minimum s <= Value (assign_Maximum tk M s) <= M)%Z).

(** What [index_start] reads from the text box of the dialog. *)
Definition start_of (d : Dialog) : result Z :=
  if is_nil (indexstart_tb_Text d) then Ok 0%Z
  else int_of_text (indexstart_tb_Text d).

(** The references to all entries in the order of the dialog: that of
    the schedule, or the reverse when the box is checked. *)
Definition shown_order (d : Dialog) : list nat :=
  let scheduled := seq 0 (length (_scheduled_sheets d)) in
  if reverse_cb_IsChecked d then rev scheduled else scheduled.

(** The entry objects after a run of the loop of
    [_update_print_indices] over [refs], [idx] counting from the
    first. *)
Fixpoint write_indices (width idx : nat) (start_idx : Z) (refs : list nat)
    (entries : list ViewSheetListItem) : list ViewSheetListItem :=
  match refs with
  | [] => entries
  | ref :: rest =>
      write_indices width (S idx) start_idx rest
        (alter (set_print_index (zero_pad width (Z.of_nat idx + start_idx)))
           ref entries)
  end.

(** The print indices of a list of entries. *)
Definition print_indices (sheets : list ViewSheetListItem) : list ustring :=
  print_index <$> sheets.

(** Every text of the list comes before all the later ones. *)
Definition lex_increasing (texts : list ustring) : Prop :=
  StronglySorted lex_lt texts.

(** The dialog after [_update_index_slider], the start index being
    [start_idx]. *)
Definition after_slider (tk : Toolkit) (start_idx : Z) (d : Dialog)
  : Dialog :=
  with_slider
    (fun s =>
       let count := Z.of_nat (length (_scheduled_sheets d)) in
       let digits := Z.of_nat (length (str_of_int (count + start_idx)%Z)) in
       let s1 := assign_Minimum tk (Z.max digits 2) s in
       assign_Maximum tk (Minimum s1 + 3)%Z s1)
    d.

(** The dialog after [options_changed], the start index being
    [start_idx]. *)
Definition options_result (tk : Toolkit) (start_idx : Z) (d : Dialog)
  : Dialog :=
  let d1 := after_slider tk start_idx d in
  let d2 := with_naming_shown (negb (combine_cb_IsChecked d)) d1 in
  let width := Z.to_nat (Value (index_slider d1)) in
  let order := shown_order d in
  if placeholder_cb_IsChecked d then
    with_ItemsSource order
      (with_entries (write_indices width 0 start_idx order)
         (with_indexspace true false d2))
  else
    let printable_refs :=
      filter (fun ref => ref_printable d ref = true) order in
    let d4 :=
      with_entries (write_indices width 0 start_idx order)
        (with_indexspace (indexspace_cb_IsChecked d) true d2) in
    with_ItemsSource printable_refs
      (if indexspace_cb_IsChecked d then d4
       else with_entries (write_indices width 0 start_idx printable_refs)
              d4).

(** The sheets [print_sheets] prints: the selected ones when there is a
    selection and the user asks for them, the whole list otherwise. *)
Definition chosen_sheets (self : PrintSheetsWindow) (only_selected : bool)
  : list ViewSheetListItem :=
  if (if is_nil (selected_sheets self) then false else only_selected)
  then selected_sheets self else sheet_list self.

(** [print_sheets] has nothing to do: the list is empty, or more than
    five sheets are to be printed one by one and the user says no. *)
Definition nothing_to_print (self : PrintSheetsWindow)
    (only_selected confirmed : bool) : bool :=
  is_nil (sheet_list self)
  || (negb (combine_print self)
      && (5 <? length (chosen_sheets self only_selected))
      && negb confirmed).

(** The alerts [print_sheets] shows before it closes the window or
    gives up: none for an empty list; the question about the selection
    when sheets are selected; then the question about printing one by
    one when more than five sheets would be. *)
Definition handler_alerts (self : PrintSheetsWindow) (only_selected : bool)
  : list call :=
  if is_nil (sheet_list self) then []
  else
    (if is_nil (selected_sheets self) then [] else [Alert ASK_SELECTED])
    ++ (if negb (combine_print self)
           && (5 <? length (chosen_sheets self only_selected))
        then [Alert (ask_individually
                       (length (chosen_sheets self only_selected)))]
        else []).

(** The host after the calls [cs], issued one after the other with the
    scopes of [h] open. *)
Definition after_calls (cs : list call) (h : Host) : Host :=
  mkHost (doc h) (print_mgr h) (scopes h)
    (trace h ++ (mkEvent (scopes h) <$> cs)) (logs h).

(** What holds of a job the button handler submits: in combined mode it
    prints the current view sheet set, otherwise the sheet of a
    printable entry among [targets]. *)
Definition handler_job (self : PrintSheetsWindow)
    (targets : list ViewSheetListItem) (e : event) : Prop :=
  forall sheet d pm, ev_call e = SubmitPrint sheet d pm ->
    if combine_print self then sheet = None
    else exists item,
           item ∈ targets /\ printable item = true
           /\ sheet = Some (revit_sheet item).

(** A text with no white space at either end. *)
Definition trimmed (s : ustring) : Prop :=
  match s with
  | [] => True
  | c :: _ => is_space c = false
  end
  /\ match last s with
     | None => True
     | Some c => is_space c = false
     end.

(** [line] is [original] without the white space at its ends. *)
Definition stripped_of (original line : ustring) : Prop :=
  exists pre suf,
    original = pre ++ line ++ suf
    /\ Forall (fun c => is_space c = true) pre
    /\ Forall (fun c => is_space c = true) suf
    /\ trimmed line.

(** A code unit that stands for itself in a regular expression and is
    neither a tab nor a line feed. *)
Definition plain_char (c : uchar) : bool :=
  negb (existsb (N.eqb c)
          [BACKSLASH; 40; 41; 124; 42; 46; 94; 36; 43; 63; 91; 93; 123; 125;
           TAB; LF]%N).

(** The code units of [s] one after the other, then [r]. *)
Definition chars_then (s : ustring) (r : regex) : regex :=
  fold_right (fun c acc => RSeq (RChar c) acc) r s.

(** The group in front of the sheet number: the beginning of the line,
    or anything up to a tab. *)
Definition before_number : regex :=
  RAlt (RSeq RBol REmpty)
       (RSeq (RStar RAny) (RSeq (RChar TAB) REmpty)).

(** The group behind the sheet number: a tab and anything, or the end
    of the line. *)
Definition after_number : regex :=
  RAlt (RSeq (RChar TAB) (RSeq (RStar RAny) REmpty))
       (RSeq REol REmpty).

Section StarAny.
Variable k : bool -> ustring -> bool.

(** The iteration of a starred dot the way [rmatch] runs it, [k] being
    what is left to match. *)
Fixpoint star_any (fuel : nat) (bos : bool) (s : ustring) : bool :=
  match fuel with
  | O => k bos s
  | S fuel' =>
      rmatch RAny bos s (fun bos' s' =>
        (length s' <? length s) && star_any fuel' bos' s')
      || k bos s
  end.

End StarAny.

(** What may follow a field in a line: nothing, or a tab. *)
Definition ends_field (rest : ustring) : Prop :=
  rest = [] \/ exists r, rest = TAB :: r.

(** A host whose Python sets hold what was put into them. *)
Definition sets_keep_elements (host : FamilyHost) : Prop :=
  forall l x, x ∈ set_elements host l <-> x ∈ l.

(** The computation [c] writes nothing to the log when it returns. *)
Definition quiet {A} (c : M Host A) : Prop :=
  forall h h' a, c h = (h', Ok a) -> logs h' = logs h.

(** From a document that satisfies [P] the computation [c] raises [e];
    the calls it has issued by then all satisfy [Q] and together satisfy
    [W], and the records it has added to the log begin with [L]. *)
Definition aborts {A} (P : Document -> Prop) (e : exn) (Q : event -> Prop)
    (W : list event -> Prop) (L : list log_record) (c : M Host A) : Prop :=
  forall h, P (doc h) ->
    exists h' evs rest, c h = (h', Raise e)
      /\ trace h' = trace h ++ evs /\ Forall Q evs /\ W evs
      /\ logs h' = logs h ++ L ++ rest.

(** The call [c] is the last of the events. *)
Definition ends_with_call (c : call) (evs : list event) : Prop :=
  exists sc, last evs = Some (mkEvent sc c).

(** The alert the combined routine shows when the printer refuses to
    print to one file. *)
Definition ALERT_PRINTER : call :=
  Alert "Set printer correctly in Print settings.".

(** The invisible marker of the specification, the Left-To-Right Mark
    U+200E, as a code unit. *)
Definition LRM : uchar := 8206%N.

(** The specification's renamed number: [n] markers, then the number. *)
Definition with_markers (n : nat) (number : ustring) : ustring :=
  replicate n LRM ++ number.

(** A number that sorts before every text that has a marker in its
    place: it is empty or begins with a code unit below the marker. *)
Definition sorts_before_marker (number : ustring) : Prop :=
  match number with
  | [] => True
  | c :: _ => (c < LRM)%N
  end.

(** The numbers the sheets of the entries have in [m], in the order of
    the entries. *)
Definition numbers_of (targets : list ViewSheetListItem)
    (m : gmap N ViewSheet) : list ustring :=
  omap (fun item => SheetNumber <$> m !! revit_sheet item) targets.

(** The specification's reading of the name that goes into a file
    name: every space of [name] gives way to the text [space]. *)
Definition spaces_as (space name : ustring) : ustring :=
  flat_map (fun c => if N.eqb c 32 then space else [c]) name.

(** ** Sample data *)

(** A host that refuses nothing, with the identity as file name
    sanitizer and a backslash join. *)
Definition sample_env : Environment :=
  mkEnvironment true (fun _ _ _ => true) (fun _ => true) true
    (fun s => s) (fun a b => a ++ [BACKSLASH] ++ b) (u "Desktop").

Definition sample_pm : PrintManager :=
  mkPrintManager RangeCurrent (u "PDF") false (u "") false false None ∅.

(** Three sheets; sheet 3 cannot be printed and sheet 2 still carries a
    marker from an earlier run. *)
Definition sample_doc : Document :=
  mkDocument
    {[ 1%N := mkViewSheet (u "A1.00") (u "1ST FLOOR PLAN") true;
       2%N := mkViewSheet (NPC ++ u "A2" ++ NPC ++ u ".00")
                (u "2ND FLOOR PLAN") true;
       3%N := mkViewSheet (u "A3.00") (u "PLACEHOLDER") false ]}
    (Some 7%N) ∅.

Definition sample_host : Host := mkHost sample_doc sample_pm [] [] [].

(** The sample document after a cleanup: no sheet number carries a
    marker. *)
Definition clean_doc : Document :=
  mkDocument
    {[ 1%N := mkViewSheet (u "A1.00") (u "1ST FLOOR PLAN") true;
       2%N := mkViewSheet (u "A2.00") (u "2ND FLOOR PLAN") true;
       3%N := mkViewSheet (u "A3.00") (u "PLACEHOLDER") false ]}
    (Some 7%N) ∅.

Definition clean_host : Host := mkHost clean_doc sample_pm [] [] [].

(** The entries of the dialog for the three sample sheets. *)
Definition sample_items : list ViewSheetListItem := [
  mkItem 1%N (u "1ST FLOOR PLAN") (u "A1.00") true (u "0000") (Some 7%N);
  mkItem 3%N (u "PLACEHOLDER") (u "A3.00") false (u "0001") None;
  mkItem 2%N (u "2ND FLOOR PLAN") (u "A2.00") true (u "0002") (Some 7%N)
].

(** A dialog set to print all three entries; [combine] and [linked]
    choose the print mode. *)
Definition sample_window (combine linked : bool) : PrintSheetsWindow :=
  mkWindow linked (mkPrintSettingListItem (Some 8%N) false) (u "PDF")
    (mkNamingFormat
       (mkNamingParts (u "0001") (u "_") (u "A1.00") (u "_")
          (u "1ST_FLOOR_PLAN") (u ".pdf"))
       (u "{index}_{number}_{name}.pdf") (u "_"))
    false combine sample_items [] (Some 7%N).

(** Six entries, the sample sheets and three more. *)
Definition six_items : list ViewSheetListItem :=
  sample_items ++ [
    mkItem 4%N (u "ROOF PLAN") (u "A4.00") true (u "0003") (Some 7%N);
    mkItem 5%N (u "SECTIONS") (u "A5.00") true (u "0004") (Some 7%N);
    mkItem 6%N (u "DETAILS") (u "A6.00") true (u "0005") (Some 7%N)
  ].

(** A dialog that lists the six entries, two of them selected, and
    prints them one by one. *)
Definition busy_window : PrintSheetsWindow :=
  mkWindow false (mkPrintSettingListItem (Some 8%N) false) (u "PDF")
    (selected_naming_format (sample_window false false))
    false false six_items (take 2 sample_items) (Some 7%N).

(** A sheet index of three lines, the heading first, and three sheets
    of which [A103] is not in the index. *)
Definition sample_schedule : list ustring := [
  u "Sheet Number" ++ [TAB] ++ u "Sheet Name";
  u "A102" ++ [TAB] ++ u "SECOND FLOOR";
  u "A101" ++ [TAB] ++ u "FIRST FLOOR"
].

Definition sample_sheets : list ViewSheet := [
  mkViewSheet (u "A101") (u "FIRST FLOOR") true;
  mkViewSheet (u "A103") (u "THIRD FLOOR") true;
  mkViewSheet (u "A102") (u "SECOND FLOOR") true
].

(** A sheet index of one line, the sheet [A111]. *)
Definition lone_schedule : list ustring := [
  u "A111" ++ [TAB] ++ u "PLAN"
].

(** A sheet index with a dotted sheet number after a plain one the dot
    can stand for. *)
Definition dotted_schedule : list ustring := [
  u "A111" ++ [TAB] ++ u "PLAN";
  u "A1.1" ++ [TAB] ++ u "SECTION"
].

Definition dotted_sheets : list ViewSheet := [
  mkViewSheet (u "A111") (u "PLAN") true;
  mkViewSheet (u "A1.1") (u "SECTION") true
].

(** A toolkit that moves the value of a slider into its bounds. *)
Definition sample_toolkit : Toolkit :=
  mkToolkit
    (fun m s =>
       mkSlider m (Z.max m (Maximum s))
         (Z.max m (Z.min (Z.max m (Maximum s)) (Value s))))
    (fun M s =>
       mkSlider (Minimum s) (Z.max (Minimum s) M)
         (Z.max (Minimum s) (Z.min (Z.max (Minimum s) M) (Value s)))).

(** The dialog with the three sample entries, the placeholder hidden,
    indices counted from 9. *)
Definition sample_dialog (include_placeholders : bool) : Dialog :=
  mkDialog sample_items false false false include_placeholders true
    (u "9") (mkSlider 0 10 0) true true [].

(** A sheet index whose only line holds two sheet numbers, and the two
    sheets. *)
Definition crowded_schedule : list ustring :=
  [u "A101" ++ [TAB] ++ u "A102"].

Definition crowded_sheets : list ViewSheet := [
  mkViewSheet (u "A101") (u "FIRST FLOOR") true;
  mkViewSheet (u "A102") (u "SECOND FLOOR") true
].

(** A document with a door family of two types (ids 10 and 11, family
    100) and a wall type (id 20) that is no family symbol; the doors 1
    and 2 are of type 10, the door 3 of type 11, the wall 4 of type
    20. *)
Definition sample_family_host : FamilyHost :=
  mkFamilyHost
    (fun elId =>
       if (elId =? 1)%N || (elId =? 2)%N then Some 10%N
       else if (elId =? 3)%N then Some 11%N
       else if (elId =? 4)%N then Some 20%N
       else None)
    (fun type_id =>
       if (type_id =? 10)%N || (type_id =? 11)%N then Some 100%N else None)
    (fun family => if (family =? 100)%N then [10%N; 11%N] else [])
    (fun sym =>
       if (sym =? 10)%N then [1%N; 2%N]
       else if (sym =? 11)%N then [3%N] else [])
    (fun l => l).

(** A host whose printer refuses to combine the sheets in one file. *)
Definition picky_env : Environment :=
  mkEnvironment true (fun _ _ _ => true) (fun _ => true) false
    (fun s => s) (fun a b => a ++ [BACKSLASH] ++ b) (u "Desktop").

(** A host whose print mechanism refuses every view set. *)
Definition stubborn_env : Environment :=
  mkEnvironment true (fun _ _ _ => true) (fun _ => false) true
    (fun s => s) (fun a b => a ++ [BACKSLASH] ++ b) (u "Desktop").

(** The entries of the sheets 2 and 1 of the sample document, in this
    order; sheet 2 still carries its markers. *)
Definition leftover_items : list ViewSheetListItem := [
  mkItem 2%N (u "2ND FLOOR PLAN") (u "A2.00") true (u "0000") (Some 7%N);
  mkItem 1%N (u "1ST FLOOR PLAN") (u "A1.00") true (u "0001") (Some 7%N)
].

(** * Properties *)

(** ** The monad *)

Lemma bind_Ok {St A B} (c : M St A) (k : A -> M St B) s s' b :
  bind c k s = (s', Ok b) ->
  exists s1 a, c s = (s1, Ok a) /\ k a s1 = (s', Ok b).
Proof.
  unfold bind. destruct (c s) as [s1 [a|e]]; intros H.
  - eauto.
  - discriminate.
Qed.

Lemma bind_run {St A B} (c : M St A) (k : A -> M St B) s s1 a :
  c s = (s1, Ok a) -> bind c k s = k a s1.
Proof. unfold bind. intros ->. reflexivity. Qed.

Lemma bind_raise {St A B} (c : M St A) (k : A -> M St B) s s1 e :
  c s = (s1, Raise e) -> bind c k s = (s1, Raise e).
Proof. unfold bind. intros ->. reflexivity. Qed.

Lemma bind_Raise {St A B} (c : M St A) (k : A -> M St B) s s' e :
  bind c k s = (s', Raise e) ->
  c s = (s', Raise e)
  \/ exists s1 a, c s = (s1, Ok a) /\ k a s1 = (s', Raise e).
Proof.
  unfold bind. destruct (c s) as [s1 [a|e']]; intros H.
  - right. eauto.
  - left. injection H as -> ->. reflexivity.
Qed.

Lemma with_scope_Ok {A} s (body : M Host A) h h' a :
  with_scope s body h = (h', Ok a) ->
  exists h1, body (with_scopes (cons s) h) = (h1, Ok a)
    /\ h' = leave_scope s h h1.
Proof.
  unfold with_scope.
  destruct (body (with_scopes (cons s) h)) as [h1 [x|e]]; intros [= <- <-].
  eauto.
Qed.

Lemma with_scope_Raise {A} s (body : M Host A) h h' e :
  with_scope s body h = (h', Raise e) ->
  exists h1, body (with_scopes (cons s) h) = (h1, Raise e)
    /\ h' = abort_scope h h1.
Proof.
  unfold with_scope.
  destruct (body (with_scopes (cons s) h)) as [h1 [x|e']]; intros [= <- <-].
  eauto.
Qed.

Lemma with_scope_inv {A} s (body : M Host A) h h' r :
  with_scope s body h = (h', r) ->
  exists h1, body (with_scopes (cons s) h) = (h1, r)
    /\ h' = match r with
            | Ok _ => leave_scope s h h1
            | Raise _ => abort_scope h h1
            end.
Proof.
  unfold with_scope.
  destruct (body (with_scopes (cons s) h)) as [h1 [x|e]]; intros [= <- <-];
    eauto.
Qed.

Lemma with_scope_run {A} s (body : M Host A) h h1 a :
  body (with_scopes (cons s) h) = (h1, Ok a) ->
  with_scope s body h = (leave_scope s h h1, Ok a).
Proof. unfold with_scope. intros ->. reflexivity. Qed.

(** ** Text *)

Lemma replace_char_filter (c : N) (s : ustring) :
  replace [c] [] s = filter (fun x => x ≠ c) s.
Proof.
  unfold replace.
  induction s as [|x s IH]; [reflexivity|].
  cbn [replace_from startswith length].
  destruct (N.eqb_spec c x) as [->|Hne]; cbn [andb].
  - rewrite filter_cons_False by (intros H; apply H; reflexivity).
    simpl. exact IH.
  - rewrite filter_cons_True by congruence.
    f_equal. exact IH.
Qed.

Lemma replace_NPC (s : ustring) : replace NPC (u "") s = without_NPC s.
Proof. apply replace_char_filter. Qed.

Lemma without_NPC_idemp (s : ustring) :
  without_NPC (without_NPC s) = without_NPC s.
Proof.
  unfold without_NPC. induction s as [|x s IH]; [reflexivity|].
  destruct (decide (x ≠ 8206%N)) as [H|H].
  - rewrite !filter_cons_True by exact H. f_equal. exact IH.
  - rewrite filter_cons_False by exact H. exact IH.
Qed.

Lemma clean_sheet_idemp (s : ViewSheet) :
  clean_sheet (clean_sheet s) = clean_sheet s.
Proof.
  unfold clean_sheet. simpl. f_equal. apply without_NPC_idemp.
Qed.

(** ** Shift-click cleanup *)

Section Cleanup.
Variable env : Environment.

Let body (sheet : N) : M Host unit :=
  bind (get_SheetNumber sheet) (fun number =>
    set_SheetNumber env sheet (replace NPC (u "") number)).

Lemma cleanup_body_Ok sheet h h' :
  body sheet h = (h', Ok tt) ->
  exists s, sheets (doc h) !! sheet = Some s
    /\ sheets (doc h') = <[sheet := clean_sheet s]> (sheets (doc h)).
Proof.
  unfold body, bind, get_SheetNumber, set_SheetNumber.
  destruct (sheets (doc h) !! sheet) as [s|] eqn:Hs; [|discriminate].
  rewrite Hs.
  destruct (accepts_SheetNumber env _ _ _); [|discriminate].
  intros [= <-]. exists s. split; [reflexivity|].
  unfold clean_sheet. rewrite <- replace_NPC. reflexivity.
Qed.

Lemma cleanup_loop_Ok ids :
  NoDup ids -> forall h h',
  for_each ids body h = (h', Ok tt) ->
  forall id,
    sheets (doc h') !! id =
    if decide (id ∈ ids) then clean_sheet <$> sheets (doc h) !! id
    else sheets (doc h) !! id.
Proof.
  induction 1 as [|x ids Hx Hnd IH]; intros h h' Hrun id.
  - injection Hrun as <-. rewrite decide_False by apply not_elem_of_nil.
    reflexivity.
  - cbn [for_each] in Hrun.
    apply bind_Ok in Hrun as (h1 & [] & Hb & Hrest).
    apply cleanup_body_Ok in Hb as (s & Hs & Hdoc).
    rewrite (IH _ _ Hrest id), Hdoc.
    destruct (decide (id = x)) as [->|Hne].
    + rewrite decide_False by exact Hx.
      rewrite decide_True by apply list_elem_of_here.
      rewrite lookup_insert_eq, Hs. reflexivity.
    + rewrite lookup_insert_ne by congruence.
      destruct (decide (id ∈ ids)) as [Hin|Hin].
      * rewrite decide_True by (apply list_elem_of_further; exact Hin).
        reflexivity.
      * rewrite decide_False; [reflexivity|].
        intros [->|H']%elem_of_cons; [congruence|contradiction].
Qed.

Lemma cleanup_Ok h h1 :
  cleanup_sheetnumbers env h = (h1, Ok tt) ->
  sheets (doc h1) = clean_sheet <$> sheets (doc h).
Proof.
  unfold cleanup_sheetnumbers. intros Hrun.
  apply bind_Ok in Hrun as (h0 & ids & [= <- <-] & Hrun).
  apply with_scope_Ok in Hrun as (h' & Hloop & ->).
  fold body in Hloop.
  apply map_eq. intros id.
  assert (Hnd : NoDup (map_to_list (sheets (doc h))).*1)
    by apply NoDup_fst_map_to_list.
  change (sheets (doc h') !! id = (clean_sheet <$> sheets (doc h)) !! id).
  rewrite (cleanup_loop_Ok _ Hnd _ _ Hloop id).
  change (doc (with_scopes _ h)) with (doc h).
  rewrite lookup_fmap.
  destruct (decide _) as [Hin|Hin]; [reflexivity|].
  destruct (sheets (doc h) !! id) as [s|] eqn:Hs; [|reflexivity].
  exfalso. apply Hin.
  apply list_elem_of_fmap. exists (id, s). split; [reflexivity|].
  apply elem_of_map_to_list. exact Hs.
Qed.

Lemma cleanup_Raise h h1 e :
  cleanup_sheetnumbers env h = (h1, Raise e) -> doc h1 = doc h.
Proof.
  unfold cleanup_sheetnumbers. intros Hrun.
  apply bind_Raise in Hrun as [[=]|(h0 & ids & [= <- <-] & Hrun)].
  apply with_scope_Raise in Hrun as (h' & _ & ->). reflexivity.
Qed.

Lemma cleanup_body_total sheet h s :
  accepts_every_number env ->
  sheets (doc h) !! sheet = Some s ->
  exists h', body sheet h = (h', Ok tt)
    /\ forall id, is_Some (sheets (doc h) !! id) ->
         is_Some (sheets (doc h') !! id).
Proof.
  intros Hacc Hs. unfold body, bind, get_SheetNumber, set_SheetNumber.
  rewrite Hs. cbv beta iota. rewrite Hacc, Hs.
  eexists. split; [reflexivity|].
  intros id. simpl. rewrite lookup_insert.
  destruct (decide (sheet = id)); eauto.
Qed.

Lemma cleanup_loop_total ids :
  accepts_every_number env ->
  forall h, (forall id, id ∈ ids -> is_Some (sheets (doc h) !! id)) ->
  exists h', for_each ids body h = (h', Ok tt).
Proof.
  intros Hacc. induction ids as [|x ids IH]; intros h Hin.
  - eexists. reflexivity.
  - destruct (Hin x) as [s Hs]; [apply list_elem_of_here|].
    destruct (cleanup_body_total x h s Hacc Hs) as (h1 & Hb & Hkeep).
    destruct (IH h1) as [h' Hrest].
    { intros id Hid. apply Hkeep, Hin, list_elem_of_further, Hid. }
    exists h'. cbn [for_each]. rewrite (bind_run _ _ _ _ _ Hb). exact Hrest.
Qed.

Lemma cleanup_total h :
  accepts_every_number env ->
  exists h1, cleanup_sheetnumbers env h = (h1, Ok tt).
Proof.
  intros Hacc.
  destruct (cleanup_loop_total (map_to_list (sheets (doc h))).*1
              Hacc (with_scopes (cons (Transaction "Cleanup Sheet Numbers")) h))
    as [h' Hloop].
  { intros id [[id' s] [-> Hin]]%list_elem_of_fmap.
    apply elem_of_map_to_list in Hin. simpl. eauto. }
  eexists. unfold cleanup_sheetnumbers.
  erewrite bind_run by reflexivity.
  apply with_scope_run. exact Hloop.
Qed.
End Cleanup.

(** C9: the shift-click cleanup replaces the number of every sheet of
    the document by the same string without its U+200E code units, and
    it is idempotent: whatever a second run does, it leaves the sheets
    as the first run left them.  On a host that refuses no sheet number
    both runs return. *)
Theorem cleanup_sheetnumbers_removes_NPC_idempotent env h :
  (forall h1, cleanup_sheetnumbers env h = (h1, Ok tt) ->
     sheets (doc h1) = clean_sheet <$> sheets (doc h)
     /\ forall h2 r, cleanup_sheetnumbers env h1 = (h2, r) ->
          sheets (doc h2) = sheets (doc h1))
  /\ (accepts_every_number env ->
      exists h1 h2, cleanup_sheetnumbers env h = (h1, Ok tt)
        /\ cleanup_sheetnumbers env h1 = (h2, Ok tt)).
Proof.
  split.
  - intros h1 H1. split; [exact (cleanup_Ok env h h1 H1)|].
    intros h2 [[]|e] H2.
    + rewrite (cleanup_Ok env h1 h2 H2).
      apply map_eq. intros id. rewrite lookup_fmap.
      rewrite (cleanup_Ok env h h1 H1), lookup_fmap.
      destruct (sheets (doc h) !! id) as [s|]; [|reflexivity].
      simpl. f_equal. apply clean_sheet_idemp.
    + rewrite (cleanup_Raise env h1 h2 e H2). reflexivity.
  - intros Hacc.
    destruct (cleanup_total env h Hacc) as [h1 H1].
    destruct (cleanup_total env h1 Hacc) as [h2 H2].
    eauto.
Qed.

Lemma cleanup_sheetnumbers_witness :
  sheets (doc (fst (cleanup_sheetnumbers sample_env sample_host)))
  = clean_sheet <$> sheets sample_doc
  /\ exists h1 h2,
       cleanup_sheetnumbers sample_env sample_host = (h1, Ok tt)
       /\ cleanup_sheetnumbers sample_env h1 = (h2, Ok tt).
Proof.
  split.
  - apply (proj1 (cleanup_sheetnumbers_removes_NPC_idempotent
                    sample_env sample_host)
             (fst (cleanup_sheetnumbers sample_env sample_host))).
    vm_compute. reflexivity.
  - apply (proj2 (cleanup_sheetnumbers_removes_NPC_idempotent
                    sample_env sample_host)).
    intros m id number. reflexivity.
Defined.

(** ** Traces *)

Lemma extends_refl Q h : extends Q h h.
Proof.
  split; [reflexivity|]. exists []. split; [|constructor].
  symmetry. apply app_nil_r.
Qed.

Lemma extends_trans Q h1 h2 h3 :
  extends Q h1 h2 -> extends Q h2 h3 -> extends Q h1 h3.
Proof.
  intros [Hs1 (e1 & Ht1 & Hq1)] [Hs2 (e2 & Ht2 & Hq2)]. split.
  - congruence.
  - exists (e1 ++ e2). split.
    + rewrite Ht2, Ht1. symmetry. apply app_assoc.
    + apply Forall_app. split; assumption.
Qed.

Lemma extends_weaken (Q Q' : event -> Prop) h h' :
  (forall e, Q e -> Q' e) -> extends Q h h' -> extends Q' h h'.
Proof.
  intros Hw [Hs (evs & Ht & Hq)]. split; [exact Hs|].
  exists evs. split; [exact Ht|]. eapply Forall_impl; eauto.
Qed.

Lemma extends_silent Q h h' :
  scopes h' = scopes h -> trace h' = trace h -> extends Q h h'.
Proof.
  intros Hs Ht. split; [exact Hs|]. exists []. split; [|constructor].
  rewrite Ht. symmetry. apply app_nil_r.
Qed.

Lemma extends_one (Q : event -> Prop) h h' c :
  scopes h' = scopes h ->
  trace h' = trace h ++ [mkEvent (scopes h) c] ->
  Q (mkEvent (scopes h) c) -> extends Q h h'.
Proof.
  intros Hs Ht Hq. split; [exact Hs|]. eexists. split; [exact Ht|].
  constructor; [exact Hq|constructor].
Qed.

Lemma emits_weaken {A} (S S' : list scope -> Prop) (Q Q' : event -> Prop)
    (c : M Host A) :
  (forall sc, S' sc -> S sc) -> (forall e, Q e -> Q' e) ->
  emits S Q c -> emits S' Q' c.
Proof.
  intros HS HQ Hc h h' r Hsc Hrun.
  eapply extends_weaken; [exact HQ|]. eapply Hc; eauto.
Qed.

Lemma emits_ret {A} S Q (a : A) : emits S Q (ret a).
Proof. intros h h' r _ [= <- _]. apply extends_refl. Qed.

Lemma emits_raise {A} S Q e : emits S Q (@raise Host A e).
Proof. intros h h' r _ [= <- _]. apply extends_refl. Qed.

Lemma emits_lift {A} S Q (x : result A) : emits S Q (lift x).
Proof. intros h h' r _ [= <- _]. apply extends_refl. Qed.

Lemma emits_gets {A} S Q (f : Host -> A) : emits S Q (gets f).
Proof. intros h h' r _ [= <- _]. apply extends_refl. Qed.

Lemma emits_log S Q l msg : emits S Q (log l msg).
Proof. intros h h' r _ [= <- _]. apply extends_silent; reflexivity. Qed.

Lemma emits_modify_doc S Q f : emits S Q (modify (with_doc f)).
Proof. intros h h' r _ [= <- _]. apply extends_silent; reflexivity. Qed.

Lemma emits_modify_pm S Q f : emits S Q (modify (with_print_mgr f)).
Proof. intros h h' r _ [= <- _]. apply extends_silent; reflexivity. Qed.

Lemma emits_get_SheetNumber S Q id : emits S Q (get_SheetNumber id).
Proof.
  intros h h' r _. unfold get_SheetNumber.
  destruct (sheets (doc h) !! id); intros [= <- _]; apply extends_refl.
Qed.

Lemma emits_emit (S : list scope -> Prop) (Q : event -> Prop) c :
  (forall sc, S sc -> Q (mkEvent sc c)) -> emits S Q (emit c).
Proof.
  intros HQ h h' r Hsc [= <- _].
  eapply extends_one; [reflexivity|reflexivity|]. apply HQ, Hsc.
Qed.

Lemma emits_bind {A B} S Q (c : M Host A) (k : A -> M Host B) :
  emits S Q c -> (forall a, emits S Q (k a)) -> emits S Q (bind c k).
Proof.
  intros Hc Hk h h' r Hsc Hrun. unfold bind in Hrun.
  destruct (c h) as [h1 [a|e]] eqn:Hc1.
  - pose proof (Hc _ _ _ Hsc Hc1) as H1.
    eapply extends_trans; [exact H1|].
    eapply Hk; [|exact Hrun]. destruct H1 as [-> _]. exact Hsc.
  - injection Hrun as <- <-. eapply Hc; eauto.
Qed.

Lemma emits_try_except {A} S Q (c : M Host A) (handler : exn -> M Host A) :
  emits S Q c -> (forall e, emits S Q (handler e)) ->
  emits S Q (try_except c handler).
Proof.
  intros Hc Hk h h' r Hsc Hrun. unfold try_except in Hrun.
  destruct (c h) as [h1 [a|e]] eqn:Hc1.
  - injection Hrun as <- <-. eapply Hc; eauto.
  - pose proof (Hc _ _ _ Hsc Hc1) as H1.
    destruct (is_Exception e).
    + eapply extends_trans; [exact H1|].
      eapply Hk; [|exact Hrun]. destruct H1 as [-> _]. exact Hsc.
    + injection Hrun as <- <-. exact H1.
Qed.

Lemma emits_with_scope {A} S Q s (body : M Host A) :
  emits (inside s S) Q body -> emits S Q (with_scope s body).
Proof.
  intros Hb h h' r Hsc Hrun. unfold with_scope in Hrun.
  destruct (body (with_scopes (cons s) h)) as [h1 x] eqn:Hb1.
  assert (H1 : extends Q (with_scopes (cons s) h) h1).
  { eapply Hb; [|exact Hb1]. exists (scopes h). split; [reflexivity|exact Hsc]. }
  destruct H1 as [Hs1 (evs & Ht1 & Hq1)].
  simpl in Hs1, Ht1.
  destruct x as [a|e]; injection Hrun as <- <-.
  - split.
    + destruct (is_dry s); simpl; rewrite Hs1; reflexivity.
    + exists evs. split; [|exact Hq1].
      destruct (is_dry s); simpl; exact Ht1.
  - split.
    + simpl. rewrite Hs1. reflexivity.
    + exists evs. split; [|exact Hq1]. simpl. exact Ht1.
Qed.

Lemma emits_for_each {A} S Q (xs : list A) (body : A -> M Host unit) :
  (forall x, x ∈ xs -> emits S Q (body x)) -> emits S Q (for_each xs body).
Proof.
  induction xs as [|x xs IH]; intros Hb.
  - apply emits_ret.
  - cbn [for_each]. apply emits_bind.
    + apply Hb, list_elem_of_here.
    + intros _. apply IH. intros y Hy. apply Hb, list_elem_of_further, Hy.
Qed.

Section HostCalls.
Variable env : Environment.
Variable S : list scope -> Prop.
Variable Q : event -> Prop.

Lemma emits_update_pm f c :
  (forall sc, S sc -> Q (mkEvent sc c)) -> emits S Q (update_pm f c).
Proof.
  intros HQ. unfold update_pm. apply emits_bind.
  - apply emits_modify_pm.
  - intros _. apply emits_emit, HQ.
Qed.

Lemma emits_set_CurrentPrintSetting ps :
  (forall sc, S sc -> Q (mkEvent sc (SetCurrentPrintSetting ps))) ->
  emits S Q (set_CurrentPrintSetting ps).
Proof.
  intros HQ. unfold set_CurrentPrintSetting. apply emits_bind.
  - apply emits_modify_doc.
  - intros _. apply emits_emit, HQ.
Qed.

Lemma emits_SelectNewPrintDriver printer :
  (forall sc, S sc -> Q (mkEvent sc (SelectNewPrintDriver printer))) ->
  emits S Q (SelectNewPrintDriver_ printer).
Proof. apply emits_update_pm. Qed.

Lemma emits_set_PrintRange r :
  (forall sc, S sc -> Q (mkEvent sc (SetPrintRange r))) ->
  emits S Q (set_PrintRange r).
Proof. apply emits_update_pm. Qed.

Lemma emits_set_PrintToFile b :
  (forall sc, S sc -> Q (mkEvent sc (SetPrintToFile b))) ->
  emits S Q (set_PrintToFile b).
Proof. apply emits_update_pm. Qed.

Lemma emits_set_PrintToFileName f :
  (forall sc, S sc -> Q (mkEvent sc (SetPrintToFileName f))) ->
  emits S Q (set_PrintToFileName f).
Proof. apply emits_update_pm. Qed.

Lemma emits_set_PrintOrderReverse b :
  (forall sc, S sc -> Q (mkEvent sc (SetPrintOrderReverse b))) ->
  emits S Q (set_PrintOrderReverse b).
Proof. apply emits_update_pm. Qed.

Lemma emits_set_CombinedFile b :
  (forall sc, S sc -> Q (mkEvent sc (SetCombinedFile b))) ->
  emits S Q (set_CombinedFile env b).
Proof.
  intros HQ. unfold set_CombinedFile.
  destruct (accepts_CombinedFile env).
  - apply emits_update_pm, HQ.
  - apply emits_raise.
Qed.

Lemma emits_set_Views sheet_set :
  (forall sc, S sc -> Q (mkEvent sc (SetViews sheet_set))) ->
  emits S Q (set_Views env sheet_set).
Proof.
  intros HQ. unfold set_Views.
  destruct (accepts_ViewSet env sheet_set).
  - apply emits_update_pm, HQ.
  - apply emits_raise.
Qed.

Lemma emits_SaveAs name :
  (forall sc, S sc -> Q (mkEvent sc (SaveAs name))) ->
  emits S Q (SaveAs_ name).
Proof.
  intros HQ. unfold SaveAs_.
  apply emits_bind; [apply emits_gets|intros views].
  apply emits_bind; [apply emits_modify_doc|intros _].
  apply emits_bind; [apply emits_modify_pm|intros _].
  apply emits_emit, HQ.
Qed.

Lemma emits_delete_ViewSheetSet name :
  (forall sc, S sc -> Q (mkEvent sc (DeleteViewSheetSet name))) ->
  emits S Q (delete_ViewSheetSet name).
Proof.
  intros HQ. unfold delete_ViewSheetSet.
  apply emits_bind; [apply emits_modify_pm|intros _].
  apply emits_bind; [apply emits_modify_doc|intros _].
  apply emits_emit, HQ.
Qed.

Lemma emits_set_SheetNumber id number :
  (forall sc, S sc -> Q (mkEvent sc (SetSheetNumber id number))) ->
  emits S Q (set_SheetNumber env id number).
Proof.
  intros HQ h h' r Hsc. unfold set_SheetNumber.
  destruct (sheets (doc h) !! id) as [s|].
  - destruct (accepts_SheetNumber env _ _ _); intros [= <- _].
    + eapply extends_one; [reflexivity|reflexivity|]. apply HQ, Hsc.
    + apply extends_refl.
  - intros [= <- _]. apply extends_refl.
Qed.

Lemma emits_SubmitPrint sheet :
  (forall sc d pm, S sc -> Q (mkEvent sc (SubmitPrint sheet d pm))) ->
  emits S Q (SubmitPrint_ sheet).
Proof.
  intros HQ h h' r Hsc [= <- _].
  eapply extends_one; [reflexivity|reflexivity|]. apply HQ, Hsc.
Qed.

Lemma emits_get_printmanager : emits S Q (_get_printmanager env).
Proof.
  unfold _get_printmanager. destruct (has_PrintManager env).
  - apply emits_ret.
  - apply emits_bind; [apply emits_log|intros _; apply emits_ret].
Qed.

Lemma emits_fix_sheet_numbers targets :
  (forall sc id number, S sc -> Q (mkEvent sc (SetSheetNumber id number))) ->
  forall idx sheet_set originals,
  emits S Q (fix_sheet_numbers env idx targets sheet_set originals).
Proof.
  intros HQ. induction targets as [|sheet rest IH]; intros idx sset origs.
  - apply emits_ret.
  - cbn [fix_sheet_numbers].
    apply emits_bind; [apply emits_get_SheetNumber|intros n1].
    apply emits_bind; [apply emits_get_SheetNumber|intros n2].
    apply emits_bind; [|intros _; apply IH].
    apply emits_set_SheetNumber. intros sc. apply HQ.
Qed.

Lemma emits_restore_sheet_numbers targets originals :
  (forall sc id number, S sc -> Q (mkEvent sc (SetSheetNumber id number))) ->
  emits S Q (restore_sheet_numbers env targets originals).
Proof.
  intros HQ. unfold restore_sheet_numbers. apply emits_for_each.
  intros p _. apply emits_set_SheetNumber. intros sc. apply HQ.
Qed.

End HostCalls.

(** Applies the rules above along the structure of a routine; [side]
    proves what is asked of each call. *)
Ltac emits_step side :=
  first
    [ apply emits_ret | apply emits_raise | apply emits_lift
    | apply emits_gets | apply emits_log | apply emits_get_SheetNumber
    | apply emits_get_printmanager
    | apply emits_emit; side
    | apply emits_set_CurrentPrintSetting; side
    | apply emits_SelectNewPrintDriver; side
    | apply emits_set_PrintRange; side
    | apply emits_set_PrintToFile; side
    | apply emits_set_PrintToFileName; side
    | apply emits_set_PrintOrderReverse; side
    | apply emits_set_CombinedFile; side
    | apply emits_set_Views; side
    | apply emits_SaveAs; side
    | apply emits_delete_ViewSheetSet; side
    | apply emits_set_SheetNumber; side
    | apply emits_SubmitPrint; side
    | apply emits_fix_sheet_numbers; side
    | apply emits_restore_sheet_numbers; side
    | apply emits_try_except | apply emits_with_scope | apply emits_for_each
    | apply emits_bind
    | match goal with
      | |- emits _ _ (if ?b then _ else _) => destruct b
      | |- emits _ _ (match ?o with Some _ => _ | None => _ end) => destruct o
      end
    | progress cbv zeta
    | match goal with |- forall _, _ => intro end ].

Ltac emits_walk side := repeat emits_step side.

(** ** Transactions *)

Ltac side_transacted :=
  intros;
  match goal with
  | |- transacted _ => unfold transacted
  | |- number_transacted _ => unfold number_transacted
  end;
  let Hg := fresh "Hg" in
  intros Hg; try discriminate Hg;
  repeat match goal with
         | Hs : inside _ _ _ |- _ => destruct Hs as (? & -> & Hs)
         end;
  reflexivity.

Lemma combined_transacted env self targets :
  emits any_scopes transacted
    (_print_combined_sheets_in_order env self targets).
Proof.
  unfold _print_combined_sheets_in_order. emits_walk side_transacted.
Qed.

Lemma cleanup_transacted env :
  emits any_scopes transacted (cleanup_sheetnumbers env).
Proof.
  unfold cleanup_sheetnumbers. emits_walk side_transacted.
Qed.

Lemma individual_transacted env self targets :
  emits any_scopes transacted (_print_sheets_in_order env self targets).
Proof.
  unfold _print_sheets_in_order. emits_walk side_transacted.
Qed.

Lemma transacted_number_transacted e : transacted e -> number_transacted e.
Proof.
  unfold transacted, number_transacted. intros H Hw. apply H.
  destruct (ev_call e); try discriminate Hw; reflexivity.
Qed.

Lemma linked_number_transacted env self targets :
  emits any_scopes number_transacted
    (_print_linked_sheets_in_order env self targets).
Proof.
  unfold _print_linked_sheets_in_order. emits_walk side_transacted.
Qed.

Lemma reset_number_transacted env self :
  emits any_scopes number_transacted (_reset_psettings env self).
Proof.
  unfold _reset_psettings. emits_walk side_transacted.
Qed.

Lemma print_sheets_number_transacted env self only_selected confirmed :
  emits any_scopes number_transacted
    (print_sheets env self only_selected confirmed).
Proof.
  unfold print_sheets.
  destruct (is_nil (sheet_list self)); [apply emits_ret|].
  apply emits_bind.
  { destruct (is_nil (selected_sheets self)); [apply emits_ret|].
    apply emits_bind; [apply emits_emit; intros sc _ [=]|intros _].
    apply emits_ret. }
  intros selected_only. cbv zeta.
  apply emits_bind.
  { destruct (negb (combine_print self)); [|apply emits_ret].
    destruct (5 <? _); [|apply emits_ret].
    apply emits_bind; [apply emits_emit; intros sc _ [=]|intros _].
    apply emits_ret. }
  intros proceed.
  destruct (negb proceed); [apply emits_ret|].
  apply emits_bind; [apply emits_emit; intros sc _ [=]|intros _].
  apply emits_bind; [|intros _; apply reset_number_transacted].
  destruct (combine_print self).
  - eapply emits_weaken; [| |apply combined_transacted]; [auto|].
    apply transacted_number_transacted.
  - destruct (selected_doc_IsLinked self).
    + apply linked_number_transacted.
    + eapply emits_weaken; [| |apply individual_transacted]; [auto|].
      apply transacted_number_transacted.
Qed.

(** Where the code keeps sheet state inside transactions: in the
    combined print routine, in the print routine for single sheets of
    the host document and in the shift-click cleanup every change of
    the print setup, of a sheet number and of a view sheet set is
    issued inside a transaction, and whatever the print mode the button
    handler never writes a sheet number outside a transaction. *)
Theorem sheet_state_changes_in_transactions
    env self targets only_selected confirmed :
  emits any_scopes transacted
    (_print_combined_sheets_in_order env self targets)
  /\ emits any_scopes transacted (_print_sheets_in_order env self targets)
  /\ emits any_scopes transacted (cleanup_sheetnumbers env)
  /\ emits any_scopes number_transacted
       (print_sheets env self only_selected confirmed).
Proof.
  split; [apply combined_transacted|].
  split; [apply individual_transacted|].
  split; [apply cleanup_transacted|].
  apply print_sheets_number_transacted.
Qed.

(** C6: the code breaks the claim where it puts the initial print
    setting back: after a combined print the handler assigns the
    current print setting with no transaction open, the call the
    transaction [Set Printer Settings] is there for in the print
    routines. *)
Lemma reset_psettings_outside_transaction :
  ~ emits any_scopes transacted
      (print_sheets sample_env (sample_window true false) false false).
Proof.
  intros H.
  destruct (H sample_host _ _ I
              (surjective_pairing
                 (print_sheets sample_env (sample_window true false)
                    false false sample_host)))
    as [_ (evs & Ht & Hq)].
  change (trace sample_host ++ evs) with evs in Ht. subst evs.
  apply (Forall_lookup_1 _ _ 18
           (mkEvent [] (SetCurrentPrintSetting (Some 7%N)))) in Hq.
  - specialize (Hq eq_refl). discriminate Hq.
  - vm_compute. reflexivity.
Qed.

(** ** What a routine leaves alone *)

Lemma keeps_doc_ret {A B} (g : Document -> B) (a : A) : keeps_doc g (ret a).
Proof. intros h h' r [= <- _]. reflexivity. Qed.

Lemma keeps_doc_raise {A B} (g : Document -> B) e :
  keeps_doc g (@raise Host A e).
Proof. intros h h' r [= <- _]. reflexivity. Qed.

Lemma keeps_doc_lift {A B} (g : Document -> B) (x : result A) :
  keeps_doc g (lift x).
Proof. intros h h' r [= <- _]. reflexivity. Qed.

Lemma keeps_doc_gets {A B} (g : Document -> B) (f : Host -> A) :
  keeps_doc g (gets f).
Proof. intros h h' r [= <- _]. reflexivity. Qed.

Lemma keeps_doc_log {B} (g : Document -> B) l msg : keeps_doc g (log l msg).
Proof. intros h h' r [= <- _]. reflexivity. Qed.

Lemma keeps_doc_emit {B} (g : Document -> B) c : keeps_doc g (emit c).
Proof. intros h h' r [= <- _]. reflexivity. Qed.

Lemma keeps_doc_modify_pm {B} (g : Document -> B) f :
  keeps_doc g (modify (with_print_mgr f)).
Proof. intros h h' r [= <- _]. reflexivity. Qed.

Lemma keeps_doc_modify_doc {B} (g : Document -> B) f :
  (forall d, g (f d) = g d) -> keeps_doc g (modify (with_doc f)).
Proof. intros Hf h h' r [= <- _]. apply Hf. Qed.

Lemma keeps_doc_SubmitPrint {B} (g : Document -> B) sheet :
  keeps_doc g (SubmitPrint_ sheet).
Proof. intros h h' r [= <- _]. reflexivity. Qed.

Lemma keeps_doc_get_SheetNumber {B} (g : Document -> B) id :
  keeps_doc g (get_SheetNumber id).
Proof.
  intros h h' r. unfold get_SheetNumber.
  destruct (sheets (doc h) !! id); intros [= <- _]; reflexivity.
Qed.

Lemma keeps_doc_bind {A B C} (g : Document -> C) (c : M Host A)
    (k : A -> M Host B) :
  keeps_doc g c -> (forall a, keeps_doc g (k a)) -> keeps_doc g (bind c k).
Proof.
  intros Hc Hk h h' r Hrun. unfold bind in Hrun.
  destruct (c h) as [h1 [a|e]] eqn:Hc1.
  - rewrite (Hk _ _ _ _ Hrun). eapply Hc; eauto.
  - injection Hrun as <- <-. eapply Hc; eauto.
Qed.

Lemma keeps_doc_try_except {A C} (g : Document -> C) (c : M Host A)
    (handler : exn -> M Host A) :
  keeps_doc g c -> (forall e, keeps_doc g (handler e)) ->
  keeps_doc g (try_except c handler).
Proof.
  intros Hc Hk h h' r Hrun. unfold try_except in Hrun.
  destruct (c h) as [h1 [a|e]] eqn:Hc1.
  - injection Hrun as <- <-. eapply Hc; eauto.
  - destruct (is_Exception e).
    + rewrite (Hk _ _ _ _ Hrun). eapply Hc; eauto.
    + injection Hrun as <- <-. eapply Hc; eauto.
Qed.

Lemma keeps_doc_with_scope {A C} (g : Document -> C) s (body : M Host A) :
  keeps_doc g body -> keeps_doc g (with_scope s body).
Proof.
  intros Hb h h' r Hrun. unfold with_scope in Hrun.
  destruct (body (with_scopes (cons s) h)) as [h1 x] eqn:Hb1.
  pose proof (Hb _ _ _ Hb1) as H1. simpl in H1.
  destruct x as [a|e]; injection Hrun as <- <-.
  - destruct (is_dry s); simpl; [reflexivity|exact H1].
  - reflexivity.
Qed.

Lemma keeps_doc_for_each {A C} (g : Document -> C) (xs : list A)
    (body : A -> M Host unit) :
  (forall x, keeps_doc g (body x)) -> keeps_doc g (for_each xs body).
Proof.
  intros Hb. induction xs as [|x xs IH].
  - apply keeps_doc_ret.
  - cbn [for_each]. apply keeps_doc_bind; [apply Hb|intros _; exact IH].
Qed.

Lemma keeps_pm_ret {A B} (g : PrintManager -> B) (a : A) :
  keeps_pm g (ret a).
Proof. intros h h' r [= <- _]. reflexivity. Qed.

Lemma keeps_pm_raise {A B} (g : PrintManager -> B) e :
  keeps_pm g (@raise Host A e).
Proof. intros h h' r [= <- _]. reflexivity. Qed.

Lemma keeps_pm_emit {B} (g : PrintManager -> B) c : keeps_pm g (emit c).
Proof. intros h h' r [= <- _]. reflexivity. Qed.

Lemma keeps_pm_modify_pm {B} (g : PrintManager -> B) f :
  (forall pm, g (f pm) = g pm) -> keeps_pm g (modify (with_print_mgr f)).
Proof. intros Hf h h' r [= <- _]. apply Hf. Qed.

Lemma keeps_pm_bind {A B C} (g : PrintManager -> C) (c : M Host A)
    (k : A -> M Host B) :
  keeps_pm g c -> (forall a, keeps_pm g (k a)) -> keeps_pm g (bind c k).
Proof.
  intros Hc Hk h h' r Hrun. unfold bind in Hrun.
  destruct (c h) as [h1 [a|e]] eqn:Hc1.
  - rewrite (Hk _ _ _ _ Hrun). eapply Hc; eauto.
  - injection Hrun as <- <-. eapply Hc; eauto.
Qed.

Lemma keeps_pm_try_except {A C} (g : PrintManager -> C) (c : M Host A)
    (handler : exn -> M Host A) :
  keeps_pm g c -> (forall e, keeps_pm g (handler e)) ->
  keeps_pm g (try_except c handler).
Proof.
  intros Hc Hk h h' r Hrun. unfold try_except in Hrun.
  destruct (c h) as [h1 [a|e]] eqn:Hc1.
  - injection Hrun as <- <-. eapply Hc; eauto.
  - destruct (is_Exception e).
    + rewrite (Hk _ _ _ _ Hrun). eapply Hc; eauto.
    + injection Hrun as <- <-. eapply Hc; eauto.
Qed.

Lemma keeps_pm_gets {A B} (g : PrintManager -> B) (f : Host -> A) :
  keeps_pm g (gets f).
Proof. intros h h' r [= <- _]. reflexivity. Qed.

Lemma keeps_pm_lift {A B} (g : PrintManager -> B) (x : result A) :
  keeps_pm g (lift x).
Proof. intros h h' r [= <- _]. reflexivity. Qed.

Lemma keeps_pm_log {B} (g : PrintManager -> B) l msg : keeps_pm g (log l msg).
Proof. intros h h' r [= <- _]. reflexivity. Qed.

Lemma keeps_pm_modify_doc {B} (g : PrintManager -> B) f :
  keeps_pm g (modify (with_doc f)).
Proof. intros h h' r [= <- _]. reflexivity. Qed.

Lemma keeps_pm_with_scope {A C} (g : PrintManager -> C) s (body : M Host A) :
  keeps_pm g body -> keeps_pm g (with_scope s body).
Proof.
  intros Hb h h' r Hrun. unfold with_scope in Hrun.
  destruct (body (with_scopes (cons s) h)) as [h1 x] eqn:Hb1.
  pose proof (Hb _ _ _ Hb1) as H1. simpl in H1.
  destruct x as [a|e]; injection Hrun as <- <-.
  - destruct (is_dry s); exact H1.
  - exact H1.
Qed.

(** Walks a routine made of the monad operations and of the elementary
    changes of the document and of the print manager. *)
Ltac keeps_walk :=
  unfold update_pm, set_CurrentPrintSetting, SelectNewPrintDriver_,
    set_PrintRange, set_PrintToFile, set_PrintToFileName,
    set_PrintOrderReverse, set_CombinedFile, set_Views, SaveAs_,
    delete_ViewSheetSet, _get_printmanager, update_pm;
  repeat first
    [ apply keeps_doc_ret | apply keeps_doc_raise | apply keeps_doc_lift
    | apply keeps_doc_gets | apply keeps_doc_log | apply keeps_doc_emit
    | apply keeps_doc_modify_pm | apply keeps_doc_SubmitPrint
    | apply keeps_doc_get_SheetNumber
    | apply keeps_doc_modify_doc; intros; reflexivity
    | apply keeps_doc_with_scope | apply keeps_doc_try_except
    | apply keeps_doc_for_each | apply keeps_doc_bind
    | apply keeps_pm_ret | apply keeps_pm_raise | apply keeps_pm_emit
    | apply keeps_pm_gets | apply keeps_pm_lift | apply keeps_pm_log
    | apply keeps_pm_modify_doc
    | apply keeps_pm_modify_pm; intros; reflexivity
    | apply keeps_pm_with_scope
    | apply keeps_pm_try_except | apply keeps_pm_bind
    | match goal with
      | |- keeps_doc _ (if ?b then _ else _) => destruct b
      | |- keeps_pm _ (if ?b then _ else _) => destruct b
      end
    | progress cbv zeta
    | match goal with |- forall _, _ => intro end ].

(** ** Marking and restoring the sheet numbers *)

Lemma get_SheetNumber_Ok id h h' number :
  get_SheetNumber id h = (h', Ok number) ->
  h' = h /\ exists s, sheets (doc h) !! id = Some s /\ number = SheetNumber s.
Proof.
  unfold get_SheetNumber.
  destruct (sheets (doc h) !! id) as [s|]; intros [= <- <-]. eauto.
Qed.

Lemma set_SheetNumber_Ok env id number h h' :
  set_SheetNumber env id number h = (h', Ok tt) ->
  exists s, sheets (doc h) !! id = Some s
    /\ sheets (doc h') =
       <[id := mkViewSheet number (Name s) (CanBePrinted s)]> (sheets (doc h)).
Proof.
  unfold set_SheetNumber.
  destruct (sheets (doc h) !! id) as [s|]; [|discriminate].
  destruct (accepts_SheetNumber env _ _ _); [|discriminate].
  intros [= <-]. exists s. split; reflexivity.
Qed.

Lemma printable_set_cons sheet rest :
  printable_set (sheet :: rest) =
  if printable sheet then {[revit_sheet sheet]} ∪ printable_set rest
  else printable_set rest.
Proof.
  unfold printable_set. destruct (printable sheet) eqn:Hp.
  - rewrite filter_cons_True by exact Hp. reflexivity.
  - rewrite filter_cons_False by (rewrite Hp; discriminate). reflexivity.
Qed.

Lemma fix_sheet_numbers_Ok env targets :
  NoDup (revit_sheet <$> targets) ->
  forall idx sheet_set originals h h' sheet_set' originals',
  fix_sheet_numbers env idx targets sheet_set originals h
  = (h', Ok (sheet_set', originals')) ->
  (forall id, id ∉ revit_sheet <$> targets ->
     sheets (doc h') !! id = sheets (doc h) !! id)
  /\ (forall i sheet, targets !! i = Some sheet ->
       exists s, sheets (doc h) !! revit_sheet sheet = Some s
         /\ sheets (doc h') !! revit_sheet sheet = Some (mark (idx + i + 1) s)
         /\ originals' !! (length originals + i) = Some (SheetNumber s))
  /\ (exists tl, originals' = originals ++ tl /\ length tl = length targets)
  /\ sheet_set' = sheet_set ∪ printable_set targets.
Proof.
  induction targets as [|sheet rest IH];
    intros Hnd idx sset origs h h' sset' origs' Hrun.
  - injection Hrun as <- <- <-. repeat split.
    + intros i sheet Hi. rewrite lookup_nil in Hi. discriminate.
    + exists []. split; [symmetry; apply app_nil_r|reflexivity].
    + unfold printable_set. simpl. symmetry. apply (right_id_L ∅ (∪)).
  - cbn [fix_sheet_numbers] in Hrun. rewrite fmap_cons in Hnd.
    apply NoDup_cons in Hnd as [Hnotin Hnd].
    apply bind_Ok in Hrun as (h1 & n1 & Hg1 & Hrun).
    apply get_SheetNumber_Ok in Hg1 as (-> & s & Hs & ->).
    apply bind_Ok in Hrun as (h2 & n2 & Hg2 & Hrun).
    apply get_SheetNumber_Ok in Hg2 as (-> & s2 & Hs2 & ->).
    assert (s2 = s) as -> by congruence.
    apply bind_Ok in Hrun as (h3 & [] & Hset & Hrun).
    apply set_SheetNumber_Ok in Hset as (s3 & Hs3 & Hdoc).
    assert (s3 = s) as -> by congruence.
    destruct (IH Hnd _ _ _ _ _ _ _ Hrun) as (Ha & Hb & (tl & Htl & Hlen) & Hd).
    split; [|split; [|split]].
    + intros id Hid. apply not_elem_of_cons in Hid as [Hne Hid].
      rewrite (Ha id Hid), Hdoc. apply lookup_insert_ne. congruence.
    + intros [|i] sheet' Hi.
      * injection Hi as <-. exists s. split; [exact Hs|]. split.
        -- rewrite (Ha _ Hnotin), Hdoc, lookup_insert_eq.
           rewrite Nat.add_0_r. reflexivity.
        -- rewrite Htl, Nat.add_0_r, <- app_assoc.
           rewrite lookup_app_r by reflexivity.
           rewrite Nat.sub_diag. reflexivity.
      * cbn in Hi. destruct (Hb i sheet' Hi) as (s' & Hs' & Hm & Ho).
        assert (Hne : revit_sheet sheet' <> revit_sheet sheet).
        { intros Heq. apply Hnotin. rewrite <- Heq.
          apply list_elem_of_fmap. exists sheet'. split; [reflexivity|].
          eapply list_elem_of_lookup_2; exact Hi. }
        exists s'. split; [|split].
        -- rewrite <- Hs', Hdoc. symmetry. apply lookup_insert_ne. congruence.
        -- rewrite Hm. f_equal. f_equal. lia.
        -- rewrite <- Ho. f_equal. rewrite length_app. simpl. lia.
    + exists (SheetNumber s :: tl). split.
      * rewrite Htl, <- app_assoc. reflexivity.
      * simpl. congruence.
    + rewrite Hd, printable_set_cons.
      destruct (printable sheet); [|reflexivity].
      rewrite (comm_L (∪) {[revit_sheet sheet]} sset).
      symmetry. apply (assoc_L (∪)).
Qed.

Lemma restore_loop_Ok env (pairs : list (ViewSheetListItem * list N)) :
  NoDup ((fun p => revit_sheet (fst p)) <$> pairs) ->
  forall h h',
  for_each pairs (fun p => set_SheetNumber env (revit_sheet (fst p)) (snd p)) h
  = (h', Ok tt) ->
  (forall id, id ∉ (fun p => revit_sheet (fst p)) <$> pairs ->
     sheets (doc h') !! id = sheets (doc h) !! id)
  /\ (forall i p, pairs !! i = Some p ->
       exists s, sheets (doc h) !! revit_sheet (fst p) = Some s
         /\ sheets (doc h') !! revit_sheet (fst p)
            = Some (mkViewSheet (snd p) (Name s) (CanBePrinted s))).
Proof.
  induction pairs as [|p rest IH]; intros Hnd h h' Hrun.
  - injection Hrun as <-. split; [reflexivity|].
    intros i p Hi. rewrite lookup_nil in Hi. discriminate.
  - cbn [for_each] in Hrun. rewrite fmap_cons in Hnd.
    apply NoDup_cons in Hnd as [Hnotin Hnd].
    apply bind_Ok in Hrun as (h1 & [] & Hset & Hrun).
    apply set_SheetNumber_Ok in Hset as (s & Hs & Hdoc).
    destruct (IH Hnd _ _ Hrun) as [Ha Hb]. split.
    + intros id Hid. apply not_elem_of_cons in Hid as [Hne Hid].
      rewrite (Ha id Hid), Hdoc. apply lookup_insert_ne. congruence.
    + intros [|i] q Hi.
      * injection Hi as <-. exists s. split; [exact Hs|].
        rewrite (Ha _ Hnotin), Hdoc. apply lookup_insert_eq.
      * cbn in Hi. destruct (Hb i q Hi) as (s' & Hs' & Hm).
        assert (Hne : revit_sheet (fst q) <> revit_sheet (fst p)).
        { intros Heq. apply Hnotin. rewrite <- Heq.
          apply list_elem_of_fmap. exists q. split; [reflexivity|].
          eapply list_elem_of_lookup_2; exact Hi. }
        exists s'. split; [|exact Hm].
        rewrite <- Hs', Hdoc. symmetry. apply lookup_insert_ne. congruence.
Qed.

Lemma bind_cases {St A B} (c : M St A) (k : A -> M St B) s s' r :
  bind c k s = (s', r) ->
  (exists e, c s = (s', Raise e) /\ r = Raise e)
  \/ (exists s1 a, c s = (s1, Ok a) /\ k a s1 = (s', r)).
Proof.
  unfold bind. destruct (c s) as [s1 [a|e]]; intros H.
  - right. eauto.
  - left. injection H as -> <-. eauto.
Qed.

Lemma extends_leave Q s h h1 :
  extends Q (with_scopes (cons s) h) h1 -> extends Q h (leave_scope s h h1).
Proof.
  intros [Hs (evs & Ht & Hq)]. simpl in Hs, Ht. unfold leave_scope. split.
  - destruct (is_dry s); simpl; rewrite Hs; reflexivity.
  - exists evs. split; [|exact Hq]. destruct (is_dry s); exact Ht.
Qed.

Lemma extends_abort Q s h h1 :
  extends Q (with_scopes (cons s) h) h1 -> extends Q h (abort_scope h h1).
Proof.
  intros [Hs (evs & Ht & Hq)]. simpl in Hs, Ht. unfold abort_scope. split.
  - simpl. rewrite Hs. reflexivity.
  - exists evs. split; [|exact Hq]. exact Ht.
Qed.

Lemma no_submit_combined_job targets m0 e :
  no_submit e -> combined_job targets m0 e.
Proof.
  unfold no_submit. intros H sheet d pm Hc. rewrite Hc in H. discriminate.
Qed.

Ltac side_no_submit := intros; reflexivity.

(** From a finished step [Hstep : c h = (h1, x)] of a routine: the step
    submitted nothing and left the sheets alone. *)
Ltac quiet_step Hstep He Hd :=
  match type of Hstep with
  | ?c ?h = (?h1, _) =>
      assert (He : extends no_submit h h1)
        by (refine ((_ : emits any_scopes no_submit c) h h1 _ I Hstep);
            emits_walk side_no_submit);
      assert (Hd : sheets (doc h1) = sheets (doc h))
        by (refine ((_ : keeps_doc sheets c) h h1 _ Hstep); keeps_walk)
  end.

(** The same for the print manager: the step left the views alone. *)
Ltac views_step Hstep Hv :=
  match type of Hstep with
  | ?c ?h = (?h1, _) =>
      assert (Hv : Views (print_mgr h1) = Views (print_mgr h))
        by (refine ((_ : keeps_pm Views c) h h1 _ Hstep); keeps_walk)
  end.

(** Closes the case where a step raised before anything was
    submitted. *)
Ltac close_raise Hacc :=
  split;
  [ eapply extends_weaken; [apply no_submit_combined_job|exact Hacc]
  | split; discriminate ].

Ltac trace_step Hstep He :=
  match type of Hstep with
  | ?c ?h = (?h1, _) =>
      assert (He : extends no_submit h h1)
        by (refine ((_ : emits any_scopes no_submit c) h h1 _ I Hstep);
            emits_walk side_no_submit)
  end.

Ltac doc_step Hstep Hd :=
  match type of Hstep with
  | ?c ?h = (?h1, _) =>
      assert (Hd : sheets (doc h1) = sheets (doc h))
        by (refine ((_ : keeps_doc sheets c) h h1 _ Hstep); keeps_walk)
  end.

(** ** Routines that return *)

Lemma total_ret {A} P (a : A) : total P (ret a).
Proof. intros h Hp. exists h, a. split; [reflexivity|exact Hp]. Qed.

Lemma total_gets {A} P (f : Host -> A) : total P (gets f).
Proof. intros h Hp. exists h, (f h). split; [reflexivity|exact Hp]. Qed.

Lemma total_log P l msg : total P (log l msg).
Proof. intros h Hp. eexists _, tt. split; [reflexivity|exact Hp]. Qed.

Lemma total_emit P c : total P (emit c).
Proof. intros h Hp. eexists _, tt. split; [reflexivity|exact Hp]. Qed.

Lemma total_modify_pm P f : total P (modify (with_print_mgr f)).
Proof. intros h Hp. eexists _, tt. split; [reflexivity|exact Hp]. Qed.

Lemma total_modify_doc (P : Document -> Prop) f :
  (forall d, P d -> P (f d)) -> total P (modify (with_doc f)).
Proof.
  intros Hf h Hp. eexists _, tt. split; [reflexivity|]. apply Hf, Hp.
Qed.

Lemma total_SubmitPrint P sheet : total P (SubmitPrint_ sheet).
Proof. intros h Hp. eexists _, tt. split; [reflexivity|exact Hp]. Qed.

Lemma total_bind {A B} P (c : M Host A) (k : A -> M Host B) :
  total P c -> (forall a, total P (k a)) -> total P (bind c k).
Proof.
  intros Hc Hk h Hp.
  destruct (Hc h Hp) as (h1 & a & Hrun & Hp1).
  destruct (Hk a h1 Hp1) as (h2 & b & Hrun2 & Hp2).
  exists h2, b. split; [|exact Hp2].
  rewrite (bind_run _ _ _ _ _ Hrun). exact Hrun2.
Qed.

Lemma total_try_except {A} P (c : M Host A) handler :
  total P c -> total P (try_except c handler).
Proof.
  intros Hc h Hp. destruct (Hc h Hp) as (h1 & a & Hrun & Hp1).
  exists h1, a. split; [|exact Hp1]. unfold try_except. rewrite Hrun.
  reflexivity.
Qed.

Lemma total_with_scope {A} P s (body : M Host A) :
  total P body -> total P (with_scope s body).
Proof.
  intros Hb h Hp.
  destruct (Hb (with_scopes (cons s) h) Hp) as (h1 & a & Hrun & Hp1).
  exists (leave_scope s h h1), a. split; [apply with_scope_run, Hrun|].
  unfold leave_scope. destruct (is_dry s); [exact Hp|exact Hp1].
Qed.

Lemma total_for_each {A} P (xs : list A) (body : A -> M Host unit) :
  (forall x, x ∈ xs -> total P (body x)) -> total P (for_each xs body).
Proof.
  induction xs as [|x xs IH]; intros Hb.
  - apply total_ret.
  - cbn [for_each]. apply total_bind.
    + apply Hb, list_elem_of_here.
    + intros _. apply IH. intros y Hy. apply Hb, list_elem_of_further, Hy.
Qed.

Lemma total_get_SheetNumber targets sheet :
  sheet ∈ targets ->
  total (has_sheets targets) (get_SheetNumber (revit_sheet sheet)).
Proof.
  intros Hin h Hp. destruct (Hp sheet Hin) as [s Hs].
  exists h, (SheetNumber s). split; [|exact Hp].
  unfold get_SheetNumber. rewrite Hs. reflexivity.
Qed.

Lemma total_set_SheetNumber env targets sheet number :
  accepts_every_number env -> sheet ∈ targets ->
  total (has_sheets targets)
    (set_SheetNumber env (revit_sheet sheet) number).
Proof.
  intros Hacc Hin h Hp. destruct (Hp sheet Hin) as [s Hs].
  unfold set_SheetNumber. rewrite Hs, Hacc. eexists _, tt.
  split; [reflexivity|].
  intros sheet' Hin'. simpl. rewrite lookup_insert.
  destruct (decide (revit_sheet sheet = revit_sheet sheet')); [eauto|].
  apply Hp, Hin'.
Qed.

Lemma total_fix_sheet_numbers env targets rest :
  accepts_every_number env -> rest ⊆ targets ->
  forall idx sheet_set originals,
  total (has_sheets targets)
    (fix_sheet_numbers env idx rest sheet_set originals).
Proof.
  intros Hacc. induction rest as [|sheet rest IH];
    intros Hsub idx sset origs.
  - apply total_ret.
  - cbn [fix_sheet_numbers].
    assert (Hin : sheet ∈ targets) by (apply Hsub, list_elem_of_here).
    apply total_bind; [apply total_get_SheetNumber, Hin|intros n1].
    apply total_bind; [apply total_get_SheetNumber, Hin|intros n2].
    apply total_bind; [apply total_set_SheetNumber; assumption|intros _].
    apply IH. intros x Hx. apply Hsub, list_elem_of_further, Hx.
Qed.

Lemma total_restore_sheet_numbers env targets originals :
  accepts_every_number env ->
  total (has_sheets targets) (restore_sheet_numbers env targets originals).
Proof.
  intros Hacc. unfold restore_sheet_numbers. apply total_for_each.
  intros [sheet number] Hin. apply total_set_SheetNumber; [exact Hacc|].
  apply elem_of_zip_l in Hin. exact Hin.
Qed.

Lemma total_set_Views env P sheet_set :
  (forall v, accepts_ViewSet env v = true) ->
  total P (set_Views env sheet_set).
Proof.
  intros Hvs. unfold set_Views, update_pm. rewrite Hvs.
  apply total_bind; [apply total_modify_pm|intros _; apply total_emit].
Qed.

(** Walks a routine whose host calls all succeed. *)
Ltac total_walk :=
  repeat first
    [ apply total_ret | apply total_gets | apply total_log
    | apply total_emit | apply total_modify_pm | apply total_SubmitPrint
    | apply total_modify_doc; intros ? ?; assumption
    | apply total_fix_sheet_numbers; [assumption|reflexivity]
    | apply total_restore_sheet_numbers; assumption
    | apply total_set_Views; assumption
    | apply total_with_scope | apply total_try_except | apply total_bind
    | match goal with
      | |- total _ (if ?b then _ else _) => destruct b
      end
    | progress cbv zeta
    | match goal with |- forall _, _ => intro end ].

(** ** The combined print routine *)

Section Combined.
Variable env : Environment.
Variable self : PrintSheetsWindow.
Variable targets : list ViewSheetListItem.
Hypothesis targets_distinct : NoDup (revit_sheet <$> targets).

Lemma update_print_set_Ok s sheet_set name msg h h' :
  with_scope s
    (try_except (bind (set_Views env sheet_set) (fun _ => SaveAs_ name))
       (fun viewset_err =>
          bind (log CRITICAL msg) (fun _ => raise viewset_err))) h
  = (h', Ok tt) ->
  Views (print_mgr h') = sheet_set.
Proof.
  intros Hrun. apply with_scope_Ok in Hrun as (h1 & Hrun & ->).
  assert (Hv : Views (print_mgr h1) = sheet_set).
  { unfold try_except in Hrun.
    destruct (bind (set_Views env sheet_set) (fun _ => SaveAs_ name)
                (with_scopes (cons s) h)) as [h2 [[]|e]] eqn:Hb.
    - injection Hrun as <-.
      apply bind_Ok in Hb as (h3 & [] & Hset & Hsave).
      views_step Hsave Hv. rewrite Hv.
      unfold set_Views in Hset.
      destruct (accepts_ViewSet env sheet_set); [|discriminate].
      injection Hset as <-. reflexivity.
    - destruct (is_Exception e); discriminate. }
  unfold leave_scope. destruct (is_dry s); exact Hv.
Qed.

Lemma marked_at_transport (m0 m0' m m' : gmap N ViewSheet) :
  m0' = m0 -> m' = m -> marked_at targets m0 m -> marked_at targets m0' m'.
Proof. intros -> ->. exact (fun H => H). Qed.

(** What one run of the routine does: the jobs it submits, the sheets
    it leaves behind when it returns, and the job it does submit. *)
Lemma combined_run h h' r :
  _print_combined_sheets_in_order env self targets h = (h', r) ->
  extends (combined_job targets (sheets (doc h))) h h'
  /\ (r = Ok tt -> sheets (doc h') = sheets (doc h))
  /\ (r = Ok tt -> has_PrintManager env = true ->
      exists sc d pm evs1 evs2,
        trace h' = trace h ++ evs1 ++ mkEvent sc (SubmitPrint None d pm) :: evs2).
Proof.
  unfold _print_combined_sheets_in_order. intros Hrun.
  apply bind_cases in Hrun as [(e & Hgp & ->)|(h0 & print_mgr & Hgp & Hrun)].
  { trace_step Hgp He. split; [|split; discriminate].
    eapply extends_weaken; [apply no_submit_combined_job|exact He]. }
  trace_step Hgp He0. doc_step Hgp Hd0.
  apply with_scope_inv in Hrun as (h1 & Hbody & Hh').
  assert (Hjobs :
    extends (combined_job targets (sheets (doc h)))
      (with_scopes (cons (TransactionGroup "Print Sheets in Order")) h0) h1
    /\ (r = Ok tt -> sheets (doc h1) = sheets (doc h))
    /\ (r = Ok tt -> print_mgr = true ->
        exists sc d pm evs1 evs2,
          trace h1
          = trace h0 ++ evs1 ++ mkEvent sc (SubmitPrint None d pm) :: evs2)).
  { destruct print_mgr; cbn [negb] in Hbody.
    2:{ injection Hbody as <- <-. split; [apply extends_refl|].
        split; [intros _; exact Hd0|discriminate]. }
    clear Hh'.
    apply bind_cases in Hbody as [(e & H1 & ->)|(h2 & [] & H1 & Hbody)].
    { trace_step H1 He1. close_raise He1. }
    trace_step H1 He1. doc_step H1 Hd1.
    apply bind_cases in Hbody as [(e & H2 & ->)|(h3 & fixed & H2 & Hbody)].
    { trace_step H2 He2. pose proof (extends_trans _ _ _ _ He1 He2) as Hacc.
      close_raise Hacc. }
    trace_step H2 He2. pose proof (extends_trans _ _ _ _ He1 He2) as Hacc2.
    apply with_scope_Ok in H2 as (h2' & Hfix & Hh3).
    destruct fixed as [sheet_set originals].
    apply (fix_sheet_numbers_Ok env targets targets_distinct) in Hfix
      as (Ha & Hb & (tl & Htl & Hlen) & Hset).
    change (doc (with_scopes (cons (Transaction "Fix Sheet Numbers")) h2))
      with (doc h2) in Ha, Hb.
    cbn [fst snd] in Hbody.
    assert (Hdoc3 : sheets (doc h3) = sheets (doc h2'))
      by (rewrite Hh3; reflexivity).
    apply bind_cases in Hbody as [(e & Hs4 & ->)|(h4 & a4 & Hs4 & Hbody)].
    { trace_step Hs4 He4.
      pose proof (extends_trans _ _ _ _ Hacc2 He4) as Hacc. close_raise Hacc. }
    trace_step Hs4 He4. doc_step Hs4 Hd4.
    pose proof (extends_trans _ _ _ _ Hacc2 He4) as Hacc4.
    assert (Hdoc4 : sheets (doc h4) = sheets (doc h2'))
      by (rewrite Hd4; exact Hdoc3).
    apply bind_cases in Hbody as [(e & Hs5 & ->)|(h5 & a5 & Hs5 & Hbody)].
    { trace_step Hs5 He5.
      pose proof (extends_trans _ _ _ _ Hacc4 He5) as Hacc. close_raise Hacc. }
    trace_step Hs5 He5. doc_step Hs5 Hd5.
    pose proof (extends_trans _ _ _ _ Hacc4 He5) as Hacc5.
    assert (Hdoc5 : sheets (doc h5) = sheets (doc h2'))
      by (rewrite Hd5; exact Hdoc4).
    apply bind_cases in Hbody as [(e & Hs6 & ->)|(h6 & a6 & Hs6 & Hbody)].
    { trace_step Hs6 He6.
      pose proof (extends_trans _ _ _ _ Hacc5 He6) as Hacc. close_raise Hacc. }
    trace_step Hs6 He6. doc_step Hs6 Hd6.
    pose proof (extends_trans _ _ _ _ Hacc5 He6) as Hacc6.
    assert (Hdoc6 : sheets (doc h6) = sheets (doc h2'))
      by (rewrite Hd6; exact Hdoc5).
    destruct a6. apply update_print_set_Ok in Hs6 as Hv6.
    apply bind_cases in Hbody as [(e & Hs7 & ->)|(h7 & a7 & Hs7 & Hbody)].
    { trace_step Hs7 He7.
      pose proof (extends_trans _ _ _ _ Hacc6 He7) as Hacc. close_raise Hacc. }
    trace_step Hs7 He7. doc_step Hs7 Hd7.
    pose proof (extends_trans _ _ _ _ Hacc6 He7) as Hacc7.
    assert (Hdoc7 : sheets (doc h7) = sheets (doc h2'))
      by (rewrite Hd7; exact Hdoc6).
    views_step Hs7 Hv7'.
    assert (Hv7 : Views (print_mgr h7) = sheet_set)
      by (rewrite Hv7'; exact Hv6).
    apply bind_cases in Hbody as [(e & Hs8 & ->)|(h8 & a8 & Hs8 & Hbody)].
    { trace_step Hs8 He8.
      pose proof (extends_trans _ _ _ _ Hacc7 He8) as Hacc. close_raise Hacc. }
    trace_step Hs8 He8. doc_step Hs8 Hd8.
    pose proof (extends_trans _ _ _ _ Hacc7 He8) as Hacc8.
    assert (Hdoc8 : sheets (doc h8) = sheets (doc h2'))
      by (rewrite Hd8; exact Hdoc7).
    views_step Hs8 Hv8'.
    assert (Hv8 : Views (print_mgr h8) = sheet_set)
      by (rewrite Hv8'; exact Hv7).
    apply bind_cases in Hbody as [(e & Hs9 & ->)|(h9 & a9 & Hs9 & Hbody)].
    { trace_step Hs9 He9.
      pose proof (extends_trans _ _ _ _ Hacc8 He9) as Hacc. close_raise Hacc. }
    trace_step Hs9 He9. doc_step Hs9 Hd9.
    pose proof (extends_trans _ _ _ _ Hacc8 He9) as Hacc9.
    assert (Hdoc9 : sheets (doc h9) = sheets (doc h2'))
      by (rewrite Hd9; exact Hdoc8).
    views_step Hs9 Hv9'.
    assert (Hv9 : Views (print_mgr h9) = sheet_set)
      by (rewrite Hv9'; exact Hv8).
    apply bind_cases in Hbody as [(e & Hs10 & ->)|(h10 & a10 & Hs10 & Hbody)].
    { trace_step Hs10 He10.
      pose proof (extends_trans _ _ _ _ Hacc9 He10) as Hacc. close_raise Hacc. }
    trace_step Hs10 He10. doc_step Hs10 Hd10.
    pose proof (extends_trans _ _ _ _ Hacc9 He10) as Hacc10.
    assert (Hdoc10 : sheets (doc h10) = sheets (doc h2'))
      by (rewrite Hd10; exact Hdoc9).
    views_step Hs10 Hv10'.
    assert (Hv10 : Views (print_mgr h10) = sheet_set)
      by (rewrite Hv10'; exact Hv9).
    apply bind_cases in Hbody as [(e & Hs11 & ->)|(h11 & a11 & Hs11 & Hbody)].
    { trace_step Hs11 He11.
      pose proof (extends_trans _ _ _ _ Hacc10 He11) as Hacc. close_raise Hacc. }
    trace_step Hs11 He11. doc_step Hs11 Hd11.
    pose proof (extends_trans _ _ _ _ Hacc10 He11) as Hacc11.
    assert (Hdoc11 : sheets (doc h11) = sheets (doc h2'))
      by (rewrite Hd11; exact Hdoc10).
    views_step Hs11 Hv11'.
    assert (Hv11 : Views (print_mgr h11) = sheet_set)
      by (rewrite Hv11'; exact Hv10).
    apply bind_cases in Hbody as [(e & Hsub & ->)|(h12 & [] & Hsub & Hbody)].
    { unfold SubmitPrint_ in Hsub. discriminate Hsub. }
    unfold SubmitPrint_ in Hsub. injection Hsub as <-.
    trace_step Hbody He12.
    assert (Hstart : sheets (doc h2) = sheets (doc h))
      by (rewrite Hd1; exact Hd0).
    assert (Hmarked : marked_at targets (sheets (doc h)) (sheets (doc h11))).
    { intros i sheet Hi. destruct (Hb i sheet Hi) as (s & Hs & Hm & _).
      exists s. split.
      - rewrite <- Hstart. exact Hs.
      - rewrite Hdoc11. exact Hm. }
    split; [|split].
    - eapply extends_trans;
        [eapply extends_weaken; [apply no_submit_combined_job|exact Hacc11]|].
      eapply extends_trans;
        [|eapply extends_weaken; [apply no_submit_combined_job|exact He12]].
      eapply extends_one; [reflexivity|reflexivity|].
      intros sheet d pm [= <- <- <-]. split; [reflexivity|].
      split; [exact Hmarked|].
      rewrite Hv11, Hset. apply (left_id_L ∅ (∪)).
    - intros ->. apply with_scope_Ok in Hbody as (h13 & Hrest & ->).
      unfold restore_sheet_numbers in Hrest.
      assert (Hids : (fun p : ViewSheetListItem * list N => revit_sheet (fst p))
                       <$> zip targets originals
                     = revit_sheet <$> targets).
      { change ((revit_sheet ∘ fst) <$> zip targets originals
                = revit_sheet <$> targets).
        rewrite (list_fmap_compose fst revit_sheet).
        rewrite fst_zip; [reflexivity|]. rewrite Htl. simpl. lia. }
      apply restore_loop_Ok in Hrest as [Hra Hrb];
        [|rewrite Hids; exact targets_distinct].
      rewrite Hids in Hra.
      apply map_eq. intros id.
      change (sheets (doc h13) !! id = sheets (doc h) !! id).
      change (doc (with_scopes _ (record_call _ h11))) with (doc h11)
        in Hra, Hrb.
      destruct (decide (id ∈ revit_sheet <$> targets)) as [Hin|Hin].
      + apply list_elem_of_fmap in Hin as (sheet & -> & Hin).
        apply list_elem_of_lookup in Hin as [i Hi].
        destruct (Hb i sheet Hi) as (s & Hs & Hm & Ho).
        assert (Hz : zip targets originals !! i = Some (sheet, SheetNumber s)).
        { apply lookup_zip_with_Some. exists sheet, (SheetNumber s).
          split; [reflexivity|]. split; [exact Hi|exact Ho]. }
        destruct (Hrb i _ Hz) as (s' & Hs' & Hr).
        cbn [fst snd] in Hs', Hr.
        rewrite Hdoc11, Hm in Hs'. injection Hs' as <-.
        rewrite Hr, <- Hstart. rewrite Hs.
        destruct s; reflexivity.
      + rewrite (Hra id Hin), Hdoc11, (Ha id Hin). rewrite <- Hstart.
        reflexivity.
    - intros _ _.
      destruct Hacc11 as [_ (evs1 & Ht1 & _)].
      destruct He12 as [_ (evs2 & Ht2 & _)].
      simpl in Ht1, Ht2.
      exists (scopes h11), (doc h11), (print_mgr h11), evs1, evs2.
      rewrite Ht2, Ht1. rewrite <- !app_assoc. reflexivity. }
  destruct Hjobs as (Hj1 & Hj2 & Hj3).
  split; [|split].
  - eapply extends_trans;
      [eapply extends_weaken; [apply no_submit_combined_job|exact He0]|].
    destruct r; subst h'; [apply extends_leave|eapply extends_abort]; exact Hj1.
  - intros ->. subst h'. exact (Hj2 eq_refl).
  - intros -> Hpm. subst h'.
    unfold _get_printmanager in Hgp. rewrite Hpm in Hgp.
    injection Hgp as <- <-.
    destruct (Hj3 eq_refl eq_refl) as (sc & d & pm & evs1 & evs2 & Ht).
    exists sc, d, pm, evs1, evs2. exact Ht.
Qed.

(** On an obliging host the routine returns. *)
Lemma combined_returns h :
  obliging env -> has_sheets targets (doc h) ->
  exists h', _print_combined_sheets_in_order env self targets h = (h', Ok tt).
Proof.
  intros (Hpm & Hacc & Hvs & Hcf) Hin.
  assert (Ht : total (has_sheets targets)
                 (_print_combined_sheets_in_order env self targets)).
  { unfold _print_combined_sheets_in_order, _get_printmanager,
      set_CurrentPrintSetting, SelectNewPrintDriver_, set_PrintRange,
      set_PrintToFile, set_PrintToFileName, set_PrintOrderReverse,
      set_CombinedFile, SaveAs_, delete_ViewSheetSet, update_pm.
    rewrite Hpm, Hcf. total_walk. }
  destruct (Ht h Hin) as (h' & [] & Hrun & _). eauto.
Qed.

(** Every job in the part of the trace the routine added. *)
Lemma combined_run_job h h' r sc sheet d pm :
  _print_combined_sheets_in_order env self targets h = (h', r) ->
  mkEvent sc (SubmitPrint sheet d pm) ∈ drop (length (trace h)) (trace h') ->
  sheet = None
  /\ marked_at targets (sheets (doc h)) (sheets d)
  /\ Views pm = printable_set targets.
Proof.
  intros Hrun Hin.
  destruct (combined_run h h' r Hrun) as [[_ (evs & Ht & Hq)] _].
  rewrite Ht, drop_app_length in Hin.
  rewrite Forall_forall in Hq.
  exact (Hq _ Hin sheet d pm eq_refl).
Qed.

End Combined.

Lemma str_mul_NPC n : str_mul NPC n = replicate n LRM.
Proof.
  unfold str_mul. induction n as [|n IH]; [reflexivity|].
  cbn [replicate concat]. rewrite IH. reflexivity.
Qed.

Lemma mark_with_markers n s :
  mark n s = mkViewSheet (with_markers n (SheetNumber s)) (Name s)
               (CanBePrinted s).
Proof. unfold mark, with_markers. rewrite str_mul_NPC. reflexivity. Qed.

Lemma lex_lt_markers p q a b :
  sorts_before_marker a -> p < q ->
  lex_lt (with_markers p a) (with_markers q b).
Proof.
  unfold with_markers. intros Ha. revert q.
  induction p as [|p IH]; intros [|q] Hlt; try lia.
  - cbn [replicate app]. destruct a as [|c a]; [exact I|].
    left. exact Ha.
  - cbn [replicate app lex_lt]. right. split; [reflexivity|].
    apply IH. lia.
Qed.

Lemma marked_numbers_increasing targets (m0 m : gmap N ViewSheet) :
  forall k,
  (forall idx item, targets !! idx = Some item ->
     exists s, m0 !! revit_sheet item = Some s
       /\ m !! revit_sheet item
          = Some (mkViewSheet (with_markers (k + idx + 1) (SheetNumber s))
                    (Name s) (CanBePrinted s))) ->
  (forall item s, item ∈ targets -> m0 !! revit_sheet item = Some s ->
     sorts_before_marker (SheetNumber s)) ->
  lex_increasing (numbers_of targets m)
  /\ Forall (fun t => exists n a, k < n /\ t = with_markers n a)
       (numbers_of targets m).
Proof.
  unfold lex_increasing, numbers_of.
  induction targets as [|item rest IH]; intros k Hm Hs.
  - split; constructor.
  - destruct (Hm 0 item eq_refl) as (s & Hs0 & Hs1).
    destruct (IH (S k)) as [Hsorted Hall].
    { intros idx it Hit. destruct (Hm (S idx) it Hit) as (s' & H0 & H1).
      exists s'. split; [exact H0|]. rewrite H1. do 3 f_equal. lia. }
    { intros it s' Hin. apply Hs. apply list_elem_of_further, Hin. }
    change (omap ?F (item :: rest))
      with (match F item with
            | Some y => y :: omap F rest
            | None => omap F rest
            end).
    cbv beta. rewrite Hs1. cbn [fmap option_fmap option_map SheetNumber].
    split.
    + constructor; [exact Hsorted|].
      eapply Forall_impl; [exact Hall|].
      intros t (n & a & Hn & ->). apply lex_lt_markers; [|lia].
      apply (Hs item s); [apply list_elem_of_here|exact Hs0].
    + constructor.
      * exists (k + 0 + 1), (SheetNumber s). split; [lia|reflexivity].
      * eapply Forall_impl; [exact Hall|].
        intros t (n & a & Hn & ->). exists n, a. split; [lia|reflexivity].
Qed.

(** C1: when the combined routine submits its print job, the sheet at
    every position [idx] of the target list carries its original number
    with [idx + 1] copies of U+200E in front; when no original number
    begins with a code unit at or above U+200E, so none with a marker
    left from an earlier run, the renamed numbers are in strictly
    ascending order of their code units along the target list; on an
    obliging host whose document holds the target sheets the job is
    submitted.  The target list names every sheet once, as the list of
    the dialog does. *)
Theorem combined_print_marks_sheet_numbers env self targets h :
  NoDup (revit_sheet <$> targets) ->
  (forall h' r sc sheet d pm,
     _print_combined_sheets_in_order env self targets h = (h', r) ->
     mkEvent sc (SubmitPrint sheet d pm)
       ∈ drop (length (trace h)) (trace h') ->
     (forall idx item, targets !! idx = Some item ->
        exists s, sheets (doc h) !! revit_sheet item = Some s
          /\ sheets d !! revit_sheet item
             = Some (mkViewSheet (with_markers (idx + 1) (SheetNumber s))
                       (Name s) (CanBePrinted s)))
     /\ ((forall item s, item ∈ targets ->
            sheets (doc h) !! revit_sheet item = Some s ->
            sorts_before_marker (SheetNumber s)) ->
         lex_increasing (numbers_of targets (sheets d))))
  /\ (obliging env -> has_sheets targets (doc h) ->
      exists h' sc d pm,
        _print_combined_sheets_in_order env self targets h = (h', Ok tt)
        /\ mkEvent sc (SubmitPrint None d pm)
             ∈ drop (length (trace h)) (trace h')).
Proof.
  intros Hnd. split.
  - intros h' r sc sheet d pm Hrun Hin.
    destruct (combined_run_job env self targets Hnd _ _ _ _ _ _ _ Hrun Hin)
      as (_ & Hm & _).
    assert (Hmk : forall idx item, targets !! idx = Some item ->
              exists s, sheets (doc h) !! revit_sheet item = Some s
                /\ sheets d !! revit_sheet item
                   = Some (mkViewSheet
                             (with_markers (idx + 1) (SheetNumber s))
                             (Name s) (CanBePrinted s))).
    { intros idx item Hit. destruct (Hm idx item Hit) as (s & H0 & H1).
      exists s. split; [exact H0|]. rewrite H1, mark_with_markers.
      reflexivity. }
    split; [exact Hmk|]. intros Hs.
    exact (proj1 (marked_numbers_increasing targets (sheets (doc h))
                    (sheets d) 0 Hmk Hs)).
  - intros Hob Hin.
    destruct (combined_returns env self targets h Hob Hin) as [h' Hrun].
    destruct (combined_run env self targets Hnd _ _ _ Hrun)
      as (_ & _ & Hsub).
    destruct (Hsub eq_refl (proj1 Hob)) as (sc & d & pm & evs1 & evs2 & Ht).
    exists h', sc, d, pm. split; [exact Hrun|].
    rewrite Ht, drop_app_length. apply elem_of_app. right.
    apply list_elem_of_here.
Qed.

(** C1 as stated fails: sheet 2 of the sample document carries a marker
    from an earlier run, and printed before sheet 1 it is renamed to a
    number that sorts after the renamed number of sheet 1. *)
Lemma leftover_marker_breaks_print_order :
  exists h' sc d pm,
    _print_combined_sheets_in_order sample_env (sample_window true false)
      leftover_items sample_host = (h', Ok tt)
    /\ mkEvent sc (SubmitPrint None d pm)
         ∈ drop (length (trace sample_host)) (trace h')
    /\ numbers_of leftover_items (sheets d)
       = [with_markers 1 (NPC ++ u "A2" ++ NPC ++ u ".00");
          with_markers 2 (u "A1.00")]
    /\ ~ lex_increasing (numbers_of leftover_items (sheets d)).
Proof.
  eexists _, _, _, _. split; [vm_compute; reflexivity|].
  split.
  { vm_compute.
    repeat first [apply list_elem_of_here | apply list_elem_of_further]. }
  split; [vm_compute; reflexivity|].
  match goal with
  | |- ~ lex_increasing ?l =>
      let l' := eval vm_compute in l in change (~ lex_increasing l')
  end.
  intros Hs. inversion Hs as [|? ? _ Hall]. inversion Hall as [|? ? Hlt _].
  cbn in Hlt. intuition lia.
Qed.

Lemma sample_env_obliging : obliging sample_env.
Proof.
  split; [reflexivity|]. split; [intros m id number; reflexivity|].
  split; [intros v; reflexivity|reflexivity].
Defined.

Lemma sample_items_distinct : NoDup (revit_sheet <$> sample_items).
Proof.
  refine (bool_decide_unpack (NoDup (revit_sheet <$> sample_items)) _).
  vm_compute. exact I.
Defined.

Lemma sample_items_in_document : has_sheets sample_items (doc sample_host).
Proof.
  intros sheet Hin.
  repeat (apply elem_of_cons in Hin as [->|Hin]);
    [vm_compute; eauto ..|].
  apply elem_of_nil in Hin. destruct Hin.
Defined.

Lemma sample_items_in_clean_document :
  has_sheets sample_items (doc clean_host).
Proof.
  intros sheet Hin.
  repeat (apply elem_of_cons in Hin as [->|Hin]);
    [vm_compute; eauto ..|].
  apply elem_of_nil in Hin. destruct Hin.
Defined.

Lemma combined_print_marks_witness :
  exists h' sc d pm,
    _print_combined_sheets_in_order sample_env (sample_window true false)
      sample_items clean_host = (h', Ok tt)
    /\ mkEvent sc (SubmitPrint None d pm)
         ∈ drop (length (trace clean_host)) (trace h')
    /\ lex_increasing (numbers_of sample_items (sheets d)).
Proof.
  pose proof (combined_print_marks_sheet_numbers sample_env
                (sample_window true false) sample_items clean_host
                sample_items_distinct) as [Hm Hlive].
  destruct (Hlive sample_env_obliging sample_items_in_clean_document)
    as (h' & sc & d & pm & Hrun & Hin).
  exists h', sc, d, pm. split; [exact Hrun|]. split; [exact Hin|].
  apply (proj2 (Hm h' (Ok tt) sc None d pm Hrun Hin)).
  intros item s Hitem Hs.
  repeat (apply elem_of_cons in Hitem as [->|Hitem]);
    [..|apply elem_of_nil in Hitem; destruct Hitem];
    vm_compute in Hs; injection Hs as <-; vm_compute; reflexivity.
Defined.

(** C2: when the combined routine returns without raising, every sheet
    of the document, the target sheets among them, has the number it had
    before the call; on an obliging host whose document holds the target
    sheets the routine does return. *)
Theorem combined_print_restores_sheet_numbers env self targets h :
  NoDup (revit_sheet <$> targets) ->
  (forall h',
     _print_combined_sheets_in_order env self targets h = (h', Ok tt) ->
     sheets (doc h') = sheets (doc h))
  /\ (obliging env -> has_sheets targets (doc h) ->
      exists h',
        _print_combined_sheets_in_order env self targets h = (h', Ok tt)).
Proof.
  intros Hnd. split.
  - intros h' Hrun.
    destruct (combined_run env self targets Hnd _ _ _ Hrun) as (_ & Hd & _).
    exact (Hd eq_refl).
  - apply combined_returns.
Qed.

Lemma combined_print_restores_witness :
  sheets (doc (fst (_print_combined_sheets_in_order sample_env
                      (sample_window true false) sample_items sample_host)))
  = sheets sample_doc.
Proof.
  apply (proj1 (combined_print_restores_sheet_numbers sample_env
                  (sample_window true false) sample_items sample_host
                  sample_items_distinct)).
  vm_compute. reflexivity.
Defined.

(** ** Printing sheet by sheet *)

Section Single.
Variable env : Environment.
Variable self : PrintSheetsWindow.
Variable targets : list ViewSheetListItem.

Lemma single_job_other sc c :
  is_submit c = false ->
  single_job env (selected_naming_format self) targets (mkEvent sc c).
Proof. intros Hc sheet d pm Heq. simpl in Heq. subst c. discriminate Hc. Qed.

Lemma single_job_submit sc item formatted d pm :
  item ∈ targets -> printable item = true ->
  format (template (selected_naming_format self)) []
    [(u "index", print_index item);
     (u "number", item_number item);
     (u "name",
      replace (u " ") (space (selected_naming_format self))
        (item_name item))] = Ok formatted ->
  PrintToFileName pm
  = op_join env (USER_DESKTOP env) (cleanup_filename env formatted) ->
  single_job env (selected_naming_format self) targets
    (mkEvent sc (SubmitPrint (Some (revit_sheet item)) d pm)).
Proof.
  intros Hin Hp Hf Hn sheet d' pm' [= <- <- <-].
  exists item, formatted. repeat split; assumption.
Qed.

(** The body of the loop of [_print_sheets_in_order]. *)
Lemma individual_body S (per_sheet : bool) item :
  item ∈ targets ->
  emits S (single_job env (selected_naming_format self) targets)
    (if printable item then
       fname <- lift (output_fname env (selected_naming_format self) item) ;;
       set_PrintToFileName (op_join env (USER_DESKTOP env) fname) ;;
       (if per_sheet
        then set_CurrentPrintSetting (item_print_settings item)
        else ret tt) ;;
       SubmitPrint_ (Some (revit_sheet item))
     else log DEBUG "Sheet is not printable. Skipping print.").
Proof.
  intros Hin h h' r _ Hrun.
  destruct (printable item) eqn:Hp.
  - unfold output_fname in Hrun.
    destruct (format _ _ _) as [formatted|e] eqn:Hf.
    + destruct per_sheet; injection Hrun as <- _;
        (split; [reflexivity|]); eexists;
        (split; [cbn; rewrite <- ?app_assoc; reflexivity|]);
        repeat (apply Forall_cons; split);
        try apply Forall_nil;
        try (apply single_job_other; reflexivity); try exact I;
        (eapply single_job_submit; [exact Hin|exact Hp|exact Hf|reflexivity]).
    + injection Hrun as <- _. apply extends_refl.
  - injection Hrun as <- _. apply extends_silent; reflexivity.
Qed.

(** The body of the loop of [_print_linked_sheets_in_order]. *)
Lemma linked_body S item :
  item ∈ targets ->
  emits S (single_job env (selected_naming_format self) targets)
    (if printable item then
       fname <- lift (output_fname env (selected_naming_format self) item) ;;
       set_PrintToFileName (op_join env (USER_DESKTOP env) fname) ;;
       SubmitPrint_ (Some (revit_sheet item))
     else log DEBUG "Linked sheet is not printable. Skipping print.").
Proof.
  intros Hin h h' r _ Hrun.
  destruct (printable item) eqn:Hp.
  - unfold output_fname in Hrun.
    destruct (format _ _ _) as [formatted|e] eqn:Hf.
    + injection Hrun as <- _;
        (split; [reflexivity|]); eexists;
        (split; [cbn; rewrite <- ?app_assoc; reflexivity|]);
        repeat (apply Forall_cons; split);
        try apply Forall_nil;
        try (apply single_job_other; reflexivity); try exact I;
        (eapply single_job_submit; [exact Hin|exact Hp|exact Hf|reflexivity]).
    + injection Hrun as <- _. apply extends_refl.
  - injection Hrun as <- _. apply extends_silent; reflexivity.
Qed.

Ltac side_other := intros; apply single_job_other; reflexivity.

Lemma individual_jobs :
  emits any_scopes (single_job env (selected_naming_format self) targets)
    (_print_sheets_in_order env self targets).
Proof.
  unfold _print_sheets_in_order.
  repeat first
    [ apply emits_for_each; intros item Hitem;
      apply individual_body; exact Hitem
    | emits_step side_other ].
Qed.

Lemma linked_jobs :
  emits any_scopes (single_job env (selected_naming_format self) targets)
    (_print_linked_sheets_in_order env self targets).
Proof.
  unfold _print_linked_sheets_in_order.
  repeat first
    [ apply emits_for_each; intros item Hitem;
      apply linked_body; exact Hitem
    | emits_step side_other ].
Qed.

(** [str.format] fills the templates of the dialog as the
    specification reads them. *)
Lemma format_naming_template fmt index number name :
  fmt ∈ _setup_naming_formats ->
  format (template fmt) []
    [(u "index", index); (u "number", number); (u "name", name)]
  = Ok (substitute (template fmt) index number name).
Proof.
  unfold _setup_naming_formats. intros Hin.
  repeat (apply elem_of_cons in Hin as [->|Hin]; [reflexivity|]).
  apply elem_of_nil in Hin. destruct Hin.
Qed.

(** A loop whose body returns and submits the sheet of a printable
    entry returns, with a job for every printable entry. *)
Lemma delivers_loop (body : ViewSheetListItem -> M Host unit) items :
  (forall item,
     delivers (fun evs => printable item = true -> has_submit item evs)
       (body item)) ->
  delivers (all_submitted items) (for_each items body).
Proof.
  intros Hbody. induction items as [|x items IH]; intros h.
  - exists h, tt, []. split; [reflexivity|]. split.
    + symmetry. apply app_nil_r.
    + intros item Hin. apply elem_of_nil in Hin. destruct Hin.
  - destruct (Hbody x h) as (h1 & [] & evs1 & Hrun1 & Ht1 & Hs1).
    destruct (IH h1) as (h2 & [] & evs2 & Hrun2 & Ht2 & Hs2).
    exists h2, tt, (evs1 ++ evs2). cbn [for_each].
    rewrite (bind_run _ _ _ _ _ Hrun1). split; [exact Hrun2|]. split.
    + rewrite Ht2, Ht1. symmetry. apply app_assoc.
    + intros item Hin Hp. apply elem_of_cons in Hin as [->|Hin].
      * destruct (Hs1 Hp) as (sc & d & pm & He). exists sc, d, pm.
        apply elem_of_app. left. exact He.
      * destruct (Hs2 item Hin Hp) as (sc & d & pm & He). exists sc, d, pm.
        apply elem_of_app. right. exact He.
Qed.

Lemma delivers_bind_last {A B} (P : list event -> Prop)
    (c : M Host A) (k : A -> M Host B) :
  (forall e1 e2, P e2 -> P (e1 ++ e2)) ->
  delivers (fun _ => True) c -> (forall a, delivers P (k a)) ->
  delivers P (bind c k).
Proof.
  intros Hmono Hc Hk h.
  destruct (Hc h) as (h1 & a & evs1 & Hrun1 & Ht1 & _).
  destruct (Hk a h1) as (h2 & b & evs2 & Hrun2 & Ht2 & Hp).
  exists h2, b, (evs1 ++ evs2). rewrite (bind_run _ _ _ _ _ Hrun1).
  split; [exact Hrun2|]. split.
  - rewrite Ht2, Ht1. symmetry. apply app_assoc.
  - apply Hmono, Hp.
Qed.

Lemma delivers_with_scope {A} (P : list event -> Prop) s (body : M Host A) :
  delivers P body -> delivers P (with_scope s body).
Proof.
  intros Hb h.
  destruct (Hb (with_scopes (cons s) h)) as (h1 & a & evs & Hrun & Ht & Hp).
  exists (leave_scope s h h1), a, evs.
  split; [apply with_scope_run, Hrun|]. split; [|exact Hp].
  change (trace h) with (trace (with_scopes (cons s) h)). rewrite <- Ht.
  unfold leave_scope. destruct (is_dry s); reflexivity.
Qed.

Lemma all_submitted_app items e1 e2 :
  all_submitted items e2 -> all_submitted items (e1 ++ e2).
Proof.
  intros H item Hin Hp. destruct (H item Hin Hp) as (sc & d & pm & He).
  exists sc, d, pm. apply elem_of_app. right. exact He.
Qed.

Ltac delivers_prim :=
  let h := fresh "h" in
  intros h; do 3 eexists;
  split; [reflexivity|];
  split;
  [ first [ reflexivity
          | symmetry; apply app_nil_r
          | cbn; rewrite <- ?app_assoc; reflexivity ]
  | try exact I ].

Lemma delivers_set_PrintToFile b : delivers (fun _ => True) (set_PrintToFile b).
Proof. delivers_prim. Qed.

Lemma delivers_set_CurrentPrintSetting ps :
  delivers (fun _ => True) (set_CurrentPrintSetting ps).
Proof. delivers_prim. Qed.

Lemma delivers_SelectNewPrintDriver printer :
  delivers (fun _ => True) (SelectNewPrintDriver_ printer).
Proof. delivers_prim. Qed.

Lemma delivers_set_PrintRange r : delivers (fun _ => True) (set_PrintRange r).
Proof. delivers_prim. Qed.

Lemma delivers_ret {A} (a : A) : delivers (fun _ => True) (ret a : M Host A).
Proof. delivers_prim. Qed.

Lemma delivers_ret_bind {A B} (P : list event -> Prop) (a : A)
    (k : A -> M Host B) :
  delivers P (k a) -> delivers P (bind (ret a) k).
Proof. intros H h. exact (H h). Qed.

Hypothesis fmt_offered : selected_naming_format self ∈ _setup_naming_formats.

Lemma output_fname_Ok item :
  output_fname env (selected_naming_format self) item
  = Ok (cleanup_filename env
          (substitute (template (selected_naming_format self))
             (print_index item) (item_number item)
             (replace (u " ") (space (selected_naming_format self))
                (item_name item)))).
Proof.
  unfold output_fname.
  rewrite (format_naming_template _ _ _ _ fmt_offered). reflexivity.
Qed.

Ltac submit_found :=
  intros _; do 3 eexists;
  repeat first [apply list_elem_of_here | apply list_elem_of_further].

Lemma individual_body_run (per_sheet : bool) item :
  delivers (fun evs => printable item = true -> has_submit item evs)
    (if printable item then
       fname <- lift (output_fname env (selected_naming_format self) item) ;;
       set_PrintToFileName (op_join env (USER_DESKTOP env) fname) ;;
       (if per_sheet
        then set_CurrentPrintSetting (item_print_settings item)
        else ret tt) ;;
       SubmitPrint_ (Some (revit_sheet item))
     else log DEBUG "Sheet is not printable. Skipping print.").
Proof.
  destruct (printable item) eqn:Hp.
  - rewrite output_fname_Ok. destruct per_sheet; delivers_prim; submit_found.
  - delivers_prim. intros Hf. discriminate Hf.
Qed.


Hypothesis has_pm : has_PrintManager env = true.

Ltac delivers_walk body_run :=
  repeat first
    [ apply delivers_loop; let item := fresh "item" in intros item; body_run item
    | apply delivers_with_scope
    | apply delivers_bind_last;
      [ apply all_submitted_app
      | first [ apply delivers_set_PrintToFile
              | apply delivers_set_CurrentPrintSetting
              | apply delivers_SelectNewPrintDriver
              | apply delivers_set_PrintRange
              | apply delivers_ret ]
      | intros _ ]
    | progress cbv zeta ].

Lemma individual_returns :
  delivers (all_submitted targets) (_print_sheets_in_order env self targets).
Proof.
  unfold _print_sheets_in_order, _get_printmanager. rewrite has_pm.
  apply delivers_ret_bind. cbn [negb].
  destruct (allows_variable_paper (selected_print_setting self));
    cbn [negb];
    delivers_walk ltac:(fun item =>
      first [ exact (individual_body_run true item)
            | exact (individual_body_run false item) ]).
Qed.


End Single.

(** ** What the print routines submit *)

Lemma emits_new_events {A} (Q : event -> Prop) (c : M Host A) h h' r e :
  emits any_scopes Q c -> c h = (h', r) ->
  e ∈ drop (length (trace h)) (trace h') -> Q e.
Proof.
  intros Hc Hrun Hin.
  destruct (Hc h h' r I Hrun) as [_ (evs & Ht & Hq)].
  rewrite Ht, drop_app_length in Hin.
  rewrite Forall_forall in Hq. exact (Hq _ Hin).
Qed.

Lemma delivers_new_events {A} (P : list event -> Prop) (c : M Host A) h :
  delivers P c ->
  exists h' a, c h = (h', Ok a) /\ P (drop (length (trace h)) (trace h')).
Proof.
  intros Hc. destruct (Hc h) as (h' & a & evs & Hrun & Ht & Hp).
  exists h', a. split; [exact Hrun|].
  rewrite Ht, drop_app_length. exact Hp.
Qed.




Lemma sample_format_offered :
  selected_naming_format (sample_window false false) ∈ _setup_naming_formats.
Proof. do 4 apply list_elem_of_further. apply list_elem_of_here. Defined.


Lemma replace_char_text (c : N) (new s : ustring) :
  replace [c] new s = flat_map (fun x => if N.eqb x c then new else [x]) s.
Proof.
  unfold replace.
  induction s as [|x s IH]; [reflexivity|].
  cbn [replace_from startswith length flat_map].
  rewrite (N.eqb_sym x c).
  destruct (N.eqb c x); cbn [andb]; simpl; f_equal; exact IH.
Qed.

Lemma replace_spaces (space name : ustring) :
  replace (u " ") space name = spaces_as space name.
Proof. apply replace_char_text. Qed.

(** ** File names *)

(** C4: the dialog offers ten naming formats; [str.format] fills the
    template of each of them as the specification reads it, index,
    number and name put in the place of their tokens; and every job of
    sheet-by-sheet printing is for a printable entry and prints to the
    file on the desktop whose name is the sanitized filling of the
    selected template with the print index, the sheet number and the
    sheet name, every space of the name replaced by the space character
    of the format ([spaces_as], which says so without [str.replace]).
    With a print manager the routine returns and has submitted every
    printable entry. *)
Theorem filenames_follow_naming_format env self targets h :
  length _setup_naming_formats = 10
  /\ (forall fmt index number name, fmt ∈ _setup_naming_formats ->
      format (template fmt) []
        [(u "index", index); (u "number", number); (u "name", name)]
      = Ok (substitute (template fmt) index number name))
  /\ (selected_naming_format self ∈ _setup_naming_formats ->
      (forall h' r sc sheet d pm,
         _print_sheets_in_order env self targets h = (h', r) ->
         mkEvent sc (SubmitPrint sheet d pm)
           ∈ drop (length (trace h)) (trace h') ->
         exists item,
           item ∈ targets /\ printable item = true
           /\ sheet = Some (revit_sheet item)
           /\ PrintToFileName pm
              = op_join env (USER_DESKTOP env)
                  (cleanup_filename env
                     (substitute (template (selected_naming_format self))
                        (print_index item) (item_number item)
                        (spaces_as
                           (space (selected_naming_format self))
                           (item_name item)))))
      /\ (has_PrintManager env = true ->
          exists h',
            _print_sheets_in_order env self targets h = (h', Ok tt)
            /\ all_submitted targets (drop (length (trace h)) (trace h')))).
Proof.
  split; [reflexivity|]. split.
  - intros fmt index number name Hfmt.
    apply format_naming_template, Hfmt.
  - intros Hfmt. split.
    + intros h' r sc sheet d pm Hrun Hin.
      pose proof (emits_new_events _ _ _ _ _ _
                    (individual_jobs env self targets) Hrun Hin) as Hjob.
      destruct (Hjob sheet d pm eq_refl)
        as (item & formatted & Hitem & Hp & Hsheet & Hformat & Hname).
      exists item. repeat (split; [assumption|]).
      rewrite (format_naming_template _ _ _ _ Hfmt) in Hformat.
      injection Hformat as <-. rewrite <- replace_spaces. exact Hname.
    + intros Hpm.
      destruct (delivers_new_events _ _ h
                  (individual_returns env self targets Hfmt Hpm))
        as (h' & [] & Hrun & Hsub).
      exists h'. split; assumption.
Qed.

Lemma filenames_witness :
  exists h',
    _print_sheets_in_order sample_env (sample_window false false)
      sample_items sample_host = (h', Ok tt)
    /\ all_submitted sample_items
         (drop (length (trace sample_host)) (trace h')).
Proof.
  exact (proj2 (proj2 (proj2 (filenames_follow_naming_format sample_env
                  (sample_window false false) sample_items sample_host))
                  sample_format_offered) eq_refl).
Defined.

(** The first job of the sample run prints sheet 1 to the file named
    after the fifth format of the dialog. *)
Lemma sample_first_job :
  exists sc d pm,
    mkEvent sc (SubmitPrint (Some 1%N) d pm)
      ∈ trace (fst (_print_sheets_in_order sample_env
                      (sample_window false false) sample_items sample_host))
    /\ PrintToFileName pm
       = u "Desktop" ++ [BACKSLASH] ++ u "0000_A1.00_1ST_FLOOR_PLAN.pdf".
Proof.
  vm_compute. do 3 eexists. split.
  - do 5 apply list_elem_of_further. apply list_elem_of_here.
  - reflexivity.
Qed.

(** ** Ordering by the schedule *)

Section OrderingFacts.
Context {Sheet : Type}.
Variable SheetNumber : Sheet -> ustring.
Variable sched_data : list ustring.

(** The sheet number goes into the pattern as it is. *)
Lemma match_pattern_Ok sheet :
  match_pattern SheetNumber sheet
  = Ok (u "(^|.*\t)" ++ SheetNumber sheet ++ u "(\t.*|$)").
Proof. reflexivity. Qed.

Lemma find_line_Some sheet lines n k :
  find_line SheetNumber sheet n lines = Ok (Some k) ->
  n <= k
  /\ (exists line pattern,
        lines !! (k - n) = Some line
        /\ match_pattern SheetNumber sheet = Ok pattern
        /\ re_match pattern line = Ok true)
  /\ (forall j line, j < k - n -> lines !! j = Some line ->
        exists pattern,
          match_pattern SheetNumber sheet = Ok pattern
          /\ re_match pattern line = Ok false).
Proof.
  revert n. induction lines as [|data_line rest IH]; intros n Hf.
  - discriminate Hf.
  - cbn [find_line] in Hf.
    destruct (match_pattern SheetNumber sheet) as [pattern|e] eqn:Hp;
      [|discriminate Hf].
    cbn [rbind] in Hf.
    destruct (re_match pattern data_line) as [[|]|e] eqn:Hm;
      cbn [rbind] in Hf; [| |discriminate Hf].
    + injection Hf as <-. split; [lia|]. rewrite Nat.sub_diag. split.
      * exists data_line, pattern. repeat split; [exact Hm].
      * intros j line Hj. lia.
    + destruct (IH _ Hf) as (Hle & (line & p & Hl & Hp' & Hm') & Hbefore).
      split; [lia|].
      replace (k - n) with (S (k - S n)) by lia. split.
      * exists line, p. repeat split; assumption.
      * intros j line' Hj Hl'. destruct j as [|j].
        -- injection Hl' as <-. exists pattern. split; [reflexivity|exact Hm].
        -- apply (Hbefore j line'); [lia|exact Hl'].
Qed.

Lemma find_line_first sheet k :
  find_line SheetNumber sheet 0 sched_data = Ok (Some k) ->
  matches_line SheetNumber sched_data sheet k
  /\ no_match_before SheetNumber sched_data sheet k.
Proof.
  intros Hf. destruct (find_line_Some _ _ _ _ Hf) as (_ & Hm & Hb).
  rewrite Nat.sub_0_r in Hm, Hb. split; [exact Hm|exact Hb].
Qed.

Lemma find_line_None sheet lines n :
  find_line SheetNumber sheet n lines = Ok None ->
  forall line, line ∈ lines ->
    exists pattern,
      match_pattern SheetNumber sheet = Ok pattern
      /\ re_match pattern line = Ok false.
Proof.
  revert n. induction lines as [|data_line rest IH]; intros n Hf line Hin.
  - apply elem_of_nil in Hin. destruct Hin.
  - cbn [find_line] in Hf.
    destruct (match_pattern SheetNumber sheet) as [pattern|e] eqn:Hp;
      [|discriminate Hf].
    cbn [rbind] in Hf.
    destruct (re_match pattern data_line) as [[|]|e] eqn:Hm;
      cbn [rbind] in Hf; [discriminate Hf| |discriminate Hf].
    apply elem_of_cons in Hin as [->|Hin].
    + exists pattern. split; [reflexivity|exact Hm].
    + exact (IH _ Hf line Hin).
Qed.

(** When every pattern compiles the inner loop comes to an end. *)
Lemma find_line_total sheet lines n :
  (forall line, line ∈ lines -> exists pattern b,
     match_pattern SheetNumber sheet = Ok pattern
     /\ re_match pattern line = Ok b) ->
  exists found, find_line SheetNumber sheet n lines = Ok found.
Proof.
  revert n. induction lines as [|data_line rest IH]; intros n Hc.
  - exists None. reflexivity.
  - destruct (Hc data_line (list_elem_of_here _ _)) as (p & b & Hp & Hm).
    cbn [find_line]. rewrite Hp. cbn [rbind]. rewrite Hm. cbn [rbind].
    destruct b.
    + eexists. reflexivity.
    + apply IH. intros line Hin. apply Hc, list_elem_of_further, Hin.
Qed.

Lemma fill_dict_ok all sheet_list d d' :
  fill_dict SheetNumber sched_data sheet_list d = Ok d' ->
  (forall sheet, sheet ∈ sheet_list -> sheet ∈ all) ->
  dict_ok SheetNumber sched_data all d ->
  dict_ok SheetNumber sched_data all d'.
Proof.
  revert d. induction sheet_list as [|sheet rest IH]; intros d Hf Hall Hd.
  - injection Hf as <-. exact Hd.
  - cbn [fill_dict] in Hf.
    destruct (find_line SheetNumber sheet 0 sched_data) as [found|e] eqn:Hfl;
      [|discriminate Hf].
    cbn [rbind] in Hf. apply (IH _ Hf).
    + intros s Hs. apply Hall, list_elem_of_further, Hs.
    + destruct found as [line_no|]; [|exact Hd].
      intros k s Hk. destruct (decide (line_no = k)) as [->|Hne].
      * rewrite lookup_insert_eq in Hk. injection Hk as <-.
        split; [apply Hall, list_elem_of_here|exact Hfl].
      * rewrite lookup_insert_ne in Hk by exact Hne. exact (Hd k s Hk).
Qed.

Lemma fill_dict_total sheet_list d :
  patterns_compile SheetNumber sched_data sheet_list ->
  exists d', fill_dict SheetNumber sched_data sheet_list d = Ok d'.
Proof.
  revert d. induction sheet_list as [|sheet rest IH]; intros d Hc.
  - exists d. reflexivity.
  - destruct (find_line_total sheet sched_data 0) as [found Hf].
    { intros line Hin. apply (Hc sheet line); [apply list_elem_of_here|].
      exact Hin. }
    cbn [fill_dict]. rewrite Hf. cbn [rbind]. apply IH.
    intros s line Hs Hl. apply Hc; [apply list_elem_of_further, Hs|exact Hl].
Qed.

Lemma values_at_Forall2 (d : gmap nat Sheet) keys out :
  values_at d keys = Ok out ->
  Forall2 (fun k sheet => d !! k = Some sheet) keys out.
Proof.
  revert out. induction keys as [|x rest IH]; intros out Hv.
  - injection Hv as <-. constructor.
  - cbn [values_at] in Hv. destruct (d !! x) as [sheet|] eqn:Hx;
      [|discriminate Hv].
    destruct (values_at d rest) as [out'|e]; [|discriminate Hv].
    injection Hv as <-. constructor; [exact Hx|]. apply IH. reflexivity.
Qed.

Lemma values_at_total (d : gmap nat Sheet) keys :
  (forall k, k ∈ keys -> is_Some (d !! k)) ->
  exists out, values_at d keys = Ok out.
Proof.
  induction keys as [|x rest IH]; intros Hk.
  - exists []. reflexivity.
  - destruct (Hk x (list_elem_of_here _ _)) as [sheet Hx].
    destruct IH as [out Hout].
    { intros k Hin. apply Hk, list_elem_of_further, Hin. }
    exists (sheet :: out). cbn [values_at]. rewrite Hx, Hout. reflexivity.
Qed.

Lemma elem_of_sorted_keys (d : gmap nat Sheet) k :
  k ∈ sorted_keys d <-> is_Some (d !! k).
Proof.
  unfold sorted_keys. rewrite merge_sort_Permutation.
  rewrite list_elem_of_fmap. split.
  - intros ([k' sheet] & -> & Hin). apply elem_of_map_to_list in Hin.
    exists sheet. exact Hin.
  - intros [sheet Hk]. exists (k, sheet). split; [reflexivity|].
    apply elem_of_map_to_list. exact Hk.
Qed.

Lemma NoDup_sorted_keys (d : gmap nat Sheet) : NoDup (sorted_keys d).
Proof.
  unfold sorted_keys. rewrite merge_sort_Permutation.
  apply NoDup_fst_map_to_list.
Qed.

(** The sorted keys go up. *)
Lemma sorted_keys_ascending (d : gmap nat Sheet) :
  StronglySorted le (sorted_keys d).
Proof.
  unfold sorted_keys. apply StronglySorted_merge_sort.
  - intros x y z. apply Nat.le_trans.
  - intros x y. apply Nat.le_ge_cases.
Qed.

Lemma Forall2_values_elem (d : gmap nat Sheet) keys out sheet :
  Forall2 (fun k s => d !! k = Some s) keys out -> sheet ∈ out ->
  exists k, k ∈ keys /\ d !! k = Some sheet.
Proof.
  induction 1 as [|k s keys out Hk _ IH]; intros Hin.
  - apply elem_of_nil in Hin. destruct Hin.
  - apply elem_of_cons in Hin as [->|Hin].
    + exists k. split; [apply list_elem_of_here|exact Hk].
    + destruct (IH Hin) as (k' & Hk' & Hd). exists k'.
      split; [apply list_elem_of_further, Hk'|exact Hd].
Qed.

Lemma Forall2_values_NoDup (d : gmap nat Sheet) keys out :
  (forall k1 k2 s, d !! k1 = Some s -> d !! k2 = Some s -> k1 = k2) ->
  Forall2 (fun k s => d !! k = Some s) keys out ->
  NoDup keys -> NoDup out.
Proof.
  intros Hinj. induction 1 as [|k s keys out Hk Hrest IH]; intros Hnd.
  - constructor.
  - apply NoDup_cons in Hnd as [Hnotin Hnd]. apply NoDup_cons. split.
    + intros Hin.
      destruct (Forall2_values_elem d keys out s Hrest Hin)
        as (k' & Hk' & Hd).
      rewrite (Hinj k k' s Hk Hd) in Hnotin. exact (Hnotin Hk').
    + exact (IH Hnd).
Qed.

(** The ordering with a schedule text at hand: the output lists the
    entries of a dictionary that satisfies [dict_ok], by ascending
    key. *)
Lemma order_sheets_run sheet_list out :
  sched_data <> [] ->
  order_sheets SheetNumber sched_data sheet_list = Ok out ->
  exists d,
    dict_ok SheetNumber sched_data sheet_list d
    /\ Forall2 (fun k sheet => d !! k = Some sheet) (sorted_keys d) out.
Proof.
  intros Hne Hrun. unfold order_sheets in Hrun.
  destruct sched_data as [|line rest] eqn:Hs; [congruence|].
  cbn [is_nil] in Hrun. rewrite <- Hs in *.
  destruct (fill_dict SheetNumber sched_data sheet_list ∅) as [d|e] eqn:Hf;
    [|discriminate Hrun].
  cbn [rbind] in Hrun. exists d. split.
  - apply (fill_dict_ok sheet_list sheet_list ∅ d Hf).
    + intros sheet Hin. exact Hin.
    + intros k sheet Hk. rewrite lookup_empty in Hk. discriminate Hk.
  - apply values_at_Forall2, Hrun.
Qed.

(** The output goes by ascending number of the first line each sheet
    matches, matching being that of the regular expression. *)
Lemma order_sheets_ascending sheet_list out :
  sched_data <> [] ->
  order_sheets SheetNumber sched_data sheet_list = Ok out ->
  exists keys,
    StronglySorted le keys /\ NoDup keys
    /\ Forall2 (fun k sheet =>
                 find_line SheetNumber sheet 0 sched_data = Ok (Some k))
         keys out.
Proof.
  intros Hne Hrun.
  destruct (order_sheets_run sheet_list out Hne Hrun) as (d & Hd & Hvals).
  exists (sorted_keys d). split; [apply sorted_keys_ascending|].
  split; [apply NoDup_sorted_keys|].
  eapply Forall2_impl; [exact Hvals|].
  intros k sheet Hk. exact (proj2 (Hd k sheet Hk)).
Qed.

Lemma order_sheets_total sheet_list :
  patterns_compile SheetNumber sched_data sheet_list ->
  exists out, order_sheets SheetNumber sched_data sheet_list = Ok out.
Proof.
  intros Hc. unfold order_sheets. destruct (is_nil sched_data).
  - eexists. reflexivity.
  - destruct (fill_dict_total sheet_list ∅ Hc) as [d Hd].
    rewrite Hd. cbn [rbind]. apply values_at_total.
    intros k Hk. apply elem_of_sorted_keys, Hk.
Qed.

Lemma order_sheets_no_data (sheet_list : list Sheet) :
  order_sheets SheetNumber [] sheet_list = Ok sheet_list.
Proof. reflexivity. Qed.

End OrderingFacts.

(** The output of the ordering in the matching of the code, the
    regular expression built from the sheet number: with a schedule
    text that is not empty, every sheet of the output is a sheet of the
    input whose expression matches a line of the text, no sheet is
    there twice, a sheet whose expression matches no line is not there,
    and the output is no longer than the input; the ordering returns
    whenever the patterns compile.  On the sample index the output is
    strictly shorter than the input. *)
Theorem ordered_sheets_match_once :
  (forall (Sheet : Type) (SheetNumber : Sheet -> ustring)
          (sched_data : list ustring) (sheet_list : list Sheet),
     sched_data <> [] ->
     (forall out,
        order_sheets SheetNumber sched_data sheet_list = Ok out ->
        (forall sheet, sheet ∈ out ->
           sheet ∈ sheet_list
           /\ exists k, matches_line SheetNumber sched_data sheet k)
        /\ NoDup out
        /\ (forall sheet,
              matches_no_line SheetNumber sched_data sheet -> sheet ∉ out)
        /\ length out <= length sheet_list)
     /\ (patterns_compile SheetNumber sched_data sheet_list ->
         exists out, order_sheets SheetNumber sched_data sheet_list = Ok out))
  /\ (exists sched_data sheet_list out,
        sched_data <> []
        /\ order_sheets SheetNumber sched_data sheet_list = Ok out
        /\ length out < length sheet_list).
Proof.
  split.
  - intros Sheet SheetNumber sched_data sheet_list Hne. split.
    + intros out Hrun.
      destruct (order_sheets_run SheetNumber sched_data sheet_list out
                  Hne Hrun) as (d & Hd & Hvals).
      assert (Hmatch : forall sheet, sheet ∈ out ->
                sheet ∈ sheet_list
                /\ exists k, matches_line SheetNumber sched_data sheet k).
      { intros sheet Hin.
        destruct (Forall2_values_elem d _ _ sheet Hvals Hin)
          as (k & _ & Hk).
        destruct (Hd k sheet Hk) as [Hl Hf]. split; [exact Hl|].
        exists k. apply (find_line_first SheetNumber sched_data), Hf. }
      assert (Hnd : NoDup out).
      { apply (Forall2_values_NoDup d (sorted_keys d) out).
        - intros k1 k2 sheet H1 H2.
          destruct (Hd k1 sheet H1) as [_ Hf1].
          destruct (Hd k2 sheet H2) as [_ Hf2]. congruence.
        - exact Hvals.
        - apply NoDup_sorted_keys. }
      split; [exact Hmatch|]. split; [exact Hnd|]. split.
      * intros sheet Hno Hin.
        destruct (Hmatch sheet Hin) as [_ (k & line & p & Hk & Hp & Hm)].
        destruct (Hno line) as (p' & Hp' & Hm').
        { apply list_elem_of_lookup. exists k. exact Hk. }
        congruence.
      * apply submseteq_length, NoDup_submseteq; [exact Hnd|].
        intros sheet Hin. apply Hmatch, Hin.
    + apply order_sheets_total.
  - exists sample_schedule, sample_sheets.
    eexists. split; [discriminate|]. split; [vm_compute; reflexivity|].
    cbn. lia.
Qed.

Lemma ordered_sheets_witness :
  NoDup [mkViewSheet (u "A102") (u "SECOND FLOOR") true;
         mkViewSheet (u "A101") (u "FIRST FLOOR") true].
Proof.
  refine (proj1 (proj2 (proj1
    (proj1 ordered_sheets_match_once ViewSheet SheetNumber
       sample_schedule sample_sheets _) _ _))).
  - discriminate.
  - vm_compute. reflexivity.
Defined.

(** C5: when opening or reading the exported file raises an exception
    (a subclass of [Exception], what the handler catches), the error is
    logged, the reading returns the empty list, and the ordering returns
    the list of sheets it was given; nothing is raised. *)
Theorem open_failure_is_logged_and_order_kept
    {Sheet : Type} (SheetNumber : Sheet -> ustring)
    (e : exn) (sheet_list : list Sheet) (logs : list log_record) :
  is_Exception e = true ->
  _get_schedule_text_data (OpenRaises e) logs
  = (logs ++ [LogRecord ERROR "Error opening sheet index export"], Ok [])
  /\ _order_sheets_by_schedule_data SheetNumber (OpenRaises e) sheet_list logs
     = (logs ++ [LogRecord ERROR "Error opening sheet index export"],
        Ok sheet_list).
Proof.
  intros He.
  unfold _order_sheets_by_schedule_data, _get_schedule_text_data,
    try_except, bind, Export, open_readlines, raise, ret, lift,
    logger_error, modify.
  rewrite He. split; reflexivity.
Qed.

Lemma open_failure_witness :
  _order_sheets_by_schedule_data SheetNumber
    (OpenRaises (HostException "IOError")) sample_sheets []
  = ([LogRecord ERROR "Error opening sheet index export"], Ok sample_sheets).
Proof.
  exact (proj2 (open_failure_is_logged_and_order_kept SheetNumber
                  (HostException "IOError") sample_sheets [] eq_refl)).
Defined.

(** What the handler does not catch goes on to the caller. *)
Lemma open_failure_not_caught {Sheet : Type} (SheetNumber : Sheet -> ustring)
    (sheet_list : list Sheet) (logs : list log_record) :
  _order_sheets_by_schedule_data SheetNumber (OpenRaises SystemExit)
    sheet_list logs
  = (logs, Raise SystemExit).
Proof. reflexivity. Qed.

(** C7: a sheet whose number is in no line of the schedule text is
    kept all the same when its number, read as a regular expression,
    matches a line: the only line of the text has the fields [A111] and
    [PLAN], none of them the number [A1.1], and the ordering returns
    the sheet [A1.1], filed under that line, because the dot stands for
    any code unit. *)
Theorem ordering_keeps_sheet_of_no_line :
  order_sheets SheetNumber lone_schedule
    [mkViewSheet (u "A1.1") (u "SECTION") true]
  = Ok [mkViewSheet (u "A1.1") (u "SECTION") true]
  /\ find_line SheetNumber (mkViewSheet (u "A1.1") (u "SECTION") true)
       0 lone_schedule = Ok (Some 0)
  /\ (fields <$> lone_schedule) = [[u "A111"; u "PLAN"]]
  /\ first_field_line (u "A1.1") 0 lone_schedule = None.
Proof. vm_compute. repeat split; reflexivity. Qed.

(** C3: the sheet number goes into the regular expression as it is, so
    the dot of [A1.1] stands for any code unit: the sheet [A1.1] is
    filed under the line of [A111], where it takes the place of the
    sheet [A111], although the first line with the field [A1.1] is the
    next one.  The ordering returns [A1.1] alone, where arranging the
    two sheets by the lines that hold their numbers gives both, [A111]
    first. *)
Theorem ordering_reads_sheet_number_as_pattern :
  order_sheets SheetNumber dotted_schedule dotted_sheets
  = Ok [mkViewSheet (u "A1.1") (u "SECTION") true]
  /\ find_line SheetNumber (mkViewSheet (u "A1.1") (u "SECTION") true)
       0 dotted_schedule = Ok (Some 0)
  /\ first_field_line (u "A1.1") 0 dotted_schedule = Some 1
  /\ find_line SheetNumber (mkViewSheet (u "A111") (u "PLAN") true)
       0 dotted_schedule = Ok (Some 0)
  /\ first_field_line (u "A111") 0 dotted_schedule = Some 0.
Proof. vm_compute. repeat split; reflexivity. Qed.

(** With no schedule text the ordering returns its input. *)
Lemma ordering_without_data_keeps_input {Sheet : Type}
    (SheetNumber : Sheet -> ustring) (sheet_list : list Sheet) :
  order_sheets SheetNumber [] sheet_list = Ok sheet_list.
Proof. reflexivity. Qed.

(** ** Integers as text *)

Lemma digits_value_app a s t :
  digits_value a (s ++ t)
  = match digits_value a s with Some b => digits_value b t | None => None end.
Proof.
  revert a. induction s as [|c s IH]; intros a; [reflexivity|].
  cbn [app digits_value]. destruct (is_digit c); [apply IH|reflexivity].
Qed.

Lemma is_digit_spec c : is_digit c = true <-> (48 <= c <= 57)%N.
Proof. unfold is_digit. rewrite andb_true_iff, !N.leb_le. tauto. Qed.

Lemma digit_of_mod n : is_digit (DIGIT0 + n mod 10)%N = true.
Proof.
  apply is_digit_spec. unfold DIGIT0.
  pose proof (N.mod_upper_bound n 10 ltac:(discriminate)) as H.
  generalize dependent (n mod 10)%N. intros r H. lia.
Qed.

(** digits_go produces the digits of n *)
Lemma digits_go_spec fuel : forall n acc,
  (n < 10 ^ N.of_nat fuel)%N -> fuel <> 0 ->
  exists ds,
    digits_go fuel n acc = ds ++ acc
    /\ Forall (fun c => is_digit c = true) ds
    /\ (forall a,
         digits_value a ds = Some (a * 10 ^ N.of_nat (length ds) + n)%N)
    /\ (n < 10 ^ N.of_nat (length ds))%N
    /\ 1 <= length ds
    /\ (1 < length ds -> (10 ^ N.of_nat (length ds - 1) <= n)%N).
Proof.
  induction fuel as [|fuel IH]; intros n acc Hn Hf; [congruence|].
  cbn [digits_go].
  pose proof (N.div_mod n 10 ltac:(discriminate)) as Hdm.
  pose proof (N.mod_upper_bound n 10 ltac:(discriminate)) as Hmod.
  pose proof (digit_of_mod n) as Hdigit.
  set (q := (n / 10)%N) in *. set (r := (n mod 10)%N) in *.
  clearbody q r.
  destruct (n <? 10)%N eqn:Hlt.
  - apply N.ltb_lt in Hlt. assert (q = 0%N) as -> by lia.
    exists [(DIGIT0 + r)%N].
    split; [reflexivity|]. split; [repeat constructor; exact Hdigit|].
    split; [|split; [|split; [|intros H; cbn in H; lia]]].
    + intros a. cbn [digits_value length]. rewrite Hdigit.
      f_equal. unfold DIGIT0. change (10 ^ N.of_nat 1)%N with 10%N. lia.
    + cbn. exact Hlt.
    + cbn. lia.
  - apply N.ltb_ge in Hlt.
    assert (Hpow : (10 ^ N.of_nat (S fuel) = 10 * 10 ^ N.of_nat fuel)%N)
      by (rewrite Nat2N.inj_succ, N.pow_succ_r'; reflexivity).
    assert (Hdiv : (q < 10 ^ N.of_nat fuel)%N) by lia.
    assert (Hfuel : fuel <> 0).
    { intros ->. cbn in Hdiv. lia. }
    destruct (IH q ((DIGIT0 + r)%N :: acc) Hdiv Hfuel)
      as (ds & Hgo & Hdig & Hval & Hub & Hlen & Hlb).
    exists (ds ++ [(DIGIT0 + r)%N]).
    split; [rewrite Hgo, <- app_assoc; reflexivity|].
    split; [apply Forall_app; split;
            [exact Hdig|repeat constructor; exact Hdigit]|].
    rewrite length_app. cbn [length].
    replace (length ds + 1) with (S (length ds)) by lia.
    rewrite Nat2N.inj_succ, N.pow_succ_r'.
    split; [|split; [|split; [lia|]]].
    + intros a. rewrite digits_value_app, Hval. cbn [digits_value].
      rewrite Hdigit. f_equal. unfold DIGIT0. lia.
    + lia.
    + intros _. replace (S (length ds) - 1) with (length ds) by lia.
      destruct (decide (length ds = 1)) as [H1|H1].
      * rewrite H1. change (10 ^ N.of_nat 1)%N with 10%N. lia.
      * specialize (Hlb ltac:(lia)).
        replace (length ds) with (S (length ds - 1)) at 1 by lia.
        rewrite Nat2N.inj_succ, N.pow_succ_r'. lia.
Qed.

Lemma str_of_N_spec n :
  Forall (fun c => is_digit c = true) (str_of_N n)
  /\ (forall a,
       digits_value a (str_of_N n)
       = Some (a * 10 ^ N.of_nat (length (str_of_N n)) + n)%N)
  /\ (n < 10 ^ N.of_nat (length (str_of_N n)))%N
  /\ 1 <= length (str_of_N n)
  /\ (1 < length (str_of_N n) ->
      (10 ^ N.of_nat (length (str_of_N n) - 1) <= n)%N).
Proof.
  unfold str_of_N.
  destruct (digits_go_spec (S (N.to_nat (N.log2 n))) n []) as (ds & Hgo & H).
  - rewrite Nat2N.inj_succ, N2Nat.id.
    apply N.lt_le_trans with (2 ^ N.succ (N.log2 n))%N.
    + destruct n as [|p]; [reflexivity|]. apply N.log2_spec. reflexivity.
    + apply N.pow_le_mono_l. lia.
  - discriminate.
  - rewrite Hgo, app_nil_r. exact H.
Qed.

Lemma str_of_N_length_le n w :
  (n < 10 ^ N.of_nat w)%N -> 1 <= w -> length (str_of_N n) <= w.
Proof.
  intros Hn Hw. destruct (str_of_N_spec n) as (_ & _ & _ & Hlen & Hlb).
  destruct (decide (1 < length (str_of_N n))) as [H1|H1]; [|lia].
  specialize (Hlb H1).
  assert (Hlt : (10 ^ N.of_nat (length (str_of_N n) - 1) < 10 ^ N.of_nat w)%N)
    by lia.
  apply N.pow_lt_mono_r_iff in Hlt; lia.
Qed.

Lemma length_pad_left fill w s :
  length (pad_left fill w s) = Nat.max w (length s).
Proof. unfold pad_left. rewrite length_app, length_replicate. lia. Qed.

Lemma digits_value_zeros k a s :
  digits_value a (replicate k DIGIT0 ++ s)
  = digits_value (a * 10 ^ N.of_nat k)%N s.
Proof.
  revert a. induction k as [|k IH]; intros a.
  - cbn. f_equal. lia.
  - cbn [replicate app digits_value]. change (is_digit DIGIT0) with true.
    cbn match. rewrite IH. f_equal.
    rewrite Nat2N.inj_succ, N.pow_succ_r'. unfold DIGIT0. lia.
Qed.

Lemma format_int_spec_run auto args rest ds : forall spec_rev,
  Forall (fun c => is_digit c = true) ds ->
  format_int_go (ISpec spec_rev) auto args (ds ++ RBRACE :: rest)
  = match args !! auto with
    | Some v =>
        rbind (format_spec_int (rev spec_rev ++ ds) v) (fun field =>
        rbind (format_int_go IText (S auto) args rest)
          (fun out => Ok (field ++ out)))
    | None => Raise IndexError
    end.
Proof.
  induction ds as [|c ds IH]; intros spec_rev Hd.
  - cbn [app format_int_go]. rewrite N.eqb_refl, app_nil_r. reflexivity.
  - apply Forall_cons in Hd as [Hc Hd]. apply is_digit_spec in Hc.
    cbn [app format_int_go].
    replace (c =? RBRACE)%N with false
      by (symmetry; apply N.eqb_neq; unfold RBRACE; lia).
    replace (c =? LBRACE)%N with false
      by (symmetry; apply N.eqb_neq; unfold LBRACE; lia).
    rewrite (IH _ Hd). cbn [rev]. rewrite <- app_assoc. reflexivity.
Qed.

Lemma str_of_int_nonneg v :
  (0 <= v)%Z -> str_of_int v = str_of_N (Z.to_N v).
Proof. destruct v; [reflexivity|reflexivity|lia]. Qed.

(** The text of a print index is the value padded with zeros. *)
Lemma index_text_Ok digits start_idx idx :
  (0 <= digits)%Z ->
  index_text digits start_idx idx
  = Ok (zero_pad (Z.to_nat digits) (Z.of_nat idx + start_idx)).
Proof.
  intros Hd. unfold index_text.
  change (format INDEX_FORMAT [] [(u "digits", str_of_int digits)])
    with (Ok (u "{:0" ++ str_of_int digits ++ u "}")).
  cbn [rbind]. rewrite (str_of_int_nonneg _ Hd).
  destruct (str_of_N_spec (Z.to_N digits)) as (Hdig & Hval & _).
  unfold format_int.
  change (format_int_go IText 0 [(Z.of_nat idx + start_idx)%Z]
            (u "{:0" ++ str_of_N (Z.to_N digits) ++ u "}"))
    with (format_int_go (ISpec [DIGIT0]) 0 [(Z.of_nat idx + start_idx)%Z]
            (str_of_N (Z.to_N digits) ++ RBRACE :: [])).
  rewrite (format_int_spec_run _ _ _ _ _ Hdig).
  cbn [lookup list_lookup rev app format_spec_int].
  change (DIGIT0 =? DIGIT0)%N with true. cbn match.
  rewrite Hval. cbn [rbind format_int_go].
  rewrite N.mul_0_l, N.add_0_l, app_nil_r, Z_N_nat. reflexivity.
Qed.

Lemma digits_value_bounds s : forall a x,
  digits_value a s = Some x ->
  (a * 10 ^ N.of_nat (length s) <= x < (a + 1) * 10 ^ N.of_nat (length s))%N.
Proof.
  induction s as [|c s IH]; intros a x Hv.
  - injection Hv as <-. cbn. lia.
  - cbn [digits_value] in Hv. destruct (is_digit c) eqn:Hc; [|discriminate].
    apply is_digit_spec in Hc. apply IH in Hv.
    cbn [length]. rewrite Nat2N.inj_succ, N.pow_succ_r'.
    unfold DIGIT0 in Hv.
    set (p := (10 ^ N.of_nat (length s))%N) in *. clearbody p. nia.
Qed.

Lemma digits_value_lex s : forall t a x y,
  length s = length t ->
  digits_value a s = Some x -> digits_value a t = Some y ->
  (x < y)%N -> lex_lt s t.
Proof.
  induction s as [|c s IH]; intros [|d t] a x y Hlen Hs Ht Hxy;
    try discriminate Hlen.
  - cbn in Hs, Ht. congruence || (injection Hs as <-; injection Ht as <-; lia).
  - cbn [digits_value] in Hs, Ht.
    destruct (is_digit c) eqn:Hc; [|discriminate].
    destruct (is_digit d) eqn:Hd; [|discriminate].
    apply is_digit_spec in Hc. apply is_digit_spec in Hd.
    injection Hlen as Hlen. cbn [lex_lt].
    destruct (N.lt_trichotomy c d) as [Hlt|[->|Hgt]].
    + left. exact Hlt.
    + right. split; [reflexivity|]. exact (IH t _ x y Hlen Hs Ht Hxy).
    + exfalso. apply digits_value_bounds in Hs. apply digits_value_bounds in Ht.
      rewrite <- Hlen in Ht. unfold DIGIT0 in *.
      set (p := (10 ^ N.of_nat (length s))%N) in *. clearbody p. nia.
Qed.

Lemma is_space_range c : is_space c = true -> (c <= 32 \/ 133 <= c)%N.
Proof.
  unfold is_space.
  rewrite !orb_true_iff, !andb_true_iff, !N.leb_le, !N.eqb_eq. lia.
Qed.

Lemma lstrip_no_space c s : is_space c = false -> lstrip (c :: s) = c :: s.
Proof. intros Hc. cbn [lstrip]. rewrite Hc. reflexivity. Qed.

(** A text without white space is left as it is. *)
Lemma strip_no_space s :
  Forall (fun c => is_space c = false) s -> strip s = s.
Proof.
  intros Hs. unfold strip.
  assert (Hl : forall t, Forall (fun c => is_space c = false) t ->
                 lstrip t = t).
  { intros [|c t] Ht; [reflexivity|].
    apply lstrip_no_space. apply Forall_cons in Ht as [Hc _]. exact Hc. }
  rewrite (Hl s Hs), Hl, rev_involutive; [reflexivity|].
  apply Forall_rev. exact Hs.
Qed.

Lemma digit_no_space c : is_digit c = true -> is_space c = false.
Proof.
  intros Hc. apply is_digit_spec in Hc.
  destruct (is_space c) eqn:Hs; [|reflexivity].
  apply is_space_range in Hs. lia.
Qed.

Lemma digits_plain s :
  Forall (fun c => is_digit c = true) s ->
  Forall (fun c => is_space c = false) s
  /\ existsb (fun c => (127 <? c)%N) s = false.
Proof.
  induction 1 as [|c s Hc _ [IH1 IH2]]; [split; [constructor|reflexivity]|].
  split; [constructor; [apply digit_no_space, Hc|exact IH1]|].
  cbn [existsb]. rewrite IH2. apply is_digit_spec in Hc.
  replace (127 <? c)%N with false; [reflexivity|].
  symmetry. apply N.ltb_ge. lia.
Qed.

Lemma pad_left_digits w s :
  Forall (fun c => is_digit c = true) s ->
  Forall (fun c => is_digit c = true) (pad_left DIGIT0 w s).
Proof.
  intros Hs. unfold pad_left. apply Forall_app. split; [|exact Hs].
  apply Forall_replicate. reflexivity.
Qed.

Lemma pad_left_value w n :
  digits_value 0 (pad_left DIGIT0 w (str_of_N n)) = Some n.
Proof.
  unfold pad_left. rewrite digits_value_zeros.
  destruct (str_of_N_spec n) as (_ & Hval & _). rewrite Hval.
  f_equal; lia.
Qed.

Lemma pad_left_nonempty w n : pad_left DIGIT0 w (str_of_N n) <> [].
Proof.
  intros H. apply (f_equal length) in H. rewrite length_pad_left in H.
  destruct (str_of_N_spec n) as (_ & _ & _ & Hlen & _).
  cbn [length] in H. lia.
Qed.

Lemma int_of_text_digits s n :
  Forall (fun c => is_digit c = true) s -> s <> [] ->
  digits_value 0 s = Some n ->
  int_of_text s = Ok (Z.of_N n)
  /\ int_of_text (MINUS :: s) = Ok (- Z.of_N n)%Z.
Proof.
  intros Hd Hne Hv. destruct (digits_plain s Hd) as [Hsp Hhi].
  unfold int_of_text. split.
  - rewrite (strip_no_space _ Hsp).
    destruct s as [|c s]; [congruence|].
    apply Forall_cons in Hd as [Hc Hd]. apply is_digit_spec in Hc.
    replace (c =? MINUS)%N with false
      by (symmetry; apply N.eqb_neq; unfold MINUS; lia).
    replace (c =? PLUS)%N with false
      by (symmetry; apply N.eqb_neq; unfold PLUS; lia).
    cbn [snd fst]. rewrite Hhi, Hv. reflexivity.
  - rewrite strip_no_space by (constructor; [reflexivity|exact Hsp]).
    change (MINUS =? MINUS)%N with true. cbn [snd fst].
    rewrite Hhi, Hv. destruct s; [congruence|reflexivity].
Qed.

(** [int] reads a number padded with zeros back. *)
Lemma int_of_text_zero_pad w v : int_of_text (zero_pad w v) = Ok v.
Proof.
  assert (H : forall k n,
            int_of_text (pad_left DIGIT0 k (str_of_N n)) = Ok (Z.of_N n)
            /\ int_of_text (MINUS :: pad_left DIGIT0 k (str_of_N n))
               = Ok (- Z.of_N n)%Z).
  { intros k n. apply int_of_text_digits.
    - apply pad_left_digits, str_of_N_spec.
    - apply pad_left_nonempty.
    - apply pad_left_value. }
  destruct v as [|p|p]; cbn [zero_pad].
  - apply (H w 0%N).
  - apply (H w (N.pos p)).
  - apply (H (w - 1) (N.pos p)).
Qed.

Lemma length_zero_pad w v :
  length (zero_pad w v) = Nat.max w (length (str_of_int v)).
Proof.
  destruct v as [|p|p]; cbn [zero_pad str_of_int length];
    rewrite length_pad_left; lia.
Qed.

(** A number that fits into [w] digits is padded to just [w] code
    units, all of them digits. *)
Lemma zero_pad_fits w v :
  (0 <= v < 10 ^ Z.of_nat w)%Z -> 1 <= w ->
  length (zero_pad w v) = w
  /\ Forall (fun c => is_digit c = true) (zero_pad w v)
  /\ digits_value 0 (zero_pad w v) = Some (Z.to_N v).
Proof.
  intros Hv Hw.
  assert (Hz : zero_pad w v = pad_left DIGIT0 w (str_of_N (Z.to_N v)))
    by (destruct v; [reflexivity|reflexivity|lia]).
  rewrite Hz. split; [|split].
  - rewrite length_pad_left.
    pose proof (str_of_N_length_le (Z.to_N v) w) as Hle.
    assert (Z.to_N v < 10 ^ N.of_nat w)%N; [|lia].
    apply N2Z.inj_lt. rewrite N2Z.inj_pow, Z2N.id, nat_N_Z by lia.
    change (Z.of_N 10) with 10%Z. lia.
  - apply pad_left_digits, str_of_N_spec.
  - apply pad_left_value.
Qed.

(** X1: the text of a print index is the number of the entry, the
    start index added, padded with zeros to the width of the slider and
    never cut: [int] reads the number back, and the text is as long as
    the longer of the width and the plain number. *)
Theorem print_index_reads_back digits start_idx idx :
  (0 <= digits)%Z ->
  exists text,
    index_text digits start_idx idx = Ok text
    /\ int_of_text text = Ok (Z.of_nat idx + start_idx)%Z
    /\ length text
       = Nat.max (Z.to_nat digits)
           (length (str_of_int (Z.of_nat idx + start_idx))).
Proof.
  intros Hd. eexists. split; [apply index_text_Ok, Hd|].
  split; [apply int_of_text_zero_pad|apply length_zero_pad].
Qed.

Lemma print_index_reads_back_witness :
  exists text,
    index_text 2 98 7 = Ok text
    /\ int_of_text text = Ok 105%Z
    /\ length text = 3.
Proof.
  destruct (print_index_reads_back 2 98 7 ltac:(lia)) as (text & H1 & H2 & H3).
  exists text. split; [exact H1|]. split; [exact H2|exact H3].
Defined.

(** X2: as long as the numbers fit into the width, the print indices
    all have the width of the slider and follow each other, in the order
    of the list, like words in a dictionary: a later entry has the
    greater index text. *)
Theorem print_indices_sort_in_list_order digits start_idx i j :
  (1 <= digits)%Z -> (0 <= start_idx)%Z -> i < j ->
  (Z.of_nat j + start_idx < 10 ^ digits)%Z ->
  exists ti tj,
    index_text digits start_idx i = Ok ti
    /\ index_text digits start_idx j = Ok tj
    /\ length ti = Z.to_nat digits /\ length tj = Z.to_nat digits
    /\ lex_lt ti tj.
Proof.
  intros Hd Hs Hij Hfit.
  assert (Hw : 1 <= Z.to_nat digits) by lia.
  assert (Hp : (10 ^ Z.of_nat (Z.to_nat digits) = 10 ^ digits)%Z)
    by (rewrite Z2Nat.id by lia; reflexivity).
  destruct (zero_pad_fits (Z.to_nat digits) (Z.of_nat i + start_idx))
    as (Hli & _ & Hvi); [lia|exact Hw|].
  destruct (zero_pad_fits (Z.to_nat digits) (Z.of_nat j + start_idx))
    as (Hlj & _ & Hvj); [lia|exact Hw|].
  exists (zero_pad (Z.to_nat digits) (Z.of_nat i + start_idx)),
         (zero_pad (Z.to_nat digits) (Z.of_nat j + start_idx)).
  split; [apply index_text_Ok; lia|]. split; [apply index_text_Ok; lia|].
  split; [exact Hli|]. split; [exact Hlj|].
  apply (digits_value_lex _ _ 0%N _ _ (eq_trans Hli (eq_sym Hlj)) Hvi Hvj).
  lia.
Qed.

Lemma print_indices_sort_witness :
  exists ti tj,
    index_text 2 8 1 = Ok ti /\ index_text 2 8 2 = Ok tj
    /\ length ti = 2 /\ length tj = 2 /\ lex_lt ti tj.
Proof.
  apply (print_indices_sort_in_list_order 2 8 1 2); [lia|lia|lia|].
  vm_compute. reflexivity.
Defined.

(** ** The options of the dialog *)

Lemma index_start_run d : index_start d = (d, start_of d).
Proof.
  unfold index_start, start_of, bind, gets.
  destruct (is_nil (indexstart_tb_Text d)); reflexivity.
Qed.

Lemma update_indices_from_run refs : forall idx start_idx d,
  (0 <= Value (index_slider d))%Z ->
  update_indices_from idx start_idx refs d
  = (with_entries
       (write_indices (Z.to_nat (Value (index_slider d))) idx start_idx refs)
       d, Ok tt).
Proof.
  induction refs as [|ref rest IH]; intros idx start_idx d Hv.
  - destruct d; reflexivity.
  - cbn [update_indices_from write_indices].
    unfold index_digits at 1.
    rewrite (bind_run _ _ d d (Value (index_slider d)) eq_refl).
    rewrite (index_text_Ok _ start_idx idx Hv).
    rewrite (bind_run _ _ d d _ eq_refl).
    erewrite bind_run by reflexivity.
    rewrite IH by exact Hv. reflexivity.
Qed.

Lemma length_write_indices w refs : forall idx start_idx entries,
  length (write_indices w idx start_idx refs entries) = length entries.
Proof.
  induction refs as [|ref rest IH]; intros idx start_idx entries;
    [reflexivity|].
  cbn [write_indices]. rewrite IH. apply length_alter.
Qed.

(** An entry no reference of the list points to is left alone. *)
Lemma write_indices_other w refs : forall idx start_idx entries ref,
  ref ∉ refs ->
  write_indices w idx start_idx refs entries !! ref = entries !! ref.
Proof.
  induction refs as [|r rest IH]; intros idx start_idx entries ref Hnot;
    [reflexivity|].
  cbn [write_indices]. apply not_elem_of_cons in Hnot as [Hne Hnot].
  rewrite IH by exact Hnot. apply list_lookup_alter_ne. congruence.
Qed.

(** The entry behind the [k]-th reference gets the [k]-th index. *)
Lemma write_indices_at w refs : forall idx start_idx entries k ref,
  NoDup refs -> refs !! k = Some ref ->
  write_indices w idx start_idx refs entries !! ref
  = set_print_index (zero_pad w (Z.of_nat (idx + k) + start_idx))
    <$> entries !! ref.
Proof.
  induction refs as [|r rest IH]; intros idx start_idx entries k ref Hnd Hk;
    [discriminate Hk|].
  apply NoDup_cons in Hnd as [Hr Hnd]. cbn [write_indices].
  destruct k as [|k].
  - injection Hk as ->. rewrite write_indices_other by exact Hr.
    rewrite list_lookup_alter_eq, Nat.add_0_r. reflexivity.
  - cbn in Hk. rewrite (IH _ _ _ k ref Hnd Hk).
    rewrite list_lookup_alter_ne.
    + replace (S idx + k) with (idx + S k) by lia. reflexivity.
    + intros ->. apply Hr. apply list_elem_of_lookup. eauto.
Qed.

(** Writing indices changes nothing but the index of an entry. *)
Lemma write_indices_same w refs : forall idx start_idx entries ref,
  exists f,
    write_indices w idx start_idx refs entries !! ref
    = f <$> entries !! ref
    /\ forall sheet,
         printable (f sheet) = printable sheet
         /\ revit_sheet (f sheet) = revit_sheet sheet
         /\ item_name (f sheet) = item_name sheet
         /\ item_number (f sheet) = item_number sheet
         /\ item_print_settings (f sheet) = item_print_settings sheet.
Proof.
  induction refs as [|r rest IH]; intros idx start_idx entries ref.
  - exists id. split; [symmetry; apply option_fmap_id|].
    intros sheet. repeat split.
  - cbn [write_indices].
    destruct (IH (S idx) start_idx
                (alter (set_print_index
                          (zero_pad w (Z.of_nat idx + start_idx))) r entries)
                ref) as (f & Hf & Hsame).
    destruct (decide (r = ref)) as [->|Hne].
    + exists (f ∘ set_print_index (zero_pad w (Z.of_nat idx + start_idx))).
      split.
      * rewrite Hf, list_lookup_alter_eq. rewrite option_fmap_compose.
        reflexivity.
      * intros sheet. destruct (Hsame (set_print_index
            (zero_pad w (Z.of_nat idx + start_idx)) sheet))
          as (H1 & H2 & H3 & H4 & H5).
        unfold compose. rewrite H1, H2, H3, H4, H5. repeat split.
    + exists f. split; [|exact Hsame].
      rewrite Hf, list_lookup_alter_ne by exact Hne. reflexivity.
Qed.

Section OptionsFacts.
Variable tk : Toolkit.

Lemma update_index_slider_run d start_idx :
  start_of d = Ok start_idx ->
  _update_index_slider tk d = (after_slider tk start_idx d, Ok tt).
Proof.
  intros Hs. unfold _update_index_slider.
  erewrite bind_run by reflexivity.
  erewrite bind_run by (rewrite index_start_run, Hs; reflexivity).
  destruct d; reflexivity.
Qed.

Lemma update_index_slider_raise d e :
  start_of d = Raise e -> _update_index_slider tk d = (d, Raise e).
Proof.
  intros Hs. unfold _update_index_slider.
  erewrite bind_run by reflexivity.
  erewrite bind_raise by (rewrite index_start_run, Hs; reflexivity).
  reflexivity.
Qed.

Lemma update_print_indices_run refs d start_idx :
  start_of d = Ok start_idx -> (0 <= Value (index_slider d))%Z ->
  _update_print_indices refs d
  = (with_entries
       (write_indices (Z.to_nat (Value (index_slider d))) 0 start_idx refs)
       d, Ok tt).
Proof.
  intros Hs Hv. unfold _update_print_indices.
  erewrite bind_run by (rewrite index_start_run, Hs; reflexivity).
  apply update_indices_from_run, Hv.
Qed.

Lemma ref_printable_write w idx start_idx refs d ref :
  ref_printable (with_entries (write_indices w idx start_idx refs) d) ref
  = ref_printable d ref.
Proof.
  unfold ref_printable, entry.
  change (_scheduled_sheets (with_entries ?f d)) with (f (_scheduled_sheets d)).
  destruct (write_indices_same w refs idx start_idx (_scheduled_sheets d) ref)
    as (f & -> & Hsame).
  destruct (_scheduled_sheets d !! ref) as [sheet|]; [|reflexivity].
  cbn. apply Hsame.
Qed.

Lemma options_changed_run d start_idx :
  start_of d = Ok start_idx ->
  (0 <= Value (index_slider (after_slider tk start_idx d)))%Z ->
  options_changed tk d = (options_result tk start_idx d, Ok tt).
Proof.
  intros Hs Hv. unfold options_changed, options_result.
  erewrite bind_run by (apply update_index_slider_run, Hs).
  set (d1 := after_slider tk start_idx d) in *.
  erewrite bind_run by reflexivity.
  erewrite bind_run by reflexivity.
  erewrite bind_run by reflexivity.
  erewrite bind_run by reflexivity.
  erewrite bind_run by reflexivity.
  change (placeholder_cb_IsChecked (with_naming_shown _ d1))
    with (placeholder_cb_IsChecked d).
  change (combine_cb_IsChecked d1) with (combine_cb_IsChecked d).
  change (reverse_cb_IsChecked d1) with (reverse_cb_IsChecked d).
  change (length (_scheduled_sheets d1)) with (length (_scheduled_sheets d)).
  fold (shown_order d).
  set (d2 := with_naming_shown (negb (combine_cb_IsChecked d)) d1).
  destruct (placeholder_cb_IsChecked d); cbn [negb].
  - erewrite bind_run by reflexivity.
    erewrite bind_run
      by (apply (update_print_indices_run _ _ start_idx); [exact Hs|exact Hv]).
    reflexivity.
  - erewrite bind_run by reflexivity.
    erewrite bind_run by reflexivity.
    erewrite bind_run
      by (apply (update_print_indices_run _ _ start_idx); [exact Hs|exact Hv]).
    erewrite bind_run by reflexivity.
    erewrite bind_run by reflexivity.
    change (indexspace_cb_IsChecked (with_entries _ (with_indexspace ?c _ _)))
      with c.
    change (indexspace_cb_IsChecked d2) with (indexspace_cb_IsChecked d).
    assert (Hfilter :
      filter (fun ref =>
        ref_printable
          (with_entries
             (write_indices
                (Z.to_nat (Value (index_slider
                   (with_indexspace (indexspace_cb_IsChecked d) true d2))))
                0 start_idx (shown_order d))
             (with_indexspace (indexspace_cb_IsChecked d) true d2)) ref
        = true) (shown_order d)
      = filter (fun ref => ref_printable d ref = true) (shown_order d)).
    { apply list_filter_iff. intros ref. rewrite ref_printable_write.
      reflexivity. }
    rewrite Hfilter.
    destruct (indexspace_cb_IsChecked d); cbn [negb].
    + erewrite bind_run by reflexivity. reflexivity.
    + erewrite bind_run
        by (apply (update_print_indices_run _ _ start_idx);
            [exact Hs|exact Hv]).
      reflexivity.
Qed.

Lemma options_changed_raise d e :
  start_of d = Raise e -> options_changed tk d = (d, Raise e).
Proof.
  intros Hs. unfold options_changed.
  erewrite bind_raise by (apply update_index_slider_raise, Hs).
  reflexivity.
Qed.

End OptionsFacts.

Lemma Forall_sublist_of {A} (P : A -> Prop) (k l : list A) :
  sublist k l -> Forall P l -> Forall P k.
Proof.
  induction 1 as [|x k l _ IH|x k l _ IH]; intros Hl.
  - constructor.
  - apply Forall_cons in Hl as [Hx Hl]. constructor; [exact Hx|exact (IH Hl)].
  - apply Forall_cons in Hl as [_ Hl]. exact (IH Hl).
Qed.

Lemma StronglySorted_sublist_of {A} (R : relation A) (k l : list A) :
  sublist k l -> StronglySorted R l -> StronglySorted R k.
Proof.
  induction 1 as [|x k l Hs IH|x k l _ IH]; intros Hl.
  - constructor.
  - apply StronglySorted_inv in Hl as [Hl Hx]. constructor; [exact (IH Hl)|].
    exact (Forall_sublist_of _ _ _ Hs Hx).
  - apply StronglySorted_inv in Hl as [Hl _]. exact (IH Hl).
Qed.

Lemma omap_sublist {A B} (f : A -> option B) (k l : list A) :
  sublist k l -> sublist (omap f k) (omap f l).
Proof.
  induction 1 as [|x k l _ IH|x k l _ IH]; simpl.
  - constructor.
  - destruct (f x); [constructor|]; exact IH.
  - destruct (f x); [constructor|]; exact IH.
Qed.

(** After the loop the entries behind the references carry the indices
    from [idx] on, one after the other. *)
Lemma texts_after_write w start_idx refs : forall idx entries,
  NoDup refs -> (forall ref, ref ∈ refs -> ref < length entries) ->
  print_indices
    (omap (fun ref => write_indices w idx start_idx refs entries !! ref) refs)
  = (fun k => zero_pad w (Z.of_nat k + start_idx)) <$> seq idx (length refs).
Proof.
  induction refs as [|r rest IH]; intros idx entries Hnd Hin; [reflexivity|].
  apply NoDup_cons in Hnd as [Hr Hnd].
  destruct (lookup_lt_is_Some_2 entries r (Hin r (list_elem_of_here _ _)))
    as [sheet Hsheet].
  cbn [length seq write_indices]. simpl omap.
  rewrite write_indices_other by exact Hr.
  rewrite list_lookup_alter_eq, Hsheet. simpl.
  f_equal. apply (IH (S idx)); [exact Hnd|].
  intros ref Href. rewrite length_alter. apply Hin, list_elem_of_further, Href.
Qed.

(** Numbers that fit into the width, padded: all as wide, and in the
    order of the dictionary. *)
Lemma padded_sorted w start_idx m : forall idx,
  (0 <= start_idx)%Z -> 1 <= w ->
  (Z.of_nat (idx + m) + start_idx <= 10 ^ Z.of_nat w)%Z ->
  StronglySorted lex_lt
    ((fun k => zero_pad w (Z.of_nat k + start_idx)) <$> seq idx m)
  /\ Forall (fun t => length t = w)
       ((fun k => zero_pad w (Z.of_nat k + start_idx)) <$> seq idx m).
Proof.
  induction m as [|m IH]; intros idx Hs Hw Hfit.
  - split; constructor.
  - destruct (IH (S idx) Hs Hw ltac:(lia)) as [Hsorted Hlen].
    cbn [seq fmap list_fmap].
    destruct (zero_pad_fits w (Z.of_nat idx + start_idx)) as (Hl & _ & Hv);
      [lia|exact Hw|].
    split; [|constructor; [exact Hl|exact Hlen]].
    constructor; [exact Hsorted|].
    apply Forall_fmap, Forall_forall. intros k Hk. cbn.
    apply elem_of_seq in Hk.
    destruct (zero_pad_fits w (Z.of_nat k + start_idx)) as (Hl' & _ & Hv');
      [lia|exact Hw|].
    apply (digits_value_lex _ _ 0%N _ _ (eq_trans Hl (eq_sym Hl')) Hv Hv').
    lia.
Qed.

Lemma str_of_int_fits v :
  (0 <= v)%Z -> (v < 10 ^ Z.of_nat (length (str_of_int v)))%Z.
Proof.
  intros Hv. rewrite (str_of_int_nonneg v Hv).
  destruct (str_of_N_spec (Z.to_N v)) as (_ & _ & Hub & _).
  apply N2Z.inj_lt in Hub.
  rewrite N2Z.inj_pow, Z2N.id, nat_N_Z in Hub by lia. exact Hub.
Qed.

Section SliderFacts.
Variable tk : Toolkit.
Hypothesis tk_sane : sane_toolkit tk.

Lemma after_slider_sane start_idx d :
  let count := Z.of_nat (length (_scheduled_sheets d)) in
  let digits := Z.of_nat (length (str_of_int (count + start_idx)%Z)) in
  let s := index_slider (after_slider tk start_idx d) in
  Minimum s = Z.max digits 2
  /\ Maximum s = (Minimum s + 3)%Z
  /\ (Minimum s <= Value s <= Maximum s)%Z.
Proof.
  destruct tk_sane as [Hmin Hmax]. cbv zeta.
  unfold after_slider.
  change (index_slider (with_slider ?f d)) with (f (index_slider d)).
  cbv beta zeta.
  set (m := Z.max _ 2).
  set (s1 := assign_Minimum tk m (index_slider d)).
  assert (H1 : Minimum s1 = m) by apply Hmin.
  destruct (Hmax (Minimum s1 + 3)%Z s1 ltac:(lia)) as (Ha & Hb & Hc).
  rewrite Ha, Hb. split; [exact H1|]. split; [reflexivity|]. lia.
Qed.

Lemma after_slider_Value start_idx d :
  (2 <= Value (index_slider (after_slider tk start_idx d)))%Z.
Proof. destruct (after_slider_sane start_idx d) as (H1 & _ & H3). lia. Qed.

Lemma after_slider_fits start_idx d idx :
  (0 <= start_idx)%Z -> idx <= length (_scheduled_sheets d) ->
  (Z.of_nat idx + start_idx
   <= 10 ^ Value (index_slider (after_slider tk start_idx d)))%Z.
Proof.
  intros Hs Hidx. destruct (after_slider_sane start_idx d) as (H1 & _ & H3).
  set (count := Z.of_nat (length (_scheduled_sheets d))) in *.
  pose proof (str_of_int_fits (count + start_idx)%Z ltac:(lia)) as Hfit.
  set (digits := Z.of_nat (length (str_of_int (count + start_idx)%Z))) in *.
  assert (Hpow : (10 ^ digits
                  <= 10 ^ Value (index_slider (after_slider tk start_idx d)))%Z)
    by (apply Z.pow_le_mono_r; lia).
  lia.
Qed.

Lemma options_changed_Ok_inv d d' :
  options_changed tk d = (d', Ok tt) ->
  exists start_idx,
    start_of d = Ok start_idx /\ d' = options_result tk start_idx d.
Proof.
  intros Hrun. destruct (start_of d) as [start_idx|e] eqn:Hs.
  - exists start_idx. split; [reflexivity|].
    rewrite (options_changed_run tk d start_idx Hs) in Hrun.
    + congruence.
    + pose proof (after_slider_Value start_idx d). lia.
  - rewrite (options_changed_raise tk d e Hs) in Hrun. discriminate Hrun.
Qed.

End SliderFacts.

Lemma shown_order_NoDup d : NoDup (shown_order d).
Proof.
  unfold shown_order. cbv zeta. destruct (reverse_cb_IsChecked d).
  - apply NoDup_ListNoDup, List.NoDup_rev, NoDup_ListNoDup, NoDup_seq.
  - apply NoDup_seq.
Qed.

Lemma shown_order_in_range d ref :
  ref ∈ shown_order d -> ref < length (_scheduled_sheets d).
Proof.
  unfold shown_order. cbv zeta. destruct (reverse_cb_IsChecked d); intros Hin.
  - apply list_elem_of_In, in_rev, list_elem_of_In, elem_of_seq in Hin. lia.
  - apply elem_of_seq in Hin. lia.
Qed.

Lemma length_shown_order d :
  length (shown_order d) = length (_scheduled_sheets d).
Proof.
  unfold shown_order. cbv zeta. destruct (reverse_cb_IsChecked d).
  - rewrite length_rev. apply length_seq.
  - apply length_seq.
Qed.

Lemma without_index_same (f : ViewSheetListItem -> ViewSheetListItem) :
  (forall sheet,
     printable (f sheet) = printable sheet
     /\ revit_sheet (f sheet) = revit_sheet sheet
     /\ item_name (f sheet) = item_name sheet
     /\ item_number (f sheet) = item_number sheet
     /\ item_print_settings (f sheet) = item_print_settings sheet) ->
  forall sheet, set_print_index [] (f sheet) = set_print_index [] sheet.
Proof.
  intros Hsame sheet. destruct (Hsame sheet) as (H1 & H2 & H3 & H4 & H5).
  unfold set_print_index. rewrite H1, H2, H3, H4, H5. reflexivity.
Qed.

(** The entries read through the references are, but for their
    indices, those from before the loop. *)
Lemma omap_write_same w idx start_idx rs entries (refs : list nat) :
  set_print_index []
    <$> omap (fun ref => write_indices w idx start_idx rs entries !! ref) refs
  = set_print_index [] <$> omap (fun ref => entries !! ref) refs.
Proof.
  induction refs as [|ref refs IH]; [reflexivity|].
  destruct (write_indices_same w rs idx start_idx entries ref)
    as (f & Hf & Hsame).
  change (omap ?F (ref :: refs))
    with (match F ref with
          | Some y => y :: omap F refs
          | None => omap F refs
          end).
  cbv beta. rewrite Hf.
  destruct (entries !! ref) as [sheet|]; [|exact IH].
  change (f <$> Some sheet) with (Some (f sheet)). cbv iota.
  rewrite !fmap_cons, IH, (without_index_same f Hsame). reflexivity.
Qed.

Lemma omap_lookup_seq {A} (l : list A) : forall pre,
  omap (fun i => (pre ++ l) !! i) (seq (length pre) (length l)) = l.
Proof.
  induction l as [|x l IH]; intros pre; [reflexivity|].
  cbn [length seq]. simpl omap.
  rewrite list_lookup_middle by reflexivity. f_equal.
  specialize (IH (pre ++ [x])). rewrite length_app in IH. cbn [length] in IH.
  replace (length pre + 1) with (S (length pre)) in IH by lia.
  rewrite <- IH at 2. apply list_omap_ext, Forall_Forall2_diag, Forall_forall.
  intros i _. rewrite <- app_assoc. reflexivity.
Qed.

Lemma omap_rev {A B} (f : A -> option B) (l : list A) :
  omap f (rev l) = rev (omap f l).
Proof.
  induction l as [|x l IH]; [reflexivity|].
  cbn [rev]. rewrite omap_app, IH. simpl omap.
  destruct (f x); [reflexivity|]. cbn [rev]. apply app_nil_r.
Qed.

Lemma omap_entry_filter d (refs : list nat) :
  omap (entry d) (filter (fun ref => ref_printable d ref = true) refs)
  = filter (fun sheet => printable sheet = true) (omap (entry d) refs).
Proof.
  induction refs as [|ref refs IH]; [reflexivity|].
  assert (Hp : ref_printable d ref
               = match entry d ref with
                 | Some sheet => printable sheet
                 | None => false
                 end) by reflexivity.
  change (omap (entry d) (ref :: refs))
    with (match entry d ref with
          | Some y => y :: omap (entry d) refs
          | None => omap (entry d) refs
          end).
  destruct (entry d ref) as [sheet|] eqn:He.
  - destruct (printable sheet) eqn:Hs.
    + rewrite !filter_cons_True by congruence.
      change (omap (entry d) (ref :: ?l))
        with (match entry d ref with
              | Some y => y :: omap (entry d) l
              | None => omap (entry d) l
              end).
      rewrite He, IH. reflexivity.
    + rewrite !filter_cons_False by congruence. exact IH.
  - rewrite filter_cons_False by congruence. exact IH.
Qed.

(** Read through the references in the order of the dialog, the
    entries are the scheduled ones, reversed when asked. *)
Lemma omap_entry_order d :
  omap (entry d) (shown_order d)
  = if reverse_cb_IsChecked d then rev (_scheduled_sheets d)
    else _scheduled_sheets d.
Proof.
  unfold shown_order, entry. cbv zeta.
  pose proof (omap_lookup_seq (_scheduled_sheets d) []) as H.
  cbn [app length] in H.
  destruct (reverse_cb_IsChecked d); [rewrite omap_rev|]; rewrite H;
    reflexivity.
Qed.

Section ShownFacts.
Variable tk : Toolkit.
Hypothesis tk_sane : sane_toolkit tk.

(** The entries the list box shows after [options_changed]. *)
Lemma shown_entries_result d start_idx :
  let w := Z.to_nat (Value (index_slider (after_slider tk start_idx d))) in
  let order := shown_order d in
  let entries := _scheduled_sheets d in
  let printable_refs :=
    filter (fun ref => ref_printable d ref = true) order in
  shown_entries (options_result tk start_idx d)
  = if placeholder_cb_IsChecked d
    then omap (fun ref => write_indices w 0 start_idx order entries !! ref)
           order
    else if indexspace_cb_IsChecked d
    then omap (fun ref => write_indices w 0 start_idx order entries !! ref)
           printable_refs
    else omap (fun ref =>
                 write_indices w 0 start_idx printable_refs
                   (write_indices w 0 start_idx order entries) !! ref)
           printable_refs.
Proof.
  cbv zeta. unfold shown_entries, options_result. cbv zeta.
  destruct (placeholder_cb_IsChecked d); [reflexivity|].
  destruct (indexspace_cb_IsChecked d); reflexivity.
Qed.

Lemma result_slider d start_idx :
  index_slider (options_result tk start_idx d)
  = index_slider (after_slider tk start_idx d).
Proof.
  unfold options_result. cbv zeta.
  destruct (placeholder_cb_IsChecked d); [reflexivity|].
  destruct (indexspace_cb_IsChecked d); reflexivity.
Qed.

Lemma shown_indices_sorted_result d start_idx :
  (0 <= start_idx)%Z ->
  let d' := options_result tk start_idx d in
  Forall (fun t => length t = Z.to_nat (Value (index_slider d')))
    (print_indices (shown_entries d'))
  /\ lex_increasing (print_indices (shown_entries d')).
Proof.
  intros Hs. cbv zeta. rewrite result_slider, shown_entries_result. cbv zeta.
  set (w := Z.to_nat (Value (index_slider (after_slider tk start_idx d)))).
  assert (Hw : 1 <= w)
    by (pose proof (after_slider_Value tk tk_sane start_idx d); lia).
  assert (Hfit : forall m, m <= length (_scheduled_sheets d) ->
            (Z.of_nat (0 + m) + start_idx <= 10 ^ Z.of_nat w)%Z).
  { intros m Hm. unfold w. rewrite Z2Nat.id
      by (pose proof (after_slider_Value tk tk_sane start_idx d); lia).
    apply (after_slider_fits tk tk_sane); [exact Hs|exact Hm]. }
  pose proof (shown_order_NoDup d) as Hnd.
  pose proof (shown_order_in_range d) as Hrange.
  pose proof (length_shown_order d) as Hlen.
  set (order := shown_order d) in *.
  set (entries := _scheduled_sheets d) in *.
  set (printable_refs := filter (fun ref => ref_printable d ref = true) order).
  assert (Hall :
    Forall (fun t => length t = w)
      (print_indices
         (omap (fun ref => write_indices w 0 start_idx order entries !! ref)
            order))
    /\ StronglySorted lex_lt
         (print_indices
            (omap (fun ref =>
                     write_indices w 0 start_idx order entries !! ref)
               order))).
  { rewrite (texts_after_write w start_idx order 0 entries Hnd Hrange).
    destruct (padded_sorted w start_idx (length order) 0 Hs Hw) as [H1 H2];
      [apply Hfit; lia|].
    split; assumption. }
  unfold lex_increasing.
  destruct (placeholder_cb_IsChecked d); [exact Hall|].
  destruct (indexspace_cb_IsChecked d).
  - assert (Hsub :
      sublist
        (print_indices
           (omap (fun ref =>
                    write_indices w 0 start_idx order entries !! ref)
              printable_refs))
        (print_indices
           (omap (fun ref =>
                    write_indices w 0 start_idx order entries !! ref)
              order))).
    { apply fmap_sublist, omap_sublist, sublist_filter. }
    destruct Hall as [H1 H2]. split.
    + exact (Forall_sublist_of _ _ _ Hsub H1).
    + exact (StronglySorted_sublist_of _ _ _ Hsub H2).
  - rewrite (texts_after_write w start_idx printable_refs 0).
    + pose proof (length_filter (fun ref => ref_printable d ref = true) order).
      destruct (padded_sorted w start_idx (length printable_refs) 0 Hs Hw)
        as [H1 H2]; [apply Hfit; fold printable_refs in H; lia|].
      split; assumption.
    + apply NoDup_filter, Hnd.
    + intros ref Href. rewrite length_write_indices.
      apply Hrange. apply list_elem_of_filter in Href. apply Href.
Qed.

(** Which entries the list box shows after [options_changed]. *)
Lemma shown_entries_which d start_idx :
  set_print_index [] <$> shown_entries (options_result tk start_idx d)
  = set_print_index []
    <$> (let ordered :=
           if reverse_cb_IsChecked d then rev (_scheduled_sheets d)
           else _scheduled_sheets d in
         if placeholder_cb_IsChecked d then ordered
         else filter (fun sheet => printable sheet = true) ordered).
Proof.
  rewrite shown_entries_result. cbv zeta.
  rewrite <- omap_entry_order.
  destruct (placeholder_cb_IsChecked d).
  - apply omap_write_same.
  - rewrite <- omap_entry_filter.
    destruct (indexspace_cb_IsChecked d).
    + apply omap_write_same.
    + rewrite omap_write_same. apply omap_write_same.
Qed.

(** The numbers the entries get: by their place in the whole list when
    the placeholders are shown or counted, by their place in the shown
    list otherwise. *)
Lemma numbering_result d start_idx :
  let d' := options_result tk start_idx d in
  let w := Z.to_nat (Value (index_slider d')) in
  if placeholder_cb_IsChecked d || indexspace_cb_IsChecked d
  then forall k ref, shown_order d !! k = Some ref ->
         print_index <$> entry d' ref
         = Some (zero_pad w (Z.of_nat k + start_idx))
  else print_indices (shown_entries d')
       = (fun k => zero_pad w (Z.of_nat k + start_idx))
         <$> seq 0 (length (shown_entries d')).
Proof.
  cbv zeta. rewrite result_slider.
  set (w := Z.to_nat (Value (index_slider (after_slider tk start_idx d)))).
  pose proof (shown_order_NoDup d) as Hnd.
  pose proof (shown_order_in_range d) as Hrange.
  assert (Hfull : forall k ref, shown_order d !! k = Some ref ->
            print_index
              <$> write_indices w 0 start_idx (shown_order d)
                    (_scheduled_sheets d) !! ref
            = Some (zero_pad w (Z.of_nat k + start_idx))).
  { intros k ref Hk.
    rewrite (write_indices_at w _ 0 start_idx _ k ref Hnd Hk).
    destruct (lookup_lt_is_Some_2 (_scheduled_sheets d) ref) as [sheet ->].
    - apply Hrange, list_elem_of_lookup. eauto.
    - reflexivity. }
  pose proof (shown_entries_result d start_idx) as Hshown.
  cbv zeta in Hshown. fold w in Hshown.
  destruct (placeholder_cb_IsChecked d) eqn:Hph.
  { unfold options_result, entry. cbv zeta. rewrite Hph. exact Hfull. }
  destruct (indexspace_cb_IsChecked d) eqn:Hinc.
  { unfold options_result, entry. cbv zeta. rewrite Hph, Hinc. exact Hfull. }
  cbn [orb]. rewrite Hshown.
  set (refs := filter (fun ref => ref_printable d ref = true) (shown_order d)).
  assert (Htexts :
    print_indices
      (omap (fun ref =>
               write_indices w 0 start_idx refs
                 (write_indices w 0 start_idx (shown_order d)
                    (_scheduled_sheets d)) !! ref) refs)
    = (fun k => zero_pad w (Z.of_nat k + start_idx))
      <$> seq 0 (length refs)).
  { apply texts_after_write; [apply NoDup_filter, Hnd|].
    intros ref Href. rewrite length_write_indices. apply Hrange.
    apply list_elem_of_filter in Href. apply Href. }
  rewrite Htexts. f_equal. f_equal.
  apply (f_equal length) in Htexts. unfold print_indices in Htexts.
  rewrite !length_fmap, length_seq in Htexts. symmetry. exact Htexts.
Qed.

End ShownFacts.

(** X3: [_update_index_slider] leaves a slider whose least width is
    the number of digits of the count of entries plus the start index,
    and 2 at least, with three more widths above it; no print index of
    the list needs more digits than the least width. *)
Theorem slider_minimum_holds_every_index tk d d' :
  sane_toolkit tk ->
  _update_index_slider tk d = (d', Ok tt) ->
  exists start_idx,
    start_of d = Ok start_idx
    /\ Minimum (index_slider d')
       = Z.max
           (Z.of_nat (length (str_of_int
              (Z.of_nat (length (_scheduled_sheets d)) + start_idx)%Z))) 2
    /\ Maximum (index_slider d') = (Minimum (index_slider d') + 3)%Z
    /\ (Minimum (index_slider d') <= Value (index_slider d')
        <= Maximum (index_slider d'))%Z
    /\ ((0 <= start_idx)%Z ->
        forall idx, idx < length (_scheduled_sheets d) ->
          (Z.of_nat idx + start_idx < 10 ^ Minimum (index_slider d'))%Z).
Proof.
  intros Hsane Hrun. destruct (start_of d) as [start_idx|e] eqn:Hs.
  - exists start_idx. split; [reflexivity|].
    rewrite (update_index_slider_run tk d start_idx Hs) in Hrun.
    injection Hrun as <-.
    destruct (after_slider_sane tk Hsane start_idx d) as (H1 & H2 & H3).
    split; [exact H1|]. split; [exact H2|]. split; [exact H3|].
    intros Hstart idx Hidx. rewrite H1.
    set (count := Z.of_nat (length (_scheduled_sheets d))) in *.
    pose proof (str_of_int_fits (count + start_idx)%Z ltac:(lia)) as Hfit.
    set (digits := Z.of_nat (length (str_of_int (count + start_idx)%Z))) in *.
    assert (Hpow : (10 ^ digits <= 10 ^ Z.max digits 2)%Z)
      by (apply Z.pow_le_mono_r; lia).
    lia.
  - rewrite (update_index_slider_raise tk d e Hs) in Hrun.
    discriminate Hrun.
Qed.

Lemma sample_toolkit_sane : sane_toolkit sample_toolkit.
Proof.
  split.
  - intros m s. reflexivity.
  - intros M s HM. cbn. repeat split; lia.
Defined.

Lemma slider_minimum_witness :
  exists start_idx,
    start_of (sample_dialog false) = Ok start_idx
    /\ Minimum (index_slider
         (fst (_update_index_slider sample_toolkit (sample_dialog false))))
       = Z.max
           (Z.of_nat (length (str_of_int
              (Z.of_nat (length (_scheduled_sheets (sample_dialog false)))
               + start_idx)%Z))) 2.
Proof.
  destruct (slider_minimum_holds_every_index sample_toolkit
              (sample_dialog false)
              (fst (_update_index_slider sample_toolkit (sample_dialog false)))
              sample_toolkit_sane eq_refl)
    as (start_idx & H1 & H2 & _).
  exists start_idx. split; [exact H1|exact H2].
Defined.

(** X4: after [options_changed] the list box shows the scheduled
    entries in the order of the schedule, or the reverse when asked,
    all of them when the placeholders are shown and the printable ones
    otherwise; showing the placeholders checks and locks the box that
    counts them, hiding them unlocks it. *)
Theorem shown_entries_follow_options tk d d' :
  sane_toolkit tk ->
  options_changed tk d = (d', Ok tt) ->
  set_print_index [] <$> shown_entries d'
  = set_print_index []
    <$> (let ordered :=
           if reverse_cb_IsChecked d then rev (_scheduled_sheets d)
           else _scheduled_sheets d in
         if placeholder_cb_IsChecked d then ordered
         else filter (fun sheet => printable sheet = true) ordered)
  /\ (if placeholder_cb_IsChecked d
      then indexspace_cb_IsChecked d' = true
           /\ indexspace_cb_IsEnabled d' = false
      else indexspace_cb_IsChecked d' = indexspace_cb_IsChecked d
           /\ indexspace_cb_IsEnabled d' = true).
Proof.
  intros Hsane Hrun.
  destruct (options_changed_Ok_inv tk Hsane d d' Hrun)
    as (start_idx & _ & ->).
  split; [apply shown_entries_which|].
  unfold options_result. cbv zeta.
  destruct (placeholder_cb_IsChecked d); [split; reflexivity|].
  destruct (indexspace_cb_IsChecked d); split; reflexivity.
Qed.

Lemma shown_entries_witness :
  set_print_index []
    <$> shown_entries
          (fst (options_changed sample_toolkit (sample_dialog true)))
  = set_print_index []
    <$> filter (fun sheet => printable sheet = true) sample_items.
Proof.
  exact (proj1 (shown_entries_follow_options sample_toolkit
                  (sample_dialog true)
                  (fst (options_changed sample_toolkit (sample_dialog true)))
                  sample_toolkit_sane eq_refl)).
Defined.

(** X5: after [options_changed], with a start index that is not
    negative, the print indices of the entries shown are all as wide as
    the slider says and follow each other like words in a dictionary,
    so that files named after them sort in the order of the list. *)
Theorem shown_indices_sorted tk d d' :
  sane_toolkit tk ->
  options_changed tk d = (d', Ok tt) ->
  (forall start_idx, start_of d = Ok start_idx -> (0 <= start_idx)%Z) ->
  Forall (fun t => length t = Z.to_nat (Value (index_slider d')))
    (print_indices (shown_entries d'))
  /\ lex_increasing (print_indices (shown_entries d')).
Proof.
  intros Hsane Hrun Hstart.
  destruct (options_changed_Ok_inv tk Hsane d d' Hrun)
    as (start_idx & Hs & ->).
  apply (shown_indices_sorted_result tk Hsane), Hstart, Hs.
Qed.

Lemma shown_indices_sorted_witness :
  lex_increasing
    (print_indices
       (shown_entries
          (fst (options_changed sample_toolkit (sample_dialog true))))).
Proof.
  refine (proj2 (shown_indices_sorted sample_toolkit (sample_dialog true)
                   (fst (options_changed sample_toolkit (sample_dialog true)))
                   sample_toolkit_sane eq_refl _)).
  intros start_idx Hs. vm_compute in Hs. injection Hs as <-. lia.
Defined.

(** X6: the numbers [options_changed] gives.  When the placeholders are
    shown, or hidden but counted, every entry is numbered by its place
    in the whole list, the start index added, so that the numbers of the
    shown entries skip the hidden ones; when the placeholders are hidden
    and not counted, the shown entries are numbered one after the other
    from the start index. *)
Theorem entries_are_numbered_by_place tk d d' :
  sane_toolkit tk ->
  options_changed tk d = (d', Ok tt) ->
  exists start_idx,
    start_of d = Ok start_idx
    /\ let w := Z.to_nat (Value (index_slider d')) in
       if placeholder_cb_IsChecked d || indexspace_cb_IsChecked d
       then forall k ref, shown_order d !! k = Some ref ->
              print_index <$> entry d' ref
              = Some (zero_pad w (Z.of_nat k + start_idx))
       else print_indices (shown_entries d')
            = (fun k => zero_pad w (Z.of_nat k + start_idx))
              <$> seq 0 (length (shown_entries d')).
Proof.
  intros Hsane Hrun.
  destruct (options_changed_Ok_inv tk Hsane d d' Hrun)
    as (start_idx & Hs & ->).
  exists start_idx. split; [exact Hs|]. apply numbering_result.
Qed.

Lemma entries_numbered_witness :
  exists start_idx,
    start_of (sample_dialog false) = Ok start_idx
    /\ print_indices
         (shown_entries
            (fst (options_changed sample_toolkit (sample_dialog false))))
       = (fun k => zero_pad 2 (Z.of_nat k + start_idx)) <$> seq 0 2.
Proof.
  destruct (entries_are_numbered_by_place sample_toolkit (sample_dialog false)
              (fst (options_changed sample_toolkit (sample_dialog false)))
              sample_toolkit_sane eq_refl)
    as (start_idx & Hs & Hn).
  exists start_idx. split; [exact Hs|exact Hn].
Defined.



(** ** The button handler *)

Section Handler.
Variable env : Environment.
Variable self : PrintSheetsWindow.
Variables only_selected confirmed : bool.

Lemma alerts_run (cs : list call) h :
  for_each cs emit h = (after_calls cs h, Ok tt).
Proof.
  revert h. induction cs as [|c cs IH]; intros h.
  - unfold after_calls. cbn. rewrite app_nil_r. destruct h; reflexivity.
  - cbn [for_each]. rewrite (bind_run _ _ h (record_call c h) tt eq_refl).
    rewrite IH. unfold after_calls. cbn. rewrite <- app_assoc. reflexivity.
Qed.

Lemma handler_alerts_are_alerts c :
  c ∈ handler_alerts self only_selected -> exists msg, c = Alert msg.
Proof.
  unfold handler_alerts.
  destruct (is_nil (sheet_list self)); [intros H; inversion H|].
  destruct (is_nil (selected_sheets self));
    destruct (negb (combine_print self) && _);
    cbn [app]; intros H;
    repeat (apply elem_of_cons in H as [->|H]; [eauto|]);
    inversion H.
Qed.

Lemma emits_handler_alerts (Q : event -> Prop) :
  (forall sc msg, Q (mkEvent sc (Alert msg))) ->
  emits any_scopes Q (for_each (handler_alerts self only_selected) emit).
Proof.
  intros HQ. apply emits_for_each. intros c Hc.
  destruct (handler_alerts_are_alerts c Hc) as [msg ->].
  apply emits_emit. intros sc _. apply HQ.
Qed.

(** The handler shows its alerts, and then either gives up or closes
    the window, prints and puts the print setting back. *)
Lemma print_sheets_unfold :
  print_sheets env self only_selected confirmed
  = (for_each (handler_alerts self only_selected) emit ;;
     if nothing_to_print self only_selected confirmed then ret tt
     else
       emit CloseWindow ;;
       (if combine_print self
        then _print_combined_sheets_in_order env self
               (chosen_sheets self only_selected)
        else if selected_doc_IsLinked self
        then _print_linked_sheets_in_order env self
               (chosen_sheets self only_selected)
        else _print_sheets_in_order env self
               (chosen_sheets self only_selected)) ;;
       _reset_psettings env self).
Proof.
  unfold print_sheets, handler_alerts, nothing_to_print, chosen_sheets.
  destruct (is_nil (sheet_list self)); [reflexivity|].
  destruct (is_nil (selected_sheets self)); case only_selected;
    destruct (combine_print self);
    cbn [negb andb orb app for_each];
    unfold bind, ret, emit, modify; cbv beta iota zeta;
    try reflexivity;
    destruct (5 <? _); case confirmed; reflexivity.
Qed.

Lemma combined_submits_no_sheet targets :
  emits any_scopes
    (fun e => forall sheet d pm,
       ev_call e = SubmitPrint sheet d pm -> sheet = None)
    (_print_combined_sheets_in_order env self targets).
Proof.
  unfold _print_combined_sheets_in_order.
  emits_walk ltac:(intros;
    match goal with
    | Hc : ev_call _ = SubmitPrint _ _ _ |- _ =>
        simpl in Hc;
        first [discriminate Hc | injection Hc as <- _ _; reflexivity]
    end).
Qed.

Lemma reset_submits_nothing Q :
  (forall sc c, is_submit c = false -> Q (mkEvent sc c)) ->
  emits any_scopes Q (_reset_psettings env self).
Proof.
  intros HQ. unfold _reset_psettings.
  emits_walk ltac:(intros; apply HQ; reflexivity).
Qed.

Lemma print_sheets_jobs :
  emits any_scopes (handler_job self (chosen_sheets self only_selected))
    (print_sheets env self only_selected confirmed).
Proof.
  rewrite print_sheets_unfold.
  assert (Hother : forall sc c, is_submit c = false ->
            handler_job self (chosen_sheets self only_selected)
              (mkEvent sc c)).
  { intros sc c Hc sheet d pm Heq. simpl in Heq. subst c. discriminate Hc. }
  apply emits_bind;
    [apply emits_handler_alerts; intros sc msg; apply Hother; reflexivity|].
  intros _.
  destruct (nothing_to_print self only_selected confirmed);
    [apply emits_ret|].
  apply emits_bind; [apply emits_emit; intros sc _; apply Hother; reflexivity|].
  intros _.
  apply emits_bind; [|intros _; apply reset_submits_nothing, Hother].
  unfold handler_job. destruct (combine_print self).
  - apply combined_submits_no_sheet.
  - assert (Hsingle : forall e,
      single_job env (selected_naming_format self)
        (chosen_sheets self only_selected) e ->
      forall sheet d pm, ev_call e = SubmitPrint sheet d pm ->
        exists item, item ∈ chosen_sheets self only_selected
          /\ printable item = true /\ sheet = Some (revit_sheet item)).
    { intros e He sheet d pm Heq.
      destruct (He sheet d pm Heq) as (item & _ & H1 & H2 & H3 & _).
      exists item. repeat split; assumption. }
    destruct (selected_doc_IsLinked self).
    + eapply emits_weaken; [| |apply linked_jobs]; [auto|exact Hsingle].
    + eapply emits_weaken; [| |apply individual_jobs]; [auto|exact Hsingle].
Qed.

Lemma after_close_extends h h' r :
  (_ <- (if combine_print self
         then _print_combined_sheets_in_order env self
                (chosen_sheets self only_selected)
         else if selected_doc_IsLinked self
         then _print_linked_sheets_in_order env self
                (chosen_sheets self only_selected)
         else _print_sheets_in_order env self
                (chosen_sheets self only_selected)) ;;
   _reset_psettings env self) h = (h', r) ->
  extends (fun _ => True) h h'.
Proof.
  intros Hrun.
  revert h h' r Hrun.
  match goal with
  | |- forall h h' r, ?c h = (h', r) -> _ =>
      assert (Hc : emits any_scopes (fun _ => True) c);
      [|intros h h' r Hrun; exact (Hc h h' r I Hrun)]
  end.
  apply emits_bind; [|intros _; apply reset_submits_nothing; auto].
  destruct (combine_print self); [|destruct (selected_doc_IsLinked self)].
  - eapply emits_weaken; [| |apply combined_submits_no_sheet]; auto.
  - eapply emits_weaken; [| |apply linked_jobs]; auto.
  - eapply emits_weaken; [| |apply individual_jobs]; auto.
Qed.

Lemma print_sheets_first_call h h' r :
  print_sheets env self only_selected confirmed h = (h', r) ->
  (nothing_to_print self only_selected confirmed = true ->
   r = Ok tt /\ h' = after_calls (handler_alerts self only_selected) h)
  /\ (nothing_to_print self only_selected confirmed = false ->
      exists evs,
        trace h'
        = trace h
          ++ (mkEvent (scopes h) <$> handler_alerts self only_selected)
          ++ mkEvent (scopes h) CloseWindow :: evs).
Proof.
  rewrite print_sheets_unfold. intros Hrun.
  rewrite (bind_run _ _ _ _ _ (alerts_run _ h)) in Hrun.
  split; intros Hq; rewrite Hq in Hrun.
  - injection Hrun as <- <-. split; reflexivity.
  - change (bind (emit CloseWindow) ?k ?h0)
      with (k tt (record_call CloseWindow h0)) in Hrun.
    destruct (after_close_extends _ _ _ Hrun) as [_ (evs & Ht & _)].
    exists evs. rewrite Ht. cbn [trace record_call after_calls scopes].
    rewrite <- !app_assoc. reflexivity.
Qed.

Lemma print_sheets_reset h h' ps :
  print_sheets env self only_selected confirmed h = (h', Ok tt) ->
  nothing_to_print self only_selected confirmed = false ->
  _init_psettings self = Some ps ->
  CurrentPrintSetting (doc h') = Some ps /\ has_PrintManager env = true.
Proof.
  rewrite print_sheets_unfold. intros Hrun Hq Hps.
  rewrite (bind_run _ _ _ _ _ (alerts_run _ h)), Hq in Hrun.
  apply bind_Ok in Hrun as (h1 & [] & _ & Hrun).
  apply bind_Ok in Hrun as (h2 & [] & _ & Hrun).
  unfold _reset_psettings, _get_printmanager in Hrun. rewrite Hps in Hrun.
  destruct (has_PrintManager env).
  - injection Hrun as <-. split; reflexivity.
  - discriminate Hrun.
Qed.

Lemma no_print_manager_routines targets h :
  has_PrintManager env = false ->
  let h' := record_log CRITICAL "Error getting printer manager from document."
              h in
  _print_sheets_in_order env self targets h = (h', Ok tt)
  /\ _print_linked_sheets_in_order env self targets h = (h', Ok tt)
  /\ _print_combined_sheets_in_order env self targets h = (h', Ok tt).
Proof.
  intros Hpm. cbv zeta.
  unfold _print_sheets_in_order, _print_linked_sheets_in_order,
    _print_combined_sheets_in_order, _get_printmanager.
  rewrite Hpm. repeat split; reflexivity.
Qed.

Lemma no_print_manager_handler h :
  has_PrintManager env = false ->
  nothing_to_print self only_selected confirmed = false ->
  exists h',
    print_sheets env self only_selected confirmed h
    = (h', match _init_psettings self with
           | Some _ => Raise AttributeError
           | None => Ok tt
           end)
    /\ doc h' = doc h /\ print_mgr h' = print_mgr h
    /\ trace h'
       = trace h
         ++ (mkEvent (scopes h)
               <$> handler_alerts self only_selected ++ [CloseWindow]).
Proof.
  intros Hpm Hq. rewrite print_sheets_unfold.
  rewrite (bind_run _ _ _ _ _ (alerts_run _ h)), Hq.
  change (bind (emit CloseWindow) ?k ?h0)
    with (k tt (record_call CloseWindow h0)).
  cbv beta.
  destruct (no_print_manager_routines (chosen_sheets self only_selected)
              (record_call CloseWindow
                 (after_calls (handler_alerts self only_selected) h)) Hpm)
    as (H1 & H2 & H3).
  cbv zeta in H1, H2, H3.
  erewrite bind_run
    by (destruct (combine_print self);
        [exact H3|destruct (selected_doc_IsLinked self); [exact H2|exact H1]]).
  unfold _reset_psettings, _get_printmanager. rewrite Hpm.
  destruct (_init_psettings self); eexists; (split; [reflexivity|]);
    (split; [reflexivity|]); (split; [reflexivity|]);
    cbn [trace record_log record_call after_calls scopes];
    rewrite fmap_app, <- app_assoc; reflexivity.
Qed.

End Handler.

(** X8: [print_sheets] shows its alerts first: none for an empty list,
    the question about the selection when sheets are selected, then the
    question about printing one by one when more than five sheets would
    be.  When the list is empty or the user declines it does nothing
    else: the window stays open, the document, the print manager and
    the log are as they were.  Otherwise closing the window is its
    first call after the alerts, before any call of the print
    manager. *)
Theorem print_sheets_closes_window_first
    env self only_selected confirmed h h' r :
  print_sheets env self only_selected confirmed h = (h', r) ->
  (nothing_to_print self only_selected confirmed = true ->
   r = Ok tt
   /\ doc h' = doc h /\ print_mgr h' = print_mgr h /\ logs h' = logs h
   /\ trace h'
      = trace h ++ (mkEvent (scopes h) <$> handler_alerts self only_selected))
  /\ (nothing_to_print self only_selected confirmed = false ->
      exists evs,
        trace h'
        = trace h
          ++ (mkEvent (scopes h) <$> handler_alerts self only_selected)
          ++ mkEvent (scopes h) CloseWindow :: evs).
Proof.
  intros Hrun.
  destruct (print_sheets_first_call env self only_selected confirmed
              h h' r Hrun) as [Hnone Hsome].
  split; [|exact Hsome].
  intros Hq. destruct (Hnone Hq) as [-> ->]. repeat split; reflexivity.
Qed.

Lemma print_sheets_closes_witness :
  trace (fst (print_sheets sample_env busy_window false false sample_host))
  = trace sample_host
    ++ [mkEvent [] (Alert ASK_SELECTED);
        mkEvent [] (Alert (ask_individually 6))].
Proof.
  refine (proj2 (proj2 (proj2 (proj2
            (proj1 (print_sheets_closes_window_first sample_env
                      busy_window false false sample_host
                      _ _ (surjective_pairing _)) _))))).
  reflexivity.
Defined.

(** X9: every job the button handler submits is, in combined mode, a
    job for the current view sheet set and, in the other modes, a job
    for the sheet of a printable entry among the sheets chosen: the
    selected ones when the user asked for them, the listed ones
    otherwise. *)
Theorem print_sheets_prints_chosen_sheets
    env self only_selected confirmed h h' r sc sheet d pm :
  print_sheets env self only_selected confirmed h = (h', r) ->
  mkEvent sc (SubmitPrint sheet d pm) ∈ drop (length (trace h)) (trace h') ->
  if combine_print self then sheet = None
  else exists item,
         item ∈ chosen_sheets self only_selected
         /\ printable item = true /\ sheet = Some (revit_sheet item).
Proof.
  intros Hrun Hin.
  exact (emits_new_events _ _ _ _ _ _
           (print_sheets_jobs env self only_selected confirmed) Hrun Hin
           sheet d pm eq_refl).
Qed.

(** X10: when the button handler has printed and returns, the current
    print setting of the document is the one the dialog recorded when
    it was set up, if it recorded one. *)
Theorem print_sheets_puts_print_setting_back
    env self only_selected confirmed h h' ps :
  print_sheets env self only_selected confirmed h = (h', Ok tt) ->
  nothing_to_print self only_selected confirmed = false ->
  _init_psettings self = Some ps ->
  CurrentPrintSetting (doc h') = Some ps.
Proof.
  intros Hrun Hq Hps.
  exact (proj1 (print_sheets_reset env self only_selected confirmed
                  h h' ps Hrun Hq Hps)).
Qed.

(** X11: without a print manager each of the three print routines logs
    one critical record and returns, with no call to the host and the
    document and the scopes as they were; the button handler then only
    shows its alerts and closes the window, no more, and ends in an
    [AttributeError] when the dialog recorded a print setting to put
    back. *)
Theorem no_print_manager_prints_nothing
    env self only_selected confirmed targets h :
  has_PrintManager env = false ->
  (let h' := record_log CRITICAL
               "Error getting printer manager from document." h in
   _print_sheets_in_order env self targets h = (h', Ok tt)
   /\ _print_linked_sheets_in_order env self targets h = (h', Ok tt)
   /\ _print_combined_sheets_in_order env self targets h = (h', Ok tt))
  /\ (nothing_to_print self only_selected confirmed = false ->
      exists h',
        print_sheets env self only_selected confirmed h
        = (h', match _init_psettings self with
               | Some _ => Raise AttributeError
               | None => Ok tt
               end)
        /\ doc h' = doc h /\ print_mgr h' = print_mgr h
        /\ trace h'
           = trace h
             ++ (mkEvent (scopes h)
                   <$> handler_alerts self only_selected ++ [CloseWindow])).
Proof.
  intros Hpm. split.
  - apply no_print_manager_routines, Hpm.
  - apply no_print_manager_handler, Hpm.
Qed.

Lemma print_sheets_prints_witness :
  exists item,
    item ∈ chosen_sheets (sample_window false false) false
    /\ printable item = true /\ Some 1%N = Some (revit_sheet item).
Proof.
  assert (Hin : exists sc d pm,
            mkEvent sc (SubmitPrint (Some 1%N) d pm)
            ∈ drop (length (trace sample_host))
                (trace (fst (print_sheets sample_env
                               (sample_window false false) false false
                               sample_host)))).
  { vm_compute. do 3 eexists.
    repeat first [apply list_elem_of_here | apply list_elem_of_further]. }
  destruct Hin as (sc & d & pm & Hin).
  exact (print_sheets_prints_chosen_sheets sample_env
           (sample_window false false) false false sample_host _ _
           sc (Some 1%N) d pm (surjective_pairing _) Hin).
Defined.

Lemma print_sheets_puts_back_witness :
  CurrentPrintSetting
    (doc (fst (print_sheets sample_env (sample_window true false)
                 false false sample_host)))
  = Some 7%N.
Proof.
  apply (print_sheets_puts_print_setting_back sample_env
           (sample_window true false) false false sample_host).
  - vm_compute. reflexivity.
  - reflexivity.
  - reflexivity.
Defined.

Lemma no_print_manager_witness :
  exists h',
    print_sheets
      (mkEnvironment false (fun _ _ _ => true) (fun _ => true) true
         (fun s => s) (fun a b => a ++ b) (u "Desktop"))
      busy_window false true sample_host
    = (h', Raise AttributeError)
    /\ doc h' = doc sample_host /\ print_mgr h' = print_mgr sample_host
    /\ trace h'
       = trace sample_host
         ++ [mkEvent [] (Alert ASK_SELECTED);
             mkEvent [] (Alert (ask_individually 6));
             mkEvent [] CloseWindow].
Proof.
  exact (proj2 (no_print_manager_prints_nothing
                  (mkEnvironment false (fun _ _ _ => true) (fun _ => true)
                     true (fun s => s) (fun a b => a ++ b) (u "Desktop"))
                  busy_window false true [] sample_host
                  eq_refl) eq_refl).
Defined.

(** ** More on the ordering *)

Section OrderingMore.
Context {Sheet : Type}.
Variable SheetNumber : Sheet -> ustring.
Variable sched_data : list ustring.

Lemma files_under_spec k sheet :
  files_under SheetNumber sched_data k sheet = true
  <-> find_line SheetNumber sheet 0 sched_data = Ok (Some k).
Proof.
  unfold files_under.
  destruct (find_line SheetNumber sheet 0 sched_data) as [[n|]|e].
  - rewrite Nat.eqb_eq. split; congruence.
  - split; discriminate.
  - split; discriminate.
Qed.

Lemma last_filter_cons (P : Sheet -> Prop) `{forall x, Decision (P x)} x l :
  last (filter P (x :: l))
  = match last (filter P l) with
    | Some y => Some y
    | None => if decide (P x) then Some x else None
    end.
Proof.
  rewrite filter_cons. destruct (decide (P x)); [|destruct (last _); reflexivity].
  destruct (filter P l) as [|y l'] eqn:Hf; [reflexivity|].
  rewrite last_cons. destruct (last (y :: l')) eqn:Hl; [reflexivity|].
  apply last_None in Hl. discriminate Hl.
Qed.

(** After the outer loop a key holds the last sheet of the list filed
    under it, or what it held before. *)
Lemma fill_dict_last sheet_list : forall d d',
  fill_dict SheetNumber sched_data sheet_list d = Ok d' ->
  forall k,
    d' !! k = match last (filter (fun sheet =>
                    files_under SheetNumber sched_data k sheet = true)
                 sheet_list) with
              | Some sheet => Some sheet
              | None => d !! k
              end.
Proof.
  induction sheet_list as [|sheet rest IH]; intros d d' Hf k.
  - injection Hf as <-. reflexivity.
  - cbn [fill_dict] in Hf.
    destruct (find_line SheetNumber sheet 0 sched_data) as [found|e] eqn:Hfl;
      [|discriminate Hf].
    cbn [rbind] in Hf. rewrite (IH _ _ Hf k), last_filter_cons.
    destruct (last (filter _ rest)); [reflexivity|].
    destruct (decide (files_under SheetNumber sched_data k sheet = true))
      as [Hk|Hk].
    + apply files_under_spec in Hk. rewrite Hfl in Hk. injection Hk as ->.
      apply lookup_insert_eq.
    + destruct found as [line_no|]; [|reflexivity].
      apply lookup_insert_ne. intros ->. apply Hk, files_under_spec, Hfl.
Qed.

Lemma order_sheets_dict sheet_list out :
  sched_data <> [] ->
  order_sheets SheetNumber sched_data sheet_list = Ok out ->
  exists d,
    fill_dict SheetNumber sched_data sheet_list ∅ = Ok d
    /\ values_at d (sorted_keys d) = Ok out.
Proof.
  intros Hne Hrun. unfold order_sheets in Hrun.
  destruct sched_data as [|line rest] eqn:Hs; [congruence|].
  cbn [is_nil] in Hrun. rewrite <- Hs in *.
  destruct (fill_dict SheetNumber sched_data sheet_list ∅) as [d|e] eqn:Hf;
    [|discriminate Hrun].
  exists d. split; [reflexivity|exact Hrun].
Qed.

Lemma Forall2_values_key (d : gmap nat Sheet) keys out k :
  Forall2 (fun k sheet => d !! k = Some sheet) keys out -> k ∈ keys ->
  exists sheet, sheet ∈ out /\ d !! k = Some sheet.
Proof.
  induction 1 as [|k' s keys out Hk _ IH]; intros Hin.
  - apply elem_of_nil in Hin. destruct Hin.
  - apply elem_of_cons in Hin as [->|Hin].
    + exists s. split; [apply list_elem_of_here|exact Hk].
    + destruct (IH Hin) as (s' & Hs' & Hd). exists s'.
      split; [apply list_elem_of_further, Hs'|exact Hd].
Qed.

(** The sheets of the output: each is the last sheet of the list filed
    under its line, and every line some sheet is filed under has its
    sheet in the output. *)
Lemma order_sheets_last_wins sheet_list out :
  sched_data <> [] ->
  order_sheets SheetNumber sched_data sheet_list = Ok out ->
  (forall sheet, sheet ∈ out ->
     exists k l1 l2,
       find_line SheetNumber sheet 0 sched_data = Ok (Some k)
       /\ sheet_list = l1 ++ sheet :: l2
       /\ Forall (fun later =>
                    find_line SheetNumber later 0 sched_data <> Ok (Some k))
            l2)
  /\ (forall sheet k, sheet ∈ sheet_list ->
        find_line SheetNumber sheet 0 sched_data = Ok (Some k) ->
        exists kept,
          kept ∈ out
          /\ find_line SheetNumber kept 0 sched_data = Ok (Some k)).
Proof.
  intros Hne Hrun.
  destruct (order_sheets_dict sheet_list out Hne Hrun) as (d & Hfill & Hvals).
  apply values_at_Forall2 in Hvals.
  pose proof (fill_dict_last sheet_list ∅ d Hfill) as Hlast.
  split.
  - intros sheet Hin.
    destruct (Forall2_values_elem d _ _ sheet Hvals Hin) as (k & _ & Hk).
    rewrite Hlast in Hk.
    destruct (last (filter _ sheet_list)) as [s|] eqn:Hl;
      [|rewrite lookup_empty in Hk; discriminate Hk].
    injection Hk as ->.
    pose proof (last_Some_elem_of _ _ Hl) as Hs.
    apply list_elem_of_filter in Hs as [Hs _]. apply files_under_spec in Hs.
    apply last_filter_Some in Hl as (l1 & l2 & -> & Hl2).
    exists k, l1, l2. split; [exact Hs|]. split; [reflexivity|].
    eapply Forall_impl; [exact Hl2|].
    intros later Hn Hf. apply Hn, files_under_spec, Hf.
  - intros sheet k Hin Hf.
    assert (Hne' : filter (fun s => files_under SheetNumber sched_data k s = true)
                     sheet_list <> []).
    { intros Hnil.
      assert (Hs : sheet ∈ filter (fun s =>
                files_under SheetNumber sched_data k s = true) sheet_list)
        by (apply list_elem_of_filter; split;
            [apply files_under_spec, Hf|exact Hin]).
      rewrite Hnil in Hs. apply elem_of_nil in Hs. exact Hs. }
    apply last_is_Some in Hne' as [kept Hl].
    pose proof (Hlast k) as Hk. rewrite Hl in Hk.
    destruct (Forall2_values_key d _ _ k Hvals) as (s' & Hs' & Hd).
    { apply elem_of_sorted_keys. eauto. }
    rewrite Hk in Hd. injection Hd as <-.
    exists kept. split; [exact Hs'|].
    apply last_Some_elem_of, list_elem_of_filter in Hl as [Hl _].
    apply files_under_spec, Hl.
Qed.

(** Of two different sheets filed under the same line the earlier one
    is lost. *)
Lemma order_sheets_drops_earlier l1 s1 l2 s2 k out :
  sched_data <> [] ->
  order_sheets SheetNumber sched_data (l1 ++ s1 :: l2) = Ok out ->
  s1 ∉ l2 -> s2 ∈ l2 ->
  find_line SheetNumber s1 0 sched_data = Ok (Some k) ->
  find_line SheetNumber s2 0 sched_data = Ok (Some k) ->
  s1 ∉ out.
Proof.
  intros Hne Hrun Hnot Hin H1 H2 Hout.
  destruct (order_sheets_last_wins _ _ Hne Hrun) as [Hlast _].
  destruct (Hlast s1 Hout) as (k' & m1 & m2 & Hk' & Heq & Hlater).
  assert (k' = k) as -> by congruence.
  destruct (decide (length m1 = length l1)) as [Hlen|Hlen].
  - apply app_inj_1 in Heq as [_ Heq]; [|congruence].
    injection Heq as <-.
    rewrite Forall_forall in Hlater. exact (Hlater s2 Hin H2).
  - assert (Hl : (l1 ++ s1 :: l2) !! length m1 = Some s1)
      by (rewrite Heq; apply list_lookup_middle; reflexivity).
    destruct (decide (length m1 < length l1)) as [Hlt|Hge].
    + assert (Hs1 : s1 ∈ m2).
      { assert (Hl' : (m1 ++ s1 :: m2) !! length l1 = Some s1)
          by (rewrite <- Heq; apply list_lookup_middle; reflexivity).
        rewrite lookup_app_r in Hl' by lia.
        destruct (length l1 - length m1) as [|j] eqn:Hj; [lia|].
        cbn in Hl'. apply list_elem_of_lookup. eauto. }
      rewrite Forall_forall in Hlater. exact (Hlater s1 Hs1 H1).
    + rewrite lookup_app_r in Hl by lia.
      destruct (length m1 - length l1) as [|j] eqn:Hj; [lia|].
      cbn in Hl. apply Hnot, list_elem_of_lookup. eauto.
Qed.

Lemma fill_dict_app l1 l2 d :
  fill_dict SheetNumber sched_data (l1 ++ l2) d
  = rbind (fill_dict SheetNumber sched_data l1 d)
      (fill_dict SheetNumber sched_data l2).
Proof.
  revert d. induction l1 as [|sheet l1 IH]; intros d; [reflexivity|].
  cbn [app fill_dict].
  destruct (find_line SheetNumber sheet 0 sched_data); [|reflexivity].
  cbn [rbind]. apply IH.
Qed.

(** A pattern that does not compile stops the ordering. *)
Lemma order_sheets_bad_pattern l1 sheet l2 pattern e :
  sched_data <> [] ->
  patterns_compile SheetNumber sched_data l1 ->
  match_pattern SheetNumber sheet = Ok pattern ->
  re_compile pattern = Raise e ->
  order_sheets SheetNumber sched_data (l1 ++ sheet :: l2) = Raise e.
Proof.
  intros Hne Hc Hp He. unfold order_sheets.
  destruct sched_data as [|line rest] eqn:Hs; [congruence|].
  cbn [is_nil]. rewrite <- Hs in *.
  rewrite fill_dict_app.
  destruct (fill_dict_total SheetNumber sched_data l1 ∅ Hc) as [d ->].
  cbn [rbind fill_dict].
  replace (find_line SheetNumber sheet 0 sched_data) with (@Raise (option nat) e);
    [reflexivity|].
  rewrite Hs. cbn [find_line]. rewrite Hp. cbn [rbind].
  unfold re_match. rewrite He. reflexivity.
Qed.

Lemma StronglySorted_le_lt (l : list nat) :
  StronglySorted le l -> NoDup l -> StronglySorted lt l.
Proof.
  induction 1 as [|x l Hl IH Hx]; intros Hnd; [constructor|].
  apply NoDup_cons in Hnd as [Hnot Hnd]. constructor; [exact (IH Hnd)|].
  rewrite Forall_forall in Hx |- *. intros y Hy.
  specialize (Hx y Hy). assert (x <> y) by (intros ->; exact (Hnot Hy)). lia.
Qed.

End OrderingMore.

(** X12: a line of the schedule gives one sheet of the output at most:
    each sheet of the output is the last sheet of the input filed under
    its line, every line some sheet is filed under has its sheet in the
    output, and of two different sheets filed under the same line the
    earlier one is lost. *)
Theorem last_sheet_of_a_line_wins {Sheet : Type}
    (SheetNumber : Sheet -> ustring) sched_data sheet_list out :
  sched_data <> [] ->
  order_sheets SheetNumber sched_data sheet_list = Ok out ->
  (forall sheet, sheet ∈ out ->
     exists k l1 l2,
       find_line SheetNumber sheet 0 sched_data = Ok (Some k)
       /\ sheet_list = l1 ++ sheet :: l2
       /\ Forall (fun later =>
                    find_line SheetNumber later 0 sched_data <> Ok (Some k))
            l2)
  /\ (forall sheet k, sheet ∈ sheet_list ->
        find_line SheetNumber sheet 0 sched_data = Ok (Some k) ->
        exists kept,
          kept ∈ out
          /\ find_line SheetNumber kept 0 sched_data = Ok (Some k))
  /\ (forall l1 s1 l2 s2 k,
        sheet_list = l1 ++ s1 :: l2 -> s1 ∉ l2 -> s2 ∈ l2 ->
        find_line SheetNumber s1 0 sched_data = Ok (Some k) ->
        find_line SheetNumber s2 0 sched_data = Ok (Some k) ->
        s1 ∉ out).
Proof.
  intros Hne Hrun.
  destruct (order_sheets_last_wins SheetNumber sched_data sheet_list out
              Hne Hrun) as [H1 H2].
  split; [exact H1|]. split; [exact H2|].
  intros l1 s1 l2 s2 k -> Hnot Hin Hs1 Hs2.
  exact (order_sheets_drops_earlier SheetNumber sched_data l1 s1 l2 s2 k out
           Hne Hrun Hnot Hin Hs1 Hs2).
Qed.

Lemma last_sheet_wins_witness :
  order_sheets SheetNumber crowded_schedule crowded_sheets
  = Ok [mkViewSheet (u "A102") (u "SECOND FLOOR") true]
  /\ mkViewSheet (u "A101") (u "FIRST FLOOR") true
     ∉ [mkViewSheet (u "A102") (u "SECOND FLOOR") true].
Proof.
  assert (Hrun : order_sheets SheetNumber crowded_schedule crowded_sheets
                 = Ok [mkViewSheet (u "A102") (u "SECOND FLOOR") true])
    by (vm_compute; reflexivity).
  split; [exact Hrun|].
  refine (proj2 (proj2 (last_sheet_of_a_line_wins SheetNumber
            crowded_schedule crowded_sheets _ _ Hrun))
            [] _ [mkViewSheet (u "A102") (u "SECOND FLOOR") true]
            (mkViewSheet (u "A102") (u "SECOND FLOOR") true) 0
            eq_refl _ _ _ _).
  - discriminate.
  - intros Hin. apply elem_of_cons in Hin as [Hin|Hin];
      [discriminate Hin|apply elem_of_nil in Hin; exact Hin].
  - apply list_elem_of_here.
  - vm_compute. reflexivity.
  - vm_compute. reflexivity.
Defined.

(** X13: a sheet number that makes the regular expression one that
    [re] refuses to compile (an unbalanced parenthesis, a star with
    nothing to repeat) stops the ordering: the error of [re] goes to
    the caller, whatever the other sheets are. *)
Theorem bad_sheet_number_aborts_ordering {Sheet : Type}
    (SheetNumber : Sheet -> ustring) sched_data l1 sheet l2 pattern :
  sched_data <> [] ->
  patterns_compile SheetNumber sched_data l1 ->
  match_pattern SheetNumber sheet = Ok pattern ->
  re_compile pattern = Raise ReError ->
  order_sheets SheetNumber sched_data (l1 ++ sheet :: l2) = Raise ReError.
Proof. apply order_sheets_bad_pattern. Qed.

Lemma bad_sheet_number_witness :
  order_sheets SheetNumber sample_schedule
    ([] ++ mkViewSheet (u "A(1") (u "DETAIL") true :: sample_sheets)
  = Raise ReError.
Proof.
  apply (bad_sheet_number_aborts_ordering SheetNumber sample_schedule []
           (mkViewSheet (u "A(1") (u "DETAIL") true) sample_sheets
           (u "(^|.*\t)A(1(\t.*|$)")).
  - discriminate.
  - intros sheet line Hin. apply elem_of_nil in Hin. destruct Hin.
  - reflexivity.
  - vm_compute. reflexivity.
Defined.

(** X14: the sheets of the output go by strictly ascending number of
    the first line each of them matches. *)
Theorem output_ascends_by_first_matching_line {Sheet : Type}
    (SheetNumber : Sheet -> ustring) sched_data sheet_list out :
  sched_data <> [] ->
  order_sheets SheetNumber sched_data sheet_list = Ok out ->
  exists keys,
    StronglySorted lt keys
    /\ Forall2 (fun k sheet =>
                 find_line SheetNumber sheet 0 sched_data = Ok (Some k)
                 /\ no_match_before SheetNumber sched_data sheet k)
         keys out.
Proof.
  intros Hne Hrun.
  destruct (order_sheets_ascending SheetNumber sched_data sheet_list out
              Hne Hrun) as (keys & Hsorted & Hnd & Hlines).
  exists keys. split; [apply StronglySorted_le_lt; assumption|].
  eapply Forall2_impl; [exact Hlines|].
  intros k sheet Hk. split; [exact Hk|].
  apply (find_line_first SheetNumber sched_data), Hk.
Qed.

Lemma output_ascends_witness :
  exists keys,
    StronglySorted lt keys
    /\ Forall2 (fun k sheet =>
                 find_line SheetNumber sheet 0 sample_schedule = Ok (Some k)
                 /\ no_match_before SheetNumber sample_schedule sheet k)
         keys
         [mkViewSheet (u "A102") (u "SECOND FLOOR") true;
          mkViewSheet (u "A101") (u "FIRST FLOOR") true].
Proof.
  apply (output_ascends_by_first_matching_line SheetNumber sample_schedule
           sample_sheets).
  - discriminate.
  - vm_compute. reflexivity.
Defined.

(** ** Reading the schedule *)

Lemma lstrip_spec s :
  exists pre,
    s = pre ++ lstrip s
    /\ Forall (fun c => is_space c = true) pre
    /\ match lstrip s with
       | [] => True
       | c :: _ => is_space c = false
       end.
Proof.
  induction s as [|c s (pre & Hs & Hpre & Hhead)].
  - exists []. repeat split. constructor.
  - cbn [lstrip]. destruct (is_space c) eqn:Hc.
    + exists (c :: pre). split; [cbn; f_equal; exact Hs|].
      split; [constructor; assumption|exact Hhead].
    + exists []. split; [reflexivity|]. split; [constructor|exact Hc].
Qed.

Lemma last_rev_head {A} (l : list A) : last (rev l) = head l.
Proof. destruct l as [|x l]; [reflexivity|]. cbn [rev]. apply last_snoc. Qed.

(** [strip] takes the white space off both ends and nothing else. *)
Lemma strip_spec s : stripped_of s (strip s).
Proof.
  unfold strip.
  destruct (lstrip_spec s) as (pre & Hs & Hpre & Hhead).
  destruct (lstrip_spec (rev (lstrip s))) as (pre2 & Hr & Hpre2 & Hhead2).
  set (t := lstrip s) in *. set (w := lstrip (rev t)) in *.
  assert (Ht : t = rev w ++ rev pre2).
  { rewrite <- rev_app_distr, <- Hr, rev_involutive. reflexivity. }
  exists pre, (rev pre2). split; [rewrite <- Ht; exact Hs|].
  split; [exact Hpre|]. split; [apply Forall_rev, Hpre2|].
  split.
  - destruct (rev w) as [|c r] eqn:Hw; [exact I|].
    rewrite Ht in Hhead. exact Hhead.
  - rewrite last_rev_head. destruct w; [exact I|exact Hhead2].
Qed.

(** X15: the lines read from the exported file come back one for one,
    each without the white space at its ends and otherwise as it was,
    so that a blank line stays in its place as an empty text and the
    numbers of the lines are those of the file; nothing is logged.  A
    failure of the export itself is not caught: it goes to the caller
    and nothing is logged. *)
Theorem schedule_lines_are_stripped (lines : list ustring)
    (e : exn) (logs : list log_record) :
  (exists data,
     _get_schedule_text_data (FileLines lines) logs = (logs, Ok data)
     /\ Forall2 stripped_of lines data)
  /\ _get_schedule_text_data (ExportRaises e) logs = (logs, Raise e).
Proof.
  split; [|reflexivity].
  exists (map strip lines). split; [reflexivity|].
  induction lines as [|line rest IH]; constructor;
    [apply strip_spec|exact IH].
Qed.

(** The heading of the sample index with a line break and a tab around
    it. *)
Lemma schedule_lines_sample :
  _get_schedule_text_data
    (FileLines [[TAB] ++ u "A101" ++ [TAB] ++ u "FIRST" ++ [13%N; LF];
                [13%N; LF]]) []
  = ([], Ok [u "A101" ++ [TAB] ++ u "FIRST"; []]).
Proof. vm_compute. reflexivity. Qed.

(** ** Spaces in file names *)

Lemma replace_char_map (c d : N) (s : ustring) :
  replace [c] [d] s = map (fun x => if N.eqb c x then d else x) s.
Proof.
  unfold replace.
  induction s as [|x s IH]; [reflexivity|].
  cbn [replace_from startswith length map].
  destruct (N.eqb c x); cbn [andb]; simpl; f_equal; exact IH.
Qed.

Lemma replace_same_char (c : N) (s : ustring) : replace [c] [c] s = s.
Proof.
  rewrite replace_char_map. induction s as [|x s IH]; [reflexivity|].
  cbn [map]. rewrite IH. destruct (N.eqb_spec c x); congruence.
Qed.

Lemma replace_char_gone (c d : N) (s : ustring) :
  c <> d -> c ∉ replace [c] [d] s.
Proof.
  intros Hne. rewrite replace_char_map.
  induction s as [|x s IH]; [apply not_elem_of_nil|].
  cbn [map]. apply not_elem_of_cons. split; [|exact IH].
  destruct (N.eqb_spec c x); congruence.
Qed.

(** What the formats of the dialog do with the spaces of a sheet
    name. *)
Lemma name_spaces fmt (index number name : ustring) :
  fmt ∈ _setup_naming_formats ->
  (space fmt = u " " /\ replace (u " ") (space fmt) name = name)
  \/ (space fmt = u "_"
      /\ (SPACE ∉ replace (u " ") (space fmt) name)
      /\ (SPACE ∉ index -> SPACE ∉ number ->
          SPACE ∉ substitute (template fmt) index number
                    (replace (u " ") (space fmt) name))).
Proof.
  intros Hin. unfold _setup_naming_formats in Hin.
  assert (Hgone : SPACE ∉ replace (u " ") (u "_") name)
    by (apply (replace_char_gone 32 95); discriminate).
  repeat (apply elem_of_cons in Hin as [->|Hin];
          [first [ left; split; [reflexivity|apply (replace_same_char 32)]
                 | right; split; [reflexivity|]; split; [exact Hgone|];
                   intros Hi Hn; cbn [template space];
                   generalize dependent (replace (u " ") (u "_") name);
                   intros nm Hnm;
                   match goal with
                   | |- SPACE ∉ ?t =>
                       let t' := eval cbv -[app] in t in
                       change (SPACE ∉ t')
                   end;
                   repeat (rewrite ?not_elem_of_app, ?not_elem_of_cons);
                   repeat split;
                   first [assumption | discriminate | apply not_elem_of_nil]
                 ] |]).
  apply elem_of_nil in Hin. destruct Hin.
Qed.

(** X16: a naming format of the dialog either keeps the sheet name as
    it is (its space character is the space) or puts an underscore for
    every space of the name; in the second case the filled template has
    no space at all, provided the print index and the sheet number have
    none. *)
Theorem sheet_name_spaces_follow_format fmt (index number name : ustring) :
  fmt ∈ _setup_naming_formats ->
  (space fmt = u " " /\ replace (u " ") (space fmt) name = name)
  \/ (space fmt = u "_"
      /\ (SPACE ∉ replace (u " ") (space fmt) name)
      /\ (SPACE ∉ index -> SPACE ∉ number ->
          SPACE ∉ substitute (template fmt) index number
                    (replace (u " ") (space fmt) name))).
Proof. apply name_spaces. Qed.

Lemma sheet_name_spaces_witness :
  SPACE ∉ replace (u " ") (u "_") (u "1ST FLOOR PLAN").
Proof.
  destruct (sheet_name_spaces_follow_format
              (selected_naming_format (sample_window false false))
              (u "0001") (u "A1.00") (u "1ST FLOOR PLAN")
              sample_format_offered) as [[Hs _]|(_ & Hgone & _)].
  - discriminate Hs.
  - exact Hgone.
Defined.

(** ** Sheet numbers of plain code units *)

Lemma rmatch_star_any bos s k :
  rmatch (RStar RAny) bos s k = star_any k (length s) bos s.
Proof. reflexivity. Qed.

Lemma plain_char_step c f outer :
  plain_char c = true ->
  parse_step false (f :: outer) c
  = Ok (false, push_item (RChar c) LAtom f :: outer).
Proof.
  unfold plain_char. rewrite negb_true_iff. cbn [existsb].
  rewrite !orb_false_iff. intros (H1 & H2 & H3 & H4 & H5 & H6 & H7 & H8 & H9
    & H10 & H11 & H12 & H13 & H14 & _).
  unfold parse_step.
  rewrite H1, H2, H3, H4, H5, H6, H7, H8, H9, H10, H11, H12, H13, H14.
  reflexivity.
Qed.

Lemma parse_number number : forall items l,
  Forall (fun c => plain_char c = true) number ->
  parse_go false [Frame [] items l] (number ++ u "(\t.*|$)")
  = Ok (seq_of (after_number :: rev (map RChar number) ++ items)).
Proof.
  induction number as [|c number IH]; intros items l Hn.
  - reflexivity.
  - apply Forall_cons in Hn as [Hc Hn].
    cbn [app parse_go]. rewrite (plain_char_step c _ _ Hc). cbn [rbind fst snd].
    unfold push_item. cbn [fr_alts fr_items].
    rewrite (IH _ _ Hn). cbn [map rev]. rewrite <- app_assoc. reflexivity.
Qed.

Lemma fold_left_rev_chars number acc :
  fold_left (fun acc r => RSeq r acc) (rev (map RChar number)) acc
  = chars_then number acc.
Proof.
  induction number as [|c number IH]; [reflexivity|].
  cbn [map rev]. rewrite fold_left_app, IH. reflexivity.
Qed.

Lemma seq_of_number number :
  seq_of (after_number :: rev (map RChar number) ++ [before_number])
  = RSeq before_number (chars_then number (RSeq after_number REmpty)).
Proof.
  unfold seq_of. cbn [fold_left]. rewrite fold_left_app. cbn [fold_left].
  f_equal. apply fold_left_rev_chars.
Qed.

(** The pattern of a sheet number made of plain code units compiles to
    the two groups with the code units of the number between them. *)
Lemma compile_number_pattern number :
  Forall (fun c => plain_char c = true) number ->
  re_compile (u "(^|.*\t)" ++ number ++ u "(\t.*|$)")
  = Ok (RSeq before_number (chars_then number (RSeq after_number REmpty))).
Proof.
  intros Hn. unfold re_compile.
  change (parse_go false [Frame [] [] LNone]
            (u "(^|.*\t)" ++ number ++ u "(\t.*|$)"))
    with (parse_go false [Frame [] [before_number] LAtom]
            (number ++ u "(\t.*|$)")).
  rewrite (parse_number number _ _ Hn). f_equal. apply seq_of_number.
Qed.

(** Matching the code units of a text one after the other. *)
Lemma rmatch_chars number r : forall bos s k,
  rmatch (chars_then number r) bos s k
  = startswith number s
    && rmatch r (if is_nil number then bos else false)
         (drop (length number) s) k.
Proof.
  induction number as [|c number IH]; intros bos s k; [reflexivity|].
  cbn [chars_then fold_right rmatch]. fold (chars_then number r).
  destruct s as [|x s]; [reflexivity|].
  cbn [startswith length drop is_nil]. rewrite IH.
  rewrite (N.eqb_sym x c).
  destruct (N.eqb c x); [|reflexivity]. cbn [andb].
  destruct (startswith number s); [|reflexivity]. cbn [andb].
  destruct number; reflexivity.
Qed.

Lemma star_any_true k fuel bos s :
  (forall b t, k b t = true) -> star_any k fuel bos s = true.
Proof.
  intros Hk. destruct fuel; [apply Hk|].
  cbn [star_any]. rewrite Hk. apply orb_true_r.
Qed.

Lemma rmatch_seq a b bos s k :
  rmatch (RSeq a b) bos s k
  = rmatch a bos s (fun bos' s' => rmatch b bos' s' k).
Proof. reflexivity. Qed.

Lemma rmatch_alt a b bos s k :
  rmatch (RAlt a b) bos s k = rmatch a bos s k || rmatch b bos s k.
Proof. reflexivity. Qed.

Lemma rmatch_char c bos s k :
  rmatch (RChar c) bos s k
  = match s with
    | x :: s' => N.eqb x c && k false s'
    | [] => false
    end.
Proof. reflexivity. Qed.

(** What the group behind the number matches. *)
Lemma rmatch_after_number bos s :
  rmatch (RSeq after_number REmpty) bos s (fun _ _ => true)
  = match s with
    | [] => true
    | c :: rest => N.eqb c TAB || ueqb s [LF]
    end.
Proof.
  unfold after_number. rewrite rmatch_seq, rmatch_alt, !rmatch_seq, rmatch_char.
  destruct s as [|c rest]; [reflexivity|].
  rewrite rmatch_seq, rmatch_star_any, star_any_true by reflexivity.
  cbn [rmatch is_nil orb]. rewrite !andb_true_r. reflexivity.
Qed.

(** The starred dot takes any run of code units without a line feed. *)
Lemma star_any_spec k fuel : forall bos s,
  length s <= fuel ->
  star_any k fuel bos s = true
  <-> exists a b,
        s = a ++ b /\ (LF ∉ a)
        /\ k (if is_nil a then bos else false) b = true.
Proof.
  induction fuel as [|fuel IH]; intros bos s Hlen.
  - destruct s; [|cbn in Hlen; lia]. cbn [star_any]. split.
    + intros Hk. exists [], []. repeat split; [apply not_elem_of_nil|exact Hk].
    + intros (a & b & Hs & _ & Hk). symmetry in Hs.
      apply app_eq_nil in Hs as [-> ->]. exact Hk.
  - cbn [star_any rmatch]. rewrite orb_true_iff. split.
    + intros [Hstep|Hk].
      * destruct s as [|x s]; [discriminate Hstep|].
        apply andb_true_iff in Hstep as [Hx Hstep].
        apply andb_true_iff in Hstep as [_ Hstep].
        apply IH in Hstep as (a & b & -> & Ha & Hk);
          [|cbn in Hlen; lia].
        exists (x :: a), b. split; [reflexivity|]. split.
        -- apply not_elem_of_cons. split; [|exact Ha].
           apply negb_true_iff, N.eqb_neq in Hx. congruence.
        -- destruct a; exact Hk.
      * exists [], s. repeat split; [apply not_elem_of_nil|exact Hk].
    + intros (a & b & -> & Ha & Hk). destruct a as [|x a].
      * right. exact Hk.
      * left. apply not_elem_of_cons in Ha as [Hx Ha].
        cbn [app]. apply andb_true_iff. split.
        -- apply negb_true_iff, N.eqb_neq. congruence.
        -- apply andb_true_iff. split; [apply Nat.ltb_lt; cbn; lia|].
           apply IH; [cbn in Hlen; lia|].
           exists a, b. repeat split; [exact Ha|].
           destruct a; exact Hk.
Qed.

Lemma startswith_spec p s :
  startswith p s = true <-> exists rest, s = p ++ rest.
Proof.
  revert s. induction p as [|a p IH]; intros s.
  - cbn. split; [intros _; exists s; reflexivity|reflexivity].
  - destruct s as [|b s]; cbn [startswith].
    + split; [discriminate|intros [rest H]; discriminate H].
    + rewrite andb_true_iff, N.eqb_eq, IH. split.
      * intros [-> [rest ->]]. exists rest. reflexivity.
      * intros [rest [= -> ->]]. split; [reflexivity|]. exists rest.
        reflexivity.
Qed.

(** What the compiled pattern of a number matches at the beginning of
    a line. *)
Lemma match_number_spec number line :
  rmatch (RSeq before_number (chars_then number (RSeq after_number REmpty)))
    true line (fun _ _ => true) = true
  <-> exists pre rest,
        line = pre ++ number ++ rest
        /\ (pre = [] \/ exists a, pre = a ++ [TAB] /\ (LF ∉ a))
        /\ (rest = [] \/ rest = [LF] \/ exists r, rest = TAB :: r).
Proof.
  assert (Hk : forall bos s,
    rmatch (chars_then number (RSeq after_number REmpty)) bos s
      (fun _ _ => true) = true
    <-> exists rest, s = number ++ rest
          /\ (rest = [] \/ rest = [LF] \/ exists r, rest = TAB :: r)).
  { intros bos s. rewrite rmatch_chars, andb_true_iff, startswith_spec.
    rewrite rmatch_after_number. split.
    - intros [[rest ->] Hr]. exists rest. split; [reflexivity|].
      rewrite drop_app_length in Hr. destruct rest as [|c rest]; [auto|].
      apply orb_true_iff in Hr as [Hc|Hlf].
      + apply N.eqb_eq in Hc as ->. right. right. eauto.
      + unfold ueqb in Hlf. apply bool_decide_eq_true in Hlf. auto.
    - intros (rest & -> & Hr). split; [eauto|].
      rewrite drop_app_length.
      destruct Hr as [->|[->|[r ->]]]; [reflexivity|reflexivity|].
      rewrite N.eqb_refl. reflexivity. }
  unfold before_number at 1.
  rewrite rmatch_seq, rmatch_alt, orb_true_iff, !rmatch_seq.
  change (rmatch RBol true line ?k) with (k true line). cbv beta.
  change (rmatch REmpty true line ?k) with (k true line). cbv beta.
  rewrite Hk, rmatch_star_any, star_any_spec by reflexivity.
  split.
  - intros [(rest & -> & Hr)|(a & b & -> & Ha & Hb)].
    + exists [], rest. split; [reflexivity|]. split; [auto|exact Hr].
    + rewrite rmatch_seq, rmatch_char in Hb.
      destruct b as [|x b]; [discriminate Hb|].
      apply andb_true_iff in Hb as [Hx Hb]. apply N.eqb_eq in Hx as ->.
      change (rmatch REmpty false b ?k) with (k false b) in Hb. cbv beta in Hb.
      apply Hk in Hb as (rest & -> & Hr).
      exists (a ++ [TAB]), rest. split; [rewrite <- app_assoc; reflexivity|].
      split; [right; eauto|exact Hr].
  - intros (pre & rest & -> & [->|(a & -> & Ha)] & Hr).
    + left. exists rest. split; [reflexivity|exact Hr].
    + right. exists a, (TAB :: number ++ rest).
      split; [rewrite <- app_assoc; reflexivity|]. split; [exact Ha|].
      rewrite rmatch_seq, rmatch_char, N.eqb_refl. cbn [andb].
      change (rmatch REmpty false ?s ?k) with (k false s). cbv beta.
      apply Hk. exists rest. split; [reflexivity|exact Hr].
Qed.

(** The fields of a line: the runs without a tab between the tabs and
    the ends of the line. *)
Lemma fields_from_spec line : forall field x,
  TAB ∉ x ->
  x ∈ fields_from field line
  <-> (exists y rest, x = field ++ y /\ line = y ++ rest /\ ends_field rest)
      \/ (exists a rest, line = a ++ TAB :: x ++ rest /\ ends_field rest).
Proof.
  induction line as [|c line IH]; intros field x Hx.
  - cbn [fields_from]. rewrite list_elem_of_singleton. split.
    + intros ->. left. exists [], []. rewrite app_nil_r.
      repeat split. left. reflexivity.
    + intros [(y & rest & -> & Hl & _)|(a & rest & Hl & _)].
      * symmetry in Hl. apply app_eq_nil in Hl as [-> _].
        apply app_nil_r.
      * destruct a; discriminate Hl.
  - cbn [fields_from]. destruct (N.eqb_spec c TAB) as [->|Hc].
    + rewrite elem_of_cons, (IH [] x Hx). split.
      * intros [->|[(y & rest & -> & -> & Hr)|(a & rest & -> & Hr)]].
        -- left. exists [], (TAB :: line). rewrite app_nil_r.
           repeat split. right. eauto.
        -- right. exists [], rest. split; [reflexivity|exact Hr].
        -- right. exists (TAB :: a), rest. split; [reflexivity|exact Hr].
      * intros [(y & rest & -> & Hl & Hr)|(a & rest & Hl & Hr)].
        -- destruct y as [|t y].
           ++ left. apply app_nil_r.
           ++ injection Hl as <- _. exfalso. apply Hx.
              apply elem_of_app. right. apply list_elem_of_here.
        -- destruct a as [|t a]; injection Hl as Hl; subst.
           ++ right. left. exists x, rest. repeat split. exact Hr.
           ++ right. right. exists a, rest. split; [reflexivity|exact Hr].
    + rewrite (IH (field ++ [c]) x Hx). split.
      * intros [(y & rest & -> & -> & Hr)|(a & rest & -> & Hr)].
        -- left. exists (c :: y), rest. rewrite <- app_assoc.
           repeat split. exact Hr.
        -- right. exists (c :: a), rest. split; [reflexivity|exact Hr].
      * intros [(y & rest & -> & Hl & Hr)|(a & rest & Hl & Hr)].
        -- destruct y as [|t y].
           ++ cbn in Hl. subst rest. destruct Hr as [Hr|[r Hr]];
                [discriminate Hr|injection Hr as -> _; congruence].
           ++ injection Hl as <- ->. left. exists y, rest.
              rewrite <- app_assoc. repeat split. exact Hr.
        -- destruct a as [|t a]; injection Hl as Hl1 Hl2; subst.
           ++ congruence.
           ++ right. exists a, rest. split; [reflexivity|exact Hr].
Qed.

Lemma fields_spec line x :
  TAB ∉ x ->
  x ∈ fields line
  <-> exists pre rest,
        line = pre ++ x ++ rest
        /\ (pre = [] \/ exists a, pre = a ++ [TAB])
        /\ ends_field rest.
Proof.
  intros Hx. unfold fields. rewrite (fields_from_spec line [] x Hx). split.
  - intros [(y & rest & -> & -> & Hr)|(a & rest & -> & Hr)].
    + exists [], rest. repeat split; [left; reflexivity|exact Hr].
    + exists (a ++ [TAB]), rest. rewrite <- app_assoc.
      repeat split; [right; eauto|exact Hr].
  - intros (pre & rest & -> & [->|[a ->]] & Hr).
    + left. exists x, rest. repeat split. exact Hr.
    + right. exists a, rest. rewrite <- app_assoc. split; [reflexivity|exact Hr].
Qed.

Lemma plain_no_tab number :
  Forall (fun c => plain_char c = true) number -> TAB ∉ number.
Proof.
  intros Hn Hin. rewrite Forall_forall in Hn. specialize (Hn TAB Hin).
  discriminate Hn.
Qed.

(** For a number of plain code units and a line without a line feed the
    pattern matches just when the number is a field of the line. *)
Lemma plain_number_match number line :
  Forall (fun c => plain_char c = true) number -> LF ∉ line ->
  re_match (u "(^|.*\t)" ++ number ++ u "(\t.*|$)") line
  = Ok (bool_decide (number ∈ fields line)).
Proof.
  intros Hn Hlf. unfold re_match. rewrite (compile_number_pattern _ Hn).
  cbn [rbind]. f_equal.
  pose proof (match_number_spec number line) as Hm.
  pose proof (fields_spec line number (plain_no_tab _ Hn)) as Hf.
  assert (Hiff : rmatch (RSeq before_number
                   (chars_then number (RSeq after_number REmpty)))
                   true line (fun _ _ => true) = true
                 <-> number ∈ fields line).
  { rewrite Hm, Hf. split.
    - intros (pre & rest & -> & Hpre & Hrest). exists pre, rest.
      split; [reflexivity|]. split.
      + destruct Hpre as [->|(a & -> & _)]; [left; reflexivity|right; eauto].
      + destruct Hrest as [->|[->|Hr]]; [left; reflexivity| |right; exact Hr].
        exfalso. apply Hlf. rewrite !elem_of_app. right. right.
        apply list_elem_of_here.
    - intros (pre & rest & -> & Hpre & Hrest). exists pre, rest.
      split; [reflexivity|]. split.
      + destruct Hpre as [->|(a & ->)]; [left; reflexivity|right].
        exists a. split; [reflexivity|]. intros Ha. apply Hlf.
        rewrite !elem_of_app. left. left. exact Ha.
      + destruct Hrest as [->|Hr]; [left; reflexivity|right; right; exact Hr]. }
  destruct (rmatch _ true line _).
  - symmetry. apply bool_decide_eq_true, Hiff. reflexivity.
  - symmetry. apply bool_decide_eq_false. intros Hin.
    apply Hiff in Hin. discriminate Hin.
Qed.

Section PlainNumbers.
Context {Sheet : Type}.
Variable SheetNumber : Sheet -> ustring.

Lemma find_line_plain sheet sched_data : forall line_no,
  Forall (fun c => plain_char c = true) (SheetNumber sheet) ->
  Forall (fun line => LF ∉ line) sched_data ->
  find_line SheetNumber sheet line_no sched_data
  = Ok (first_field_line (SheetNumber sheet) line_no sched_data).
Proof.
  induction sched_data as [|line rest IH]; intros line_no Hn Hs;
    [reflexivity|].
  apply Forall_cons in Hs as [Hl Hs].
  cbn [find_line first_field_line]. rewrite match_pattern_Ok. cbn [rbind].
  rewrite (plain_number_match _ line Hn Hl). cbn [rbind].
  destruct (bool_decide (SheetNumber sheet ∈ fields line)); [reflexivity|].
  apply IH; assumption.
Qed.

End PlainNumbers.

(** X17: for sheet numbers made of plain code units (no character with
    a meaning in regular expressions, no tab, no line feed) and lines
    without a line feed, the pattern of a sheet matches a line just when
    the number is one of the tab-delimited fields of the line; the inner
    loop then finds the first line with such a field, and the ordering
    returns the sheets by strictly ascending number of that line. *)
Theorem plain_numbers_are_ordered_by_field {Sheet : Type}
    (SheetNumber : Sheet -> ustring) sched_data sheet_list :
  Forall (fun sheet =>
            Forall (fun c => plain_char c = true) (SheetNumber sheet))
    sheet_list ->
  Forall (fun line => LF ∉ line) sched_data ->
  (forall sheet line, sheet ∈ sheet_list -> line ∈ sched_data ->
     exists pattern,
       match_pattern SheetNumber sheet = Ok pattern
       /\ re_match pattern line
          = Ok (bool_decide (SheetNumber sheet ∈ fields line)))
  /\ (forall sheet, sheet ∈ sheet_list ->
        find_line SheetNumber sheet 0 sched_data
        = Ok (first_field_line (SheetNumber sheet) 0 sched_data))
  /\ (sched_data <> [] ->
      exists out keys,
        order_sheets SheetNumber sched_data sheet_list = Ok out
        /\ StronglySorted lt keys
        /\ Forall2 (fun k sheet =>
                     sheet ∈ sheet_list
                     /\ first_field_line (SheetNumber sheet) 0 sched_data
                        = Some k)
             keys out).
Proof.
  intros Hplain Hlf. rewrite Forall_forall in Hplain.
  rewrite Forall_forall in Hlf.
  assert (Hmatch : forall sheet line,
            sheet ∈ sheet_list -> line ∈ sched_data ->
            exists pattern,
              match_pattern SheetNumber sheet = Ok pattern
              /\ re_match pattern line
                 = Ok (bool_decide (SheetNumber sheet ∈ fields line))).
  { intros sheet line Hs Hl. eexists. split; [apply match_pattern_Ok|].
    apply plain_number_match; [apply Hplain, Hs|apply Hlf, Hl]. }
  assert (Hfind : forall sheet, sheet ∈ sheet_list ->
            find_line SheetNumber sheet 0 sched_data
            = Ok (first_field_line (SheetNumber sheet) 0 sched_data)).
  { intros sheet Hs. apply find_line_plain; [apply Hplain, Hs|].
    apply Forall_forall, Hlf. }
  split; [exact Hmatch|]. split; [exact Hfind|].
  intros Hne.
  destruct (order_sheets_total SheetNumber sched_data sheet_list)
    as [out Hrun].
  { intros sheet line Hs Hl. destruct (Hmatch sheet line Hs Hl) as (p & Hp & Hm).
    eauto. }
  destruct (order_sheets_ascending SheetNumber sched_data sheet_list out
              Hne Hrun) as (keys & Hsorted & Hnd & Hlines).
  destruct (order_sheets_last_wins SheetNumber sched_data sheet_list out
              Hne Hrun) as [Hlast _].
  exists out, keys. split; [exact Hrun|].
  split; [apply StronglySorted_le_lt; assumption|].
  assert (Hout : Forall (fun sheet => sheet ∈ sheet_list) out).
  { apply Forall_forall. intros sheet Hs.
    destruct (Hlast sheet Hs) as (k & l1 & l2 & _ & -> & _).
    apply elem_of_app. right. apply list_elem_of_here. }
  clear Hlast Hrun Hsorted Hnd.
  induction Hlines as [|k sheet keys out Hk Hrest IH]; [constructor|].
  apply Forall_cons in Hout as [Hs Hout]. constructor; [|exact (IH Hout)].
  split; [exact Hs|]. rewrite (Hfind sheet Hs) in Hk. congruence.
Qed.

Lemma plain_numbers_witness :
  exists out keys,
    order_sheets SheetNumber sample_schedule sample_sheets = Ok out
    /\ StronglySorted lt keys
    /\ Forall2 (fun k sheet =>
                 sheet ∈ sample_sheets
                 /\ first_field_line (SheetNumber sheet) 0 sample_schedule
                    = Some k)
         keys out.
Proof.
  refine (proj2 (proj2 (plain_numbers_are_ordered_by_field SheetNumber
            sample_schedule sample_sheets _ _)) _).
  - repeat constructor.
  - refine (bool_decide_unpack
              (Forall (fun line => LF ∉ line) sample_schedule) _).
    vm_compute. exact I.
  - discriminate.
Defined.

(** ** Selecting all elements of the same family *)

Lemma elem_of_flat_map {A B} (f : A -> list B) (l : list A) (y : B) :
  y ∈ flat_map f l <-> exists x, x ∈ l /\ y ∈ f x.
Proof.
  rewrite list_elem_of_In, in_flat_map. split.
  - intros (x & Hx & Hy). exists x. rewrite !list_elem_of_In. auto.
  - intros (x & Hx & Hy). exists x. rewrite <- !list_elem_of_In. auto.
Qed.

Section SameFamilyFacts.
Variable host : FamilyHost.

Lemma selected_types_Ok selection :
  (forall elId, elId ∈ selection -> is_Some (GetTypeId host elId)) ->
  exists types,
    selected_types host selection = Ok types
    /\ forall type_id,
         type_id ∈ types
         <-> exists elId,
               elId ∈ selection /\ GetTypeId host elId = Some type_id.
Proof.
  induction selection as [|elId rest IH]; intros Hall.
  - exists []. split; [reflexivity|]. intros t. split.
    + intros Hin. apply elem_of_nil in Hin. destruct Hin.
    + intros (x & Hin & _). apply elem_of_nil in Hin. destruct Hin.
  - destruct (Hall elId (list_elem_of_here _ _)) as [t Ht].
    destruct IH as (types & Hrun & Htypes).
    { intros x Hx. apply Hall, list_elem_of_further, Hx. }
    exists (t :: types). cbn [selected_types]. rewrite Ht, Hrun.
    split; [reflexivity|]. intros t'. rewrite elem_of_cons, Htypes. split.
    + intros [->|(x & Hx & Hx')].
      * exists elId. split; [apply list_elem_of_here|exact Ht].
      * exists x. split; [apply list_elem_of_further, Hx|exact Hx'].
    + intros (x & Hx & Hx'). apply elem_of_cons in Hx as [->|Hx].
      * left. congruence.
      * right. eauto.
Qed.

Lemma selected_types_raise selection elId :
  elId ∈ selection -> GetTypeId host elId = None ->
  selected_types host selection = Raise AttributeError.
Proof.
  induction selection as [|x rest IH]; intros Hin Hnone.
  - apply elem_of_nil in Hin. destruct Hin.
  - cbn [selected_types]. destruct (GetTypeId host x) as [t|] eqn:Hx;
      [|reflexivity].
    apply elem_of_cons in Hin as [->|Hin]; [congruence|].
    rewrite (IH Hin Hnone). reflexivity.
Qed.

Lemma elem_of_instances_of_family fsym id :
  id ∈ instances_of_family host fsym
  <-> exists family sym,
        Family host fsym = Some family
        /\ sym ∈ Symbols host family /\ id ∈ family_instances host sym.
Proof.
  unfold instances_of_family. destruct (Family host fsym) as [family|].
  - rewrite elem_of_flat_map. split.
    + intros (sym & Hs & Hi). exists family, sym. auto.
    + intros (f & sym & [= <-] & Hs & Hi). eauto.
  - split.
    + intros Hin. apply elem_of_nil in Hin. destruct Hin.
    + intros (f & sym & Hf & _). discriminate Hf.
Qed.

End SameFamilyFacts.

(** X18: when every selected element is in the document, the script
    selects just the instances of the symbols of the families the types
    of the selected elements belong to; an element whose type is no
    family symbol adds nothing, so that a selection of such elements
    only is emptied.  A selected id with no element behind it ends the
    script with an [AttributeError]. *)
Theorem same_family_selection host selection :
  sets_keep_elements host ->
  ((forall elId, elId ∈ selection -> is_Some (GetTypeId host elId)) ->
   exists ids,
     select_same_family host selection = Ok ids
     /\ (forall id,
          id ∈ ids
          <-> exists elId type_id family sym,
                elId ∈ selection
                /\ GetTypeId host elId = Some type_id
                /\ Family host type_id = Some family
                /\ sym ∈ Symbols host family
                /\ id ∈ family_instances host sym)
     /\ ((forall elId type_id, elId ∈ selection ->
            GetTypeId host elId = Some type_id ->
            Family host type_id = None) ->
         ids = []))
  /\ (forall elId, elId ∈ selection -> GetTypeId host elId = None ->
      select_same_family host selection = Raise AttributeError).
Proof.
  intros Hset. split.
  - intros Hall.
    destruct (selected_types_Ok host selection Hall)
      as (types & Hrun & Htypes).
    unfold select_same_family. rewrite Hrun. cbn [rbind]. cbv zeta.
    eexists. split; [reflexivity|].
    assert (Hids : forall id,
      id ∈ flat_map (instances_of_family host) (set_elements host types)
      <-> exists elId type_id family sym,
            elId ∈ selection
            /\ GetTypeId host elId = Some type_id
            /\ Family host type_id = Some family
            /\ sym ∈ Symbols host family
            /\ id ∈ family_instances host sym).
    { intros id. rewrite elem_of_flat_map. split.
      - intros (t & Ht & Hid). apply Hset, Htypes in Ht as (elId & He & Het).
        apply elem_of_instances_of_family in Hid as (f & sym & Hf & Hs & Hi).
        exists elId, t, f, sym. auto.
      - intros (elId & t & f & sym & He & Het & Hf & Hs & Hi).
        exists t. split.
        + apply Hset, Htypes. eauto.
        + apply elem_of_instances_of_family. eauto. }
    split; [exact Hids|].
    intros Hnone.
    destruct (flat_map (instances_of_family host) (set_elements host types))
      as [|id ids] eqn:Hl; [reflexivity|].
    destruct (proj1 (Hids id) (list_elem_of_here _ _))
      as (elId & t & f & sym & He & Het & Hf & _).
    rewrite (Hnone elId t He Het) in Hf. discriminate Hf.
  - intros elId Hin Hnone. unfold select_same_family.
    rewrite (selected_types_raise host selection elId Hin Hnone).
    reflexivity.
Qed.

Lemma sample_sets_keep_elements : sets_keep_elements sample_family_host.
Proof. intros l x. reflexivity. Defined.

Lemma same_family_witness :
  select_same_family sample_family_host [7%N; 1%N] = Raise AttributeError.
Proof.
  apply (proj2 (same_family_selection sample_family_host [7%N; 1%N]
                  sample_sets_keep_elements) 7%N).
  - apply list_elem_of_here.
  - reflexivity.
Defined.

(** Selecting one door and the wall selects the three doors. *)
Lemma same_family_sample :
  select_same_family sample_family_host [2%N; 4%N] = Ok [1%N; 2%N; 3%N].
Proof. reflexivity. Qed.

(** ** The combine option *)

Section NotCombined.
Variable env : Environment.
Variable self : PrintSheetsWindow.
Variables only_selected confirmed : bool.

Lemma single_job_no_number targets :
  emits any_scopes (fun e => is_number_write (ev_call e) = false)
    (_print_sheets_in_order env self targets)
  /\ emits any_scopes (fun e => is_number_write (ev_call e) = false)
       (_print_linked_sheets_in_order env self targets)
  /\ emits any_scopes (fun e => is_number_write (ev_call e) = false)
       (_reset_psettings env self).
Proof.
  unfold _print_sheets_in_order, _print_linked_sheets_in_order,
    _reset_psettings.
  split; [|split]; emits_walk ltac:(intros; reflexivity).
Qed.
Lemma uncombined_handler :
  combine_print self = false ->
  emits any_scopes
    (fun e =>
       is_number_write (ev_call e) = false
       /\ forall sheet d pm, ev_call e = SubmitPrint sheet d pm ->
            exists item,
              item ∈ chosen_sheets self only_selected
              /\ printable item = true /\ sheet = Some (revit_sheet item))
    (print_sheets env self only_selected confirmed).
Proof.
  intros Hc.
  assert (Hjobs := print_sheets_jobs env self only_selected confirmed).
  assert (Hnum : emits any_scopes
                   (fun e => is_number_write (ev_call e) = false)
                   (print_sheets env self only_selected confirmed)).
  { rewrite print_sheets_unfold, Hc.
    destruct (single_job_no_number (chosen_sheets self only_selected))
      as (H1 & H2 & H3).
    apply emits_bind;
      [apply emits_handler_alerts; intros; reflexivity|intros _].
    destruct (nothing_to_print self only_selected confirmed);
      [apply emits_ret|].
    apply emits_bind; [apply emits_emit; intros; reflexivity|intros _].
    apply emits_bind; [|intros _; exact H3].
    destruct (selected_doc_IsLinked self); assumption. }
  intros h h' r Hsc Hrun.
  destruct (Hjobs h h' r Hsc Hrun) as [Hs (evs & Ht & Hq)].
  destruct (Hnum h h' r Hsc Hrun) as [_ (evs' & Ht' & Hq')].
  assert (evs' = evs) as ->
    by (rewrite Ht in Ht'; exact (app_inv_head _ _ _ (eq_sym Ht'))).
  split; [exact Hs|]. exists evs. split; [exact Ht|].
  rewrite Forall_forall in Hq, Hq' |- *. intros e He. split.
  - exact (Hq' e He).
  - intros sheet d pm Heq. specialize (Hq e He sheet d pm Heq).
    rewrite Hc in Hq. exact Hq.
Qed.

End NotCombined.

(** X19: [_update_combine_option] unchecks and locks the combine box
    for a linked document and for a schedule printed with variable
    paper size; with the box in that state the button handler never
    renames a sheet and submits jobs for single printable sheets of the
    chosen list only. *)
Theorem linked_documents_are_not_printed_combined
    env self only_selected confirmed selected_schedule combine_cb
    h h' r e :
  combine_print self
  = cb_IsChecked
      (_update_combine_option (selected_doc_IsLinked self) selected_schedule
         (Some (selected_print_setting self)) combine_cb) ->
  selected_doc_IsLinked self = true
  \/ (selected_schedule = true
      /\ allows_variable_paper (selected_print_setting self) = true) ->
  print_sheets env self only_selected confirmed h = (h', r) ->
  e ∈ drop (length (trace h)) (trace h') ->
  _update_combine_option (selected_doc_IsLinked self) selected_schedule
    (Some (selected_print_setting self)) combine_cb
  = mkCheckBox false false
  /\ is_number_write (ev_call e) = false
  /\ (forall sheet d pm, ev_call e = SubmitPrint sheet d pm ->
       exists item,
         item ∈ chosen_sheets self only_selected
         /\ printable item = true /\ sheet = Some (revit_sheet item)).
Proof.
  intros Hbox Hcase Hrun Hin.
  assert (Hupd : _update_combine_option (selected_doc_IsLinked self)
                   selected_schedule (Some (selected_print_setting self))
                   combine_cb = mkCheckBox false false).
  { unfold _update_combine_option.
    destruct Hcase as [->|[-> ->]]; [reflexivity|].
    rewrite orb_true_r. reflexivity. }
  rewrite Hupd in Hbox. cbn [cb_IsChecked] in Hbox.
  split; [exact Hupd|].
  exact (emits_new_events _ _ _ _ _ _
           (uncombined_handler env self only_selected confirmed Hbox)
           Hrun Hin).
Qed.

Lemma linked_not_combined_witness :
  exists sc d pm,
    mkEvent sc (SubmitPrint (Some 1%N) d pm)
    ∈ drop (length (trace sample_host))
        (trace (fst (print_sheets sample_env (sample_window false true)
                       false false sample_host)))
    /\ is_number_write (SubmitPrint (Some 1%N) d pm) = false
    /\ exists item,
         item ∈ chosen_sheets (sample_window false true) false
         /\ printable item = true /\ Some 1%N = Some (revit_sheet item).
Proof.
  assert (Hin : exists sc d pm,
            mkEvent sc (SubmitPrint (Some 1%N) d pm)
            ∈ drop (length (trace sample_host))
                (trace (fst (print_sheets sample_env
                               (sample_window false true) false false
                               sample_host)))).
  { vm_compute. do 3 eexists.
    repeat first [apply list_elem_of_here | apply list_elem_of_further]. }
  destruct Hin as (sc & d & pm & Hin).
  exists sc, d, pm. split; [exact Hin|].
  destruct (linked_documents_are_not_printed_combined sample_env
              (sample_window false true) false false true
              (mkCheckBox true true) sample_host _ _
              (mkEvent sc (SubmitPrint (Some 1%N) d pm))
              eq_refl (or_introl eq_refl) (surjective_pairing _) Hin)
    as (_ & Hw & Hjob).
  split; [exact Hw|]. exact (Hjob (Some 1%N) d pm eq_refl).
Defined.

(** ** Error paths of the combined print routine *)

Lemma quiet_ret {A} (a : A) : quiet (ret (St := Host) a).
Proof. intros h h' x [= <- _]. reflexivity. Qed.

Lemma quiet_raise {A} e : quiet (raise (St := Host) (A := A) e).
Proof. intros h h' x [=]. Qed.

Lemma quiet_gets {A} (f : Host -> A) : quiet (gets f).
Proof. intros h h' x [= <- _]. reflexivity. Qed.

Lemma quiet_emit c : quiet (emit c).
Proof. intros h h' x [= <-]. reflexivity. Qed.

Lemma quiet_modify_doc f : quiet (modify (with_doc f)).
Proof. intros h h' x [= <-]. reflexivity. Qed.

Lemma quiet_modify_pm f : quiet (modify (with_print_mgr f)).
Proof. intros h h' x [= <-]. reflexivity. Qed.

Lemma quiet_bind {A B} (c : M Host A) (k : A -> M Host B) :
  quiet c -> (forall a, quiet (k a)) -> quiet (bind c k).
Proof.
  intros Hc Hk h h' b Hrun. unfold bind in Hrun.
  destruct (c h) as [h1 [a|e]] eqn:Hc1; [|discriminate].
  rewrite (Hk _ _ _ _ Hrun). eapply Hc, Hc1.
Qed.

Lemma quiet_with_scope {A} s (body : M Host A) :
  quiet body -> quiet (with_scope s body).
Proof.
  intros Hb h h' a Hrun. unfold with_scope in Hrun.
  destruct (body (with_scopes (cons s) h)) as [h1 [x|e]] eqn:Hb1;
    [|discriminate].
  injection Hrun as <- <-. apply Hb in Hb1. cbn in Hb1.
  destruct (is_dry s); exact Hb1.
Qed.

Lemma quiet_try_reraise {A} (c : M Host A) l msg :
  quiet c ->
  quiet (try_except c (fun e => bind (log l msg) (fun _ => raise e))).
Proof.
  intros Hc h h' a Hrun. unfold try_except in Hrun.
  destruct (c h) as [h1 [x|e]] eqn:Hc1.
  - injection Hrun as <- <-. eapply Hc, Hc1.
  - destruct (is_Exception e); discriminate.
Qed.

Lemma quiet_get_SheetNumber id : quiet (get_SheetNumber id).
Proof.
  intros h h' a Hrun. unfold get_SheetNumber in Hrun.
  destruct (sheets (doc h) !! id); [|discriminate].
  injection Hrun as <- _. reflexivity.
Qed.

Lemma quiet_set_SheetNumber env id number :
  quiet (set_SheetNumber env id number).
Proof.
  intros h h' a Hrun. unfold set_SheetNumber in Hrun.
  destruct (sheets (doc h) !! id); [|discriminate].
  destruct (accepts_SheetNumber _ _ _ _); [|discriminate].
  injection Hrun as <-. reflexivity.
Qed.

(** Walks a computation that writes no log record when it returns. *)
Ltac quiet_walk :=
  repeat first
    [ apply quiet_ret | apply quiet_raise | apply quiet_gets
    | apply quiet_emit | apply quiet_modify_doc | apply quiet_modify_pm
    | apply quiet_get_SheetNumber | apply quiet_set_SheetNumber
    | apply quiet_with_scope | apply quiet_try_reraise | apply quiet_bind
    | match goal with
      | |- quiet (if ?b then _ else _) => destruct b
      end
    | progress cbv zeta
    | match goal with |- forall _, _ => intro end ].

Lemma quiet_set_Views env sheet_set : quiet (set_Views env sheet_set).
Proof. unfold set_Views, update_pm. quiet_walk. Qed.

Lemma quiet_fix_sheet_numbers env targets :
  forall idx sheet_set originals,
  quiet (fix_sheet_numbers env idx targets sheet_set originals).
Proof.
  induction targets as [|sheet rest IH]; intros idx sset origs;
    cbn [fix_sheet_numbers]; [apply quiet_ret|].
  quiet_walk. apply IH.
Qed.

Section Aborts.
Context {A B : Type}.
Variable P : Document -> Prop.
Variable e : exn.
Variable Q : event -> Prop.
Variable W : list event -> Prop.
Hypothesis W_later : forall pre evs, W evs -> W (pre ++ evs).

Lemma aborts_bind_total L (c : M Host A) (k : A -> M Host B) :
  total P c -> emits any_scopes Q c -> quiet c ->
  (forall a, aborts P e Q W L (k a)) -> aborts P e Q W L (bind c k).
Proof.
  intros Ht He Hq Hk h Hp.
  destruct (Ht h Hp) as (h1 & a & Hc & Hp1).
  destruct (He _ _ _ I Hc) as [_ (evs1 & Ht1 & Hq1)].
  destruct (Hk a h1 Hp1) as (h' & evs & rest & Hrun & Htr & Hqs & Hw & Hl).
  exists h', (evs1 ++ evs), rest. unfold bind. rewrite Hc.
  split; [exact Hrun|]. split; [rewrite Htr, Ht1, app_assoc; reflexivity|].
  split; [apply Forall_app; split; assumption|].
  split; [apply W_later, Hw|]. rewrite Hl, (Hq _ _ _ Hc). reflexivity.
Qed.

Lemma aborts_bind_now L (c : M Host A) (k : A -> M Host B) :
  aborts P e Q W L c -> aborts P e Q W L (bind c k).
Proof.
  intros Hc h Hp. destruct (Hc h Hp) as (h' & evs & rest & Hrun & Hrest).
  exists h', evs, rest. unfold bind. rewrite Hrun.
  split; [reflexivity|exact Hrest].
Qed.

Lemma aborts_ret_bind L (a : A) (k : A -> M Host B) :
  aborts P e Q W L (k a) -> aborts P e Q W L (bind (ret a) k).
Proof. intros Hk. exact Hk. Qed.

Lemma aborts_with_scope L s (body : M Host A) :
  aborts P e Q W L body -> aborts P e Q W L (with_scope s body).
Proof.
  intros Hb h Hp.
  destruct (Hb (with_scopes (cons s) h) Hp)
    as (h1 & evs & rest & Hrun & Htr & Hqs & Hw & Hl).
  eexists (abort_scope h h1), evs, (rest ++ [_]).
  unfold with_scope. rewrite Hrun.
  split; [reflexivity|]. split; [exact Htr|]. split; [exact Hqs|].
  split; [exact Hw|]. cbn. rewrite Hl, !app_assoc. reflexivity.
Qed.

End Aborts.

Lemma ends_with_call_later c pre evs :
  ends_with_call c evs -> ends_with_call c (pre ++ evs).
Proof. intros [sc H]. exists sc. rewrite last_app, H. reflexivity. Qed.

Lemma aborts_combined_refused env P Q :
  accepts_CombinedFile env = false ->
  (forall sc, Q (mkEvent sc ALERT_PRINTER)) ->
  aborts P SystemExit Q (ends_with_call ALERT_PRINTER) []
    (try_except (set_CombinedFile env true)
       (fun _ => bind (emit ALERT_PRINTER) (fun _ => raise SystemExit))).
Proof.
  intros Hcf HQ h _. unfold set_CombinedFile. rewrite Hcf.
  exists (record_call ALERT_PRINTER h), [mkEvent (scopes h) ALERT_PRINTER], [].
  split; [reflexivity|]. split; [reflexivity|].
  split; [constructor; [apply HQ|constructor]|].
  split; [exists (scopes h); reflexivity|].
  cbn. rewrite app_nil_r. reflexivity.
Qed.

Lemma aborts_view_set_refused env P Q sheet_set name msg :
  accepts_ViewSet env sheet_set = false ->
  aborts P (HostException "view set refused") Q (fun _ => True)
    [LogRecord CRITICAL msg]
    (try_except (bind (set_Views env sheet_set) (fun _ => SaveAs_ name))
       (fun viewset_err =>
          bind (log CRITICAL msg) (fun _ => raise viewset_err))).
Proof.
  intros Hvs h _. unfold set_Views. rewrite Hvs.
  exists (record_log CRITICAL msg h), [], [].
  split; [reflexivity|]. split; [cbn; rewrite app_nil_r; reflexivity|].
  split; [constructor|]. split; [exact I|reflexivity].
Qed.

(** One step of the routine that returns before the one that raises. *)
Ltac aborts_prefix :=
  apply aborts_bind_total;
    [ try apply ends_with_call_later; try (intros; exact I)
    | total_walk
    | emits_walk side_no_submit
    | quiet_walk;
      first [apply quiet_fix_sheet_numbers | apply quiet_set_Views]
    | intros ? ].

Section CombinedErrors.
Variable env : Environment.
Variable self : PrintSheetsWindow.
Variable targets : list ViewSheetListItem.
Hypothesis has_pm : has_PrintManager env = true.
Hypothesis numbers_accepted : accepts_every_number env.

Lemma combined_file_refused_aborts :
  (forall v, accepts_ViewSet env v = true) ->
  accepts_CombinedFile env = false ->
  aborts (has_sheets targets) SystemExit no_submit
    (ends_with_call ALERT_PRINTER) []
    (_print_combined_sheets_in_order env self targets).
Proof.
  intros Hvs Hcf.
  unfold _print_combined_sheets_in_order, _get_printmanager.
  rewrite has_pm. apply aborts_ret_bind.
  apply aborts_with_scope. cbn [negb].
  unfold set_CurrentPrintSetting, SelectNewPrintDriver_, set_PrintRange,
    set_PrintOrderReverse, delete_ViewSheetSet, SaveAs_, update_pm.
  do 6 aborts_prefix.
  apply aborts_bind_now. apply aborts_combined_refused; [exact Hcf|].
  intros sc. reflexivity.
Qed.

Lemma view_set_refused_aborts :
  (forall v, accepts_ViewSet env v = false) ->
  aborts (has_sheets targets) (HostException "view set refused") no_submit
    (fun _ => True)
    [LogRecord CRITICAL "Error setting sheet set on print mechanism."]
    (_print_combined_sheets_in_order env self targets).
Proof.
  intros Hvs.
  unfold _print_combined_sheets_in_order, _get_printmanager.
  rewrite has_pm. apply aborts_ret_bind.
  apply aborts_with_scope. cbn [negb].
  unfold set_CurrentPrintSetting, SelectNewPrintDriver_, set_PrintRange,
    delete_ViewSheetSet, update_pm.
  do 4 aborts_prefix.
  apply aborts_bind_now. apply aborts_with_scope.
  apply aborts_view_set_refused, Hvs.
Qed.

End CombinedErrors.

(** X20: when the printer refuses to combine the sheets in one file,
    the combined print routine shows the alert and leaves the script:
    the alert is the last call it makes, so the print job is neither
    set up further nor submitted, and the routine itself does not put
    the sheet numbers back. *)
Theorem refused_combined_file_stops_printing env self targets h :
  has_PrintManager env = true -> accepts_every_number env ->
  (forall v, accepts_ViewSet env v = true) ->
  accepts_CombinedFile env = false ->
  has_sheets targets (doc h) ->
  exists h' evs,
    _print_combined_sheets_in_order env self targets h
    = (h', Raise SystemExit)
    /\ trace h' = trace h ++ evs
    /\ ends_with_call ALERT_PRINTER evs
    /\ Forall no_submit evs.
Proof.
  intros Hpm Hacc Hvs Hcf Hin.
  destruct (combined_file_refused_aborts env self targets Hpm Hacc Hvs Hcf
              h Hin) as (h' & evs & rest & Hrun & Htr & Hq & Hw & _).
  exists h', evs. repeat split; assumption.
Qed.

Lemma refused_combined_file_witness :
  exists h' evs,
    _print_combined_sheets_in_order picky_env (sample_window true false)
      sample_items sample_host = (h', Raise SystemExit)
    /\ trace h' = trace sample_host ++ evs
    /\ ends_with_call ALERT_PRINTER evs
    /\ Forall no_submit evs.
Proof.
  apply (refused_combined_file_stops_printing picky_env
           (sample_window true false) sample_items sample_host).
  - reflexivity.
  - intros m id number. reflexivity.
  - intros v. reflexivity.
  - reflexivity.
  - exact sample_items_in_document.
Defined.

(** X21: when the print mechanism refuses the view set, the combined
    print routine logs the critical record first and lets the error of
    the host go on to the caller: none of the calls it has made is a
    print job. *)
Theorem refused_view_set_stops_printing env self targets h :
  has_PrintManager env = true -> accepts_every_number env ->
  (forall v, accepts_ViewSet env v = false) ->
  has_sheets targets (doc h) ->
  exists h' evs rest,
    _print_combined_sheets_in_order env self targets h
    = (h', Raise (HostException "view set refused"))
    /\ trace h' = trace h ++ evs
    /\ Forall no_submit evs
    /\ logs h' = logs h
         ++ LogRecord CRITICAL "Error setting sheet set on print mechanism."
            :: rest.
Proof.
  intros Hpm Hacc Hvs Hin.
  destruct (view_set_refused_aborts env self targets Hpm Hacc Hvs
              h Hin) as (h' & evs & rest & Hrun & Htr & Hq & _ & Hl).
  exists h', evs, rest. repeat split; assumption.
Qed.

Lemma refused_view_set_witness :
  exists h' evs rest,
    _print_combined_sheets_in_order stubborn_env (sample_window true false)
      sample_items sample_host
    = (h', Raise (HostException "view set refused"))
    /\ trace h' = trace sample_host ++ evs
    /\ Forall no_submit evs
    /\ logs h' = logs sample_host
         ++ LogRecord CRITICAL "Error setting sheet set on print mechanism."
            :: rest.
Proof.
  apply (refused_view_set_stops_printing stubborn_env
           (sample_window true false) sample_items sample_host).
  - reflexivity.
  - intros m id number. reflexivity.
  - intros v. reflexivity.
  - exact sample_items_in_document.
Defined.
